(** * Build controller: reconciliation core

    A shallow embedding of [pkg/build/controller/build/build_controller.go]:
    the trigger queue that maps image streams to the builds waiting on them,
    the build phase state machine, the handlers that turn (build, pod) pairs
    into [buildUpdate] deltas, and the single update path [updateBuild].

    Conventions.
    - Go strings are byte strings: [string], with [length] counting bytes.
    - A nil-able pointer is an [option]; a Go [error] is [option error].
    - [metav1.Time] is an instant in nanoseconds since the Unix epoch (a [Z]);
      [time.Duration] is a signed 64-bit count of nanoseconds.
    - Methods of [*BuildController] thread the controller's mutable state and
      the effects it has on its collaborators through the state monad [M]. *)

From Stdlib Require Import ZArith Lia Ascii String.
From stdpp Require Import base option list strings gmap.

Local Open Scope string_scope.
Local Open Scope list_scope.
Local Open Scope Z_scope.

(** ** API objects *)

(** [buildv1.BuildPhase]. *)
Inductive BuildPhase : Type :=
| BuildPhaseNew
| BuildPhasePending
| BuildPhaseRunning
| BuildPhaseComplete
| BuildPhaseFailed
| BuildPhaseError
| BuildPhaseCancelled.

#[global] Instance BuildPhase_eq_dec : EqDecision BuildPhase.
Proof. solve_decision. Defined.

(** [corev1.PodPhase]. *)
Inductive PodPhase : Type :=
| PodPending
| PodRunning
| PodSucceeded
| PodFailed
| PodUnknown.

#[global] Instance PodPhase_eq_dec : EqDecision PodPhase.
Proof. solve_decision. Defined.

(** [metav1.Time] and [time.Duration]. *)
Definition Time : Type := Z.
Definition Duration : Type := Z.

Definition minDuration : Duration := - 2 ^ 63.
Definition maxDuration : Duration := 2 ^ 63 - 1.
Definition Second : Duration := 1000000000.

(** [Time.Rfc3339Copy]: the instant formatted as RFC 3339 and parsed back,
    which drops the fraction of a second. *)
Definition Rfc3339Copy (t : Time) : Time := (t / Second) * Second.

(** [Time.Sub]: the difference [t - u], saturated to the range of a
    [Duration]. *)
Definition Time_Sub (t u : Time) : Duration :=
  let d := t - u in
  if d <? minDuration then minDuration
  else if maxDuration <? d then maxDuration
  else d.

(** [buildv1.StatusReason] is a string; the codes the controller writes. *)
Definition StatusReason : Type := string.

Definition StatusReasonCancelledBuild : StatusReason := "CancelledBuild".
Definition StatusReasonBuildPodExists : StatusReason := "BuildPodExists".
Definition StatusReasonBuildPodDeleted : StatusReason := "BuildPodDeleted".
Definition StatusReasonMissingPushSecret : StatusReason := "MissingPushSecret".
Definition StatusReasonInvalidOutputReference : StatusReason := "InvalidOutputReference".
Definition StatusReasonInvalidImageReference : StatusReason := "InvalidImageReference".
Definition StatusReasonOutOfMemoryKilled : StatusReason := "OutOfMemoryKilled".
Definition StatusReasonFailedContainer : StatusReason := "FailedContainer".
Definition StatusReasonNoBuildContainerStatus : StatusReason := "NoBuildContainerStatus".
Definition StatusReasonGenericBuildFailed : StatusReason := "GenericBuildFailed".

(** [strategy.GitCloneContainer]. *)
Definition GitCloneContainer : string := "git-clone".

(** [buildutil.BuildPodNameAnnotation]. *)
Definition BuildPodNameAnnotation : string := "build.openshift.io/build.pod-name".

(** [imageapi.DefaultImageTag]. *)
Definition DefaultImageTag : string := "latest".

Record ObjectReference : Type := {
  ObjectReference_Kind : string;
  ObjectReference_Namespace : string;
  ObjectReference_Name : string
}.

Record LocalObjectReference : Type := {
  LocalObjectReference_Name : string
}.

(** *** Pods *)

Record ContainerStateTerminated : Type := {
  Terminated_ExitCode : Z;
  Terminated_Reason : string;
  Terminated_Message : string
}.

Record ContainerStateRunning : Type := {
  Running_StartedAt : Time
}.

Record ContainerState : Type := {
  State_Running : option ContainerStateRunning;
  State_Terminated : option ContainerStateTerminated
}.

Record ContainerStatus : Type := {
  ContainerStatus_Name : string;
  ContainerStatus_State : ContainerState
}.

Record PodStatus : Type := {
  PodStatus_Phase : PodPhase;
  PodStatus_Reason : string;
  PodStatus_StartTime : option Time;
  PodStatus_InitContainerStatuses : list ContainerStatus;
  PodStatus_ContainerStatuses : list ContainerStatus
}.

Record Pod : Type := {
  Pod_Namespace : string;
  Pod_Name : string;
  Pod_DeletionTimestamp : option Time;
  Pod_Status : PodStatus
}.

(** *** Builds *)

Record ImageSource : Type := {
  ImageSource_From : ObjectReference
}.

Record CustomBuildStrategy : Type := {
  CustomStrategy_From : ObjectReference
}.

Record DockerBuildStrategy : Type := {
  DockerStrategy_From : option ObjectReference
}.

Record SourceBuildStrategy : Type := {
  SourceStrategy_From : ObjectReference
}.

Record BuildStrategy : Type := {
  Strategy_DockerStrategy : option DockerBuildStrategy;
  Strategy_SourceStrategy : option SourceBuildStrategy;
  Strategy_CustomStrategy : option CustomBuildStrategy;
  Strategy_JenkinsPipelineStrategy : option unit
}.

Record BuildOutput : Type := {
  Output_To : option ObjectReference;
  Output_PushSecret : option LocalObjectReference
}.

Record BuildSpec : Type := {
  Spec_Source_Images : list ImageSource;
  Spec_Strategy : BuildStrategy;
  Spec_Output : BuildOutput
}.

Record BuildStatus : Type := {
  Status_Phase : BuildPhase;
  Status_Cancelled : bool;
  Status_Reason : StatusReason;
  Status_Message : string;
  Status_StartTimestamp : option Time;
  Status_CompletionTimestamp : option Time;
  Status_Duration : Duration;
  Status_OutputDockerImageReference : string;
  Status_LogSnippet : string
}.

Record Build : Type := {
  Build_Namespace : string;
  Build_Name : string;
  Build_Annotations : gmap string string;
  Build_Spec : BuildSpec;
  Build_Status : BuildStatus
}.

Record ImageStream : Type := {
  ImageStream_Namespace : string;
  ImageStream_Name : string;
  ImageStream_DockerImageRepository : string
}.

(** [imageapi.DockerImageReference]. *)
Record DockerImageReference : Type := {
  Ref_Registry : string;
  Ref_Namespace : string;
  Ref_Name : string;
  Ref_Tag : string;
  Ref_ID : string
}.

(** [imagev1.TagEvent]. *)
Record TagEvent : Type := {
  TagEvent_DockerImageReference : string;
  TagEvent_Image : string
}.

(** ** Errors *)

(** The reason carried by an API status error ([errors.StatusError]). *)
Inductive APIStatusReason : Type :=
| APIReasonNotFound
| APIReasonAlreadyExists
| APIReasonOther.

(** [field.ErrorType], for the errors of a [field.ErrorList]. *)
Inductive ErrorType : Type :=
| ErrorTypeNotFound
| ErrorTypeInternal.

#[global] Instance ErrorType_eq_dec : EqDecision ErrorType.
Proof. solve_decision. Defined.

(** The Go errors the controller creates or receives: its two marker errors,
    API status errors, field errors, [strategy.FatalError], plain
    [fmt.Errorf] errors (kept by their format string) and
    [utilerrors.Aggregate]. *)
#[warnings="-register-all"]
Inductive error : Type :=
| errInvalidImageReferences
| errNoIntegratedRegistry
| StatusError (reason : APIStatusReason)
| FieldError (type : ErrorType) (cause : error)
| FatalError (reason : string)
| Errorf (format : string)
| Aggregate (errs : list error).

(** A Go result pair [(T, error)] of a call that either succeeds or fails. *)
Inductive result (T : Type) : Type :=
| Ok (v : T)
| Err (e : error).
Arguments Ok {T} v.
Arguments Err {T} e.

(** [errors.IsNotFound]. *)
Definition IsNotFound (err : error) : bool :=
  match err with
  | StatusError APIReasonNotFound => true
  | _ => false
  end.

(** [field.NewErrorTypeMatcher]. *)
Definition NewErrorTypeMatcher (t : ErrorType) (err : error) : bool :=
  match err with
  | FieldError t' _ => bool_decide (t' = t)
  | _ => false
  end.

(** The comparison [err == errNoIntegratedRegistry] with the marker error. *)
Definition isNoIntegratedRegistry (err : error) : bool :=
  match err with
  | errNoIntegratedRegistry => true
  | _ => false
  end.

(** [hasError] returns true if any error (aggregate or no) matches any of the
    provided functions. *)
Fixpoint hasError_ (fns : list (error -> bool)) (err : error) : bool :=
  match err with
  | Aggregate errs => existsb (hasError_ fns) errs
  | _ => existsb (fun fn => fn err) fns
  end.

Definition hasError (err : option error) (fns : list (error -> bool)) : bool :=
  match err with
  | None => false
  | Some e => hasError_ fns e
  end.

(** ** buildUpdate *)

(** Modelled from the spec: the [buildUpdate] type is declared outside this
    file. It is the reconciliation delta with the optional fields [phase],
    [reason], [message], [startTime], [completionTime], [duration],
    [logSnippet], [podNameAnnotation], [pushSecret] and [outputRef]; a setter
    sets one field, [isEmpty] holds iff every field is unset, and [apply]
    writes the set fields into a build. *)
Record buildUpdate : Type := {
  podNameAnnotation : option string;
  phase : option BuildPhase;
  reason : option StatusReason;
  message : option string;
  startTime : option Time;
  completionTime : option Time;
  duration : option Duration;
  outputRef : option string;
  logSnippet : option string;
  pushSecret : option LocalObjectReference
}.

(** [&buildUpdate{}]. *)
Definition emptyUpdate : buildUpdate :=
  {| podNameAnnotation := None;
     phase := None;
     reason := None;
     message := None;
     startTime := None;
     completionTime := None;
     duration := None;
     outputRef := None;
     logSnippet := None;
     pushSecret := None |}.

Definition setPodNameAnnotation (v : string) (u : buildUpdate) : buildUpdate :=
  {| podNameAnnotation := Some v;
     phase := phase u;
     reason := reason u;
     message := message u;
     startTime := startTime u;
     completionTime := completionTime u;
     duration := duration u;
     outputRef := outputRef u;
     logSnippet := logSnippet u;
     pushSecret := pushSecret u |}.

Definition setPhase (v : BuildPhase) (u : buildUpdate) : buildUpdate :=
  {| podNameAnnotation := podNameAnnotation u;
     phase := Some v;
     reason := reason u;
     message := message u;
     startTime := startTime u;
     completionTime := completionTime u;
     duration := duration u;
     outputRef := outputRef u;
     logSnippet := logSnippet u;
     pushSecret := pushSecret u |}.

Definition setReason (v : StatusReason) (u : buildUpdate) : buildUpdate :=
  {| podNameAnnotation := podNameAnnotation u;
     phase := phase u;
     reason := Some v;
     message := message u;
     startTime := startTime u;
     completionTime := completionTime u;
     duration := duration u;
     outputRef := outputRef u;
     logSnippet := logSnippet u;
     pushSecret := pushSecret u |}.

Definition setMessage (v : string) (u : buildUpdate) : buildUpdate :=
  {| podNameAnnotation := podNameAnnotation u;
     phase := phase u;
     reason := reason u;
     message := Some v;
     startTime := startTime u;
     completionTime := completionTime u;
     duration := duration u;
     outputRef := outputRef u;
     logSnippet := logSnippet u;
     pushSecret := pushSecret u |}.

Definition setStartTime (v : Time) (u : buildUpdate) : buildUpdate :=
  {| podNameAnnotation := podNameAnnotation u;
     phase := phase u;
     reason := reason u;
     message := message u;
     startTime := Some v;
     completionTime := completionTime u;
     duration := duration u;
     outputRef := outputRef u;
     logSnippet := logSnippet u;
     pushSecret := pushSecret u |}.

Definition setCompletionTime (v : Time) (u : buildUpdate) : buildUpdate :=
  {| podNameAnnotation := podNameAnnotation u;
     phase := phase u;
     reason := reason u;
     message := message u;
     startTime := startTime u;
     completionTime := Some v;
     duration := duration u;
     outputRef := outputRef u;
     logSnippet := logSnippet u;
     pushSecret := pushSecret u |}.

Definition setDuration (v : Duration) (u : buildUpdate) : buildUpdate :=
  {| podNameAnnotation := podNameAnnotation u;
     phase := phase u;
     reason := reason u;
     message := message u;
     startTime := startTime u;
     completionTime := completionTime u;
     duration := Some v;
     outputRef := outputRef u;
     logSnippet := logSnippet u;
     pushSecret := pushSecret u |}.

Definition setOutputRef (v : string) (u : buildUpdate) : buildUpdate :=
  {| podNameAnnotation := podNameAnnotation u;
     phase := phase u;
     reason := reason u;
     message := message u;
     startTime := startTime u;
     completionTime := completionTime u;
     duration := duration u;
     outputRef := Some v;
     logSnippet := logSnippet u;
     pushSecret := pushSecret u |}.

Definition setLogSnippet (v : string) (u : buildUpdate) : buildUpdate :=
  {| podNameAnnotation := podNameAnnotation u;
     phase := phase u;
     reason := reason u;
     message := message u;
     startTime := startTime u;
     completionTime := completionTime u;
     duration := duration u;
     outputRef := outputRef u;
     logSnippet := Some v;
     pushSecret := pushSecret u |}.

Definition setPushSecret (v : LocalObjectReference) (u : buildUpdate) : buildUpdate :=
  {| podNameAnnotation := podNameAnnotation u;
     phase := phase u;
     reason := reason u;
     message := message u;
     startTime := startTime u;
     completionTime := completionTime u;
     duration := duration u;
     outputRef := outputRef u;
     logSnippet := logSnippet u;
     pushSecret := Some v |}.

Definition isNil {A : Type} (p : option A) : bool :=
  match p with
  | None => true
  | Some _ => false
  end.

(** Modelled from the spec: [isEmpty] returns true iff every field is unset. *)
Definition isEmpty (u : buildUpdate) : bool :=
  isNil (podNameAnnotation u) && isNil (phase u) && isNil (reason u) &&
  isNil (message u) && isNil (startTime u) && isNil (completionTime u) &&
  isNil (duration u) && isNil (outputRef u) && isNil (logSnippet u) &&
  isNil (pushSecret u).

(** Modelled from the spec: [common.HasBuildPodNameAnnotation] and
    [common.SetBuildPodNameAnnotation] read and write the build's
    [build.openshift.io/build.pod-name] annotation. *)
Definition HasBuildPodNameAnnotation (build : Build) : bool :=
  bool_decide (is_Some (Build_Annotations build !! BuildPodNameAnnotation)).

Definition SetBuildPodNameAnnotation (build : Build) (podName : string) : Build :=
  {| Build_Namespace := Build_Namespace build;
     Build_Name := Build_Name build;
     Build_Annotations := <[BuildPodNameAnnotation := podName]> (Build_Annotations build);
     Build_Spec := Build_Spec build;
     Build_Status := Build_Status build |}.

Definition withStatus (build : Build) (st : BuildStatus) : Build :=
  {| Build_Namespace := Build_Namespace build;
     Build_Name := Build_Name build;
     Build_Annotations := Build_Annotations build;
     Build_Spec := Build_Spec build;
     Build_Status := st |}.

Definition withOutput (build : Build) (out : BuildOutput) : Build :=
  {| Build_Namespace := Build_Namespace build;
     Build_Name := Build_Name build;
     Build_Annotations := Build_Annotations build;
     Build_Spec := {| Spec_Source_Images := Spec_Source_Images (Build_Spec build);
                      Spec_Strategy := Spec_Strategy (Build_Spec build);
                      Spec_Output := out |};
     Build_Status := Build_Status build |}.

(** Modelled from the spec: [apply] writes each field the update sets into
    the build (the status fields, the push secret of the output, the pod name
    annotation) and leaves the rest of the build as it is. *)
Definition apply (u : buildUpdate) (build : Build) : Build :=
  let st := Build_Status build in
  let st' :=
    {| Status_Phase := default (Status_Phase st) (phase u);
       Status_Cancelled := Status_Cancelled st;
       Status_Reason := default (Status_Reason st) (reason u);
       Status_Message := default (Status_Message st) (message u);
       Status_StartTimestamp := from_option Some (Status_StartTimestamp st) (startTime u);
       Status_CompletionTimestamp :=
         from_option Some (Status_CompletionTimestamp st) (completionTime u);
       Status_Duration := default (Status_Duration st) (duration u);
       Status_OutputDockerImageReference :=
         default (Status_OutputDockerImageReference st) (outputRef u);
       Status_LogSnippet := default (Status_LogSnippet st) (logSnippet u) |} in
  let build := withStatus build st' in
  let build :=
    match pushSecret u with
    | Some secret =>
        withOutput build {| Output_To := Output_To (Spec_Output (Build_Spec build));
                            Output_PushSecret := Some secret |}
    | None => build
    end in
  match podNameAnnotation u with
  | Some podName => SetBuildPodNameAnnotation build podName
  | None => build
  end.

(** [transitionToPhase] returns a buildUpdate object to transition a build to
    a new phase with the given reason and message. *)
Definition transitionToPhase (phase : BuildPhase) (reason : StatusReason)
    (message : string) : buildUpdate :=
  setMessage message (setReason reason (setPhase phase emptyUpdate)).

(** ** Phases *)

(** Modelled from the spec: [buildutil.IsTerminalPhase] is not part of this
    file; the terminal phases are [Complete], [Failed], [Error] and
    [Cancelled]. *)
Definition IsTerminalPhase (phase : BuildPhase) : bool :=
  match phase with
  | BuildPhaseNew | BuildPhasePending | BuildPhaseRunning => false
  | _ => true
  end.

(** Modelled from the spec: [buildutil.IsBuildComplete], a build whose phase
    is terminal. *)
Definition IsBuildComplete (build : Build) : bool :=
  IsTerminalPhase (Status_Phase (Build_Status build)).

(** [isValidTransition] returns true if the given phase transition is valid. *)
Definition isValidTransition (from to : BuildPhase) : bool :=
  if bool_decide (from = to) then true
  else if IsTerminalPhase from then false
  else match from with
       | BuildPhasePending =>
           match to with
           | BuildPhaseNew => false
           | _ => true
           end
       | BuildPhaseRunning =>
           match to with
           | BuildPhaseNew | BuildPhasePending => false
           | _ => true
           end
       | _ => true
       end.

(** ** Strings *)

(** Go strings are sequences of bytes; the functions of package [strings]
    used on the termination message work on [list ascii], and record fields
    hold [string]s. *)
Definition newline : ascii := "010"%char.

(** [strings.TrimRight(s, cutset)] for a one-byte cutset: [s] without its
    trailing run of that byte. *)
Fixpoint TrimRight (s : list ascii) (cutset : ascii) : list ascii :=
  match s with
  | [] => []
  | c :: s' =>
      match TrimRight s' cutset with
      | [] => if decide (c = cutset) then [] else [c]
      | t => c :: t
      end
  end.

(** [strings.Split(s, sep)] for a one-byte separator: the substrings between
    the separators, one more than there are separators. *)
Fixpoint Split (s : list ascii) (sep : ascii) : list (list ascii) :=
  match s with
  | [] => [[]]
  | c :: s' =>
      if decide (c = sep) then [] :: Split s' sep
      else match Split s' sep with
           | [] => [[c]]
           | part :: parts => (c :: part) :: parts
           end
  end.

(** [strings.Join(elems, sep)]. *)
Fixpoint Join (elems : list (list ascii)) (sep : ascii) : list ascii :=
  match elems with
  | [] => []
  | [e] => e
  | e :: elems' => (e ++ sep :: Join elems' sep)%list
  end.

(** ** Completion data *)

(** [maxExcerptLength] is the maximum length of the LogSnippet on a build. *)
Definition maxExcerptLength : nat := 5.

Definition terminatedReasonIs (reason : string) (c : ContainerStatus) : bool :=
  match State_Terminated (ContainerStatus_State c) with
  | Some terminated => bool_decide (Terminated_Reason terminated = reason)
  | None => false
  end.

Definition isOOMKilled (pod : option Pod) : bool :=
  match pod with
  | None => false
  | Some pod =>
      if bool_decide (PodStatus_Reason (Pod_Status pod) = "OOMKilled") then true
      else if existsb (terminatedReasonIs "OOMKilled")
                (PodStatus_InitContainerStatuses (Pod_Status pod)) then true
      else if existsb (terminatedReasonIs "OOMKilled")
                (PodStatus_ContainerStatuses (Pod_Status pod)) then true
      else false
  end.

(** The loop of [setBuildCompletionData] over the excerpt,
    [for i, line := range excerpt { if len(line) > 120 { excerpt[i] = ... } }],
    running the [n] iterations that start at index [i]; the slice is updated
    in place. *)
Fixpoint elideLongLines (n i : nat) (excerpt : list (list ascii)) : list (list ascii) :=
  match n with
  | O => excerpt
  | S n' =>
      let excerpt :=
        match excerpt !! i with
        | Some line =>
            if (120 <? length line)%nat
            then <[i := (take 58 line ++ list_ascii_of_string "..." ++
                           drop (length line - 59) line)%list]> excerpt
            else excerpt
        | None => excerpt
        end in
      elideLongLines n' (S i) excerpt
  end.

(** [setBuildCompletionData] sets the build completion time and duration as
    well as the start time if not already set on the given buildUpdate
    object. It also sets the log tail data if applicable. [now] is the value
    of [metav1.Now()] read on entry. *)
Definition setBuildCompletionData (now : Time) (build : Build) (pod : option Pod)
    (update : buildUpdate) : buildUpdate :=
  let status := Build_Status build in
  let '(startTime, update) :=
    match Status_StartTimestamp status with
    | None =>
        let startTime :=
          match pod with
          | Some pod => PodStatus_StartTime (Pod_Status pod)
          | None => None
          end in
        let startTime := default now startTime in
        (startTime, setStartTime startTime update)
    | Some startTime => (startTime, update)
    end in
  let update :=
    if isNil (Status_CompletionTimestamp status)
    then setDuration (Time_Sub (Rfc3339Copy now) (Rfc3339Copy startTime))
           (setCompletionTime now update)
    else update in
  if (bool_decide (Status_Phase status = BuildPhaseFailed) ||
      bool_decide (phase update = Some BuildPhaseFailed)) &&
     (String.length (Status_LogSnippet status) =? 0)%nat
  then
    match pod with
    | Some pod =>
        match PodStatus_ContainerStatuses (Pod_Status pod) with
        | first :: _ =>
            match State_Terminated (ContainerStatus_State first) with
            | Some terminated =>
                let msg := list_ascii_of_string (Terminated_Message terminated) in
                if negb (length msg =? 0)%nat then
                  let parts := Split (TrimRight msg newline) newline in
                  let excerptLength :=
                    if (length parts <? maxExcerptLength)%nat then length parts
                    else maxExcerptLength in
                  let excerpt := drop (length parts - excerptLength) parts in
                  let excerpt := elideLongLines (length excerpt) 0 excerpt in
                  let msg := Join excerpt newline in
                  setLogSnippet (string_of_list_ascii msg) update
                else update
            | None => update
            end
        | [] => update
        end
    | None => update
    end
  else update.

(** ** Queues *)

(** [resourceName] creates a string that can be used to uniquely key the
    provided resource. *)
Definition resourceName (namespace name : string) : string :=
  namespace +:+ "/" +:+ name.

(** [resourceTriggerQueue] tracks a set of resource keys to trigger when
    another object changes: the map [queue] from a key to the slice of
    resources waiting on it. A key that is absent reads as the nil slice. The
    mutex serialises the three methods, each of which is one step here. *)
Module resourceTriggerQueue.

Abbreviation t := (gmap string (list string)).

Definition get (q : t) (key : string) : list string := default [] (q !! key).

(** [Add] ensures resource will be returned the next time any of on are
    invoked on [Pop]. *)
Definition Add (resource : string) (on : list string) (q : t) : t :=
  foldl (fun q key => <[key := get q key ++ [resource]]> q) q on.

Definition Remove (resource : string) (on : list string) (q : t) : t :=
  foldl (fun q key =>
           <[key := filter (fun existing => existing ≠ resource) (get q key)]> q)
        q on.

Definition Pop (key : string) (q : t) : list string * t :=
  (get q key, delete key q).

End resourceTriggerQueue.

(** The work queues are the cluster client library's rate-limited queues. A
    queue is the sequence of keys waiting to be processed. *)
Module workqueue.

(** Modelled from the spec: the queues de-duplicate, enqueueing a key already
    present coalesces. *)
Definition Add (key : string) (q : list string) : list string :=
  if decide (key ∈ q) then q else q ++ [key].

End workqueue.

(** ** The controller's state and collaborators *)

(** An event sent to the recorder: the object it is about, its type and its
    reason. *)
Record Event : Type := {
  Event_Object : string;
  Event_Type : string;
  Event_Reason : string
}.

Definition EventTypeNormal : string := "Normal".
Definition EventTypeWarning : string := "Warning".

(** A request sent to the build patcher: the build as read and the build with
    the update applied, from which the two-way merge patch is computed. *)
Record BuildPatch : Type := {
  Patch_Older : Build;
  Patch_Newer : Build
}.

(** What a reconciliation reads and writes besides the informer caches: the
    trigger queue, the two work queues, the events recorded, the pods on the
    API server, the patches sent, the build configs handed to pruning, and
    the clock. *)
Record world : Type := {
  imageStreamQueue : gmap string (list string);
  buildQueue : list string;
  buildConfigQueue : list string;
  recorder : list Event;
  podClient : gmap string Pod;
  buildPatcher : list BuildPatch;
  pruning : list string;
  clock : Time
}.

Definition with_imageStreamQueue (v : gmap string (list string)) (w : world) : world :=
  {| imageStreamQueue := v;
     buildQueue := buildQueue w;
     buildConfigQueue := buildConfigQueue w;
     recorder := recorder w;
     podClient := podClient w;
     buildPatcher := buildPatcher w;
     pruning := pruning w;
     clock := clock w |}.

Definition with_buildQueue (v : list string) (w : world) : world :=
  {| imageStreamQueue := imageStreamQueue w;
     buildQueue := v;
     buildConfigQueue := buildConfigQueue w;
     recorder := recorder w;
     podClient := podClient w;
     buildPatcher := buildPatcher w;
     pruning := pruning w;
     clock := clock w |}.

Definition with_buildConfigQueue (v : list string) (w : world) : world :=
  {| imageStreamQueue := imageStreamQueue w;
     buildQueue := buildQueue w;
     buildConfigQueue := v;
     recorder := recorder w;
     podClient := podClient w;
     buildPatcher := buildPatcher w;
     pruning := pruning w;
     clock := clock w |}.

Definition with_recorder (v : list Event) (w : world) : world :=
  {| imageStreamQueue := imageStreamQueue w;
     buildQueue := buildQueue w;
     buildConfigQueue := buildConfigQueue w;
     recorder := v;
     podClient := podClient w;
     buildPatcher := buildPatcher w;
     pruning := pruning w;
     clock := clock w |}.

Definition with_podClient (v : gmap string Pod) (w : world) : world :=
  {| imageStreamQueue := imageStreamQueue w;
     buildQueue := buildQueue w;
     buildConfigQueue := buildConfigQueue w;
     recorder := recorder w;
     podClient := v;
     buildPatcher := buildPatcher w;
     pruning := pruning w;
     clock := clock w |}.

Definition with_buildPatcher (v : list BuildPatch) (w : world) : world :=
  {| imageStreamQueue := imageStreamQueue w;
     buildQueue := buildQueue w;
     buildConfigQueue := buildConfigQueue w;
     recorder := recorder w;
     podClient := podClient w;
     buildPatcher := v;
     pruning := pruning w;
     clock := clock w |}.

Definition with_pruning (v : list string) (w : world) : world :=
  {| imageStreamQueue := imageStreamQueue w;
     buildQueue := buildQueue w;
     buildConfigQueue := buildConfigQueue w;
     recorder := recorder w;
     podClient := podClient w;
     buildPatcher := buildPatcher w;
     pruning := v;
     clock := clock w |}.

(** The state monad of the controller's methods. *)
Definition M (A : Type) : Type := world -> A * world.

#[global] Instance M_ret : MRet M := fun A a w => (a, w).

#[global] Instance M_bind : MBind M :=
  fun A B k m w => let '(a, w') := m w in k a w'.

Definition gets {A : Type} (f : world -> A) : M A := fun w => (f w, w).

Definition modify (f : world -> world) : M unit := fun w => (tt, f w).

(** A [for _, a := range l] loop whose body runs in the monad. *)
Fixpoint forEach {A : Type} (l : list A) (body : A -> M unit) : M unit :=
  match l with
  | [] => mret tt
  | a :: l => body a;; forEach l body
  end.

(** [policy.RunPolicy], by its method [IsRunnable]. *)
Definition RunPolicy : Type := Build -> M (bool * option error).

(** The collaborators of the controller that live outside this file: the
    listers over the informer caches (read-only to a worker), the helpers of
    the sibling packages, the status messages of [buildutil], the run
    policies, the build patcher, and the part of [createBuildPod] that
    follows the resolution of the image references (secrets, pod spec, pod
    and CA config map creation), which no property below depends on. *)
Record Env : Type := {
  podStore : string -> string -> result Pod;
  secretStore : string -> string -> option error;
  imageStreamStore : string -> string -> result ImageStream;

  GetBuildPodName : Build -> string;
  ConfigNameForBuild : Build -> string;
  HasOwnerReference : Pod -> Build -> bool;
  SplitImageStreamImage : string -> string * string * bool;
  SplitImageStreamTag : string -> string * string * bool;
  ParseDockerImageReference : string -> result DockerImageReference;
  Exact : DockerImageReference -> string;
  ResolveImageID : ImageStream -> string -> result TagEvent;
  ResolveLatestTaggedImage : ImageStream -> string -> string * bool;

  StatusMessageCancelledBuild : string;
  StatusMessageBuildPodExists : string;
  StatusMessageBuildPodDeleted : string;
  StatusMessageMissingPushSecret : string;
  StatusMessageInvalidOutputRef : string;
  StatusMessageInvalidImageRef : string;
  StatusMessageNoBuildContainerStatus : string;
  StatusMessageFailedContainer : string;
  StatusMessageOutOfMemoryKilled : string;
  StatusMessageGenericBuildFailed : string;

  ForBuild : Build -> option RunPolicy;
  createBuildPodResolved : Build -> buildUpdate -> M (option buildUpdate * option error);
  Patch : string -> string -> BuildPatch -> result Build
}.

(** ** Image references *)

(** A function run by the mutator on each reference: it may rewrite the
    reference, fail, and update the state [S] it closes over. *)
Definition ImageReferenceMutateFunc (S : Type) : Type :=
  ObjectReference -> S -> ObjectReference * option error * S.

(** The error of a mutate function as an entry of a [field.ErrorList]: a
    NotFound error is kept recognisable, as a field error of type NotFound,
    which is what makes it non-fatal in [createBuildPod]. *)
Definition fieldErrorOrInternal (err : error) : error :=
  match err with
  | FieldError _ _ => err
  | _ => if IsNotFound err then FieldError ErrorTypeNotFound err
         else FieldError ErrorTypeInternal err
  end.

Definition mutateRef {S : Type} (fn : ImageReferenceMutateFunc S)
    (ref : ObjectReference) (acc : list error * S) : ObjectReference * (list error * S) :=
  let '(errs, s) := acc in
  let '(ref, err, s) := fn ref s in
  match err with
  | Some e => (ref, (errs ++ [fieldErrorOrInternal e], s))
  | None => (ref, (errs, s))
  end.

Fixpoint mutateImages {S : Type} (fn : ImageReferenceMutateFunc S)
    (images : list ImageSource) (acc : list error * S)
  : list ImageSource * (list error * S) :=
  match images with
  | [] => ([], acc)
  | image :: images =>
      let '(ref, acc) := mutateRef fn (ImageSource_From image) acc in
      let '(images, acc) := mutateImages fn images acc in
      ({| ImageSource_From := ref |} :: images, acc)
  end.

Definition mutateOption {S A : Type} (f : A -> list error * S -> A * (list error * S))
    (a : option A) (acc : list error * S) : option A * (list error * S) :=
  match a with
  | Some a => let '(a, acc) := f a acc in (Some a, acc)
  | None => (None, acc)
  end.

(** Modelled from the spec: [imagereferencemutators.NewBuildMutator] is not
    part of this file. Its [Mutate] is the visitor that yields each
    [ObjectReference] of the build (the source images, the strategy's [From],
    the output [To]) to the function and collects the errors it returns. *)
Definition Mutate {S : Type} (fn : ImageReferenceMutateFunc S) (build : Build) (s : S)
  : Build * list error * S :=
  let spec := Build_Spec build in
  let strategy := Spec_Strategy spec in
  let acc := ([], s) in
  let '(images, acc) := mutateImages fn (Spec_Source_Images spec) acc in
  let '(custom, acc) :=
    mutateOption (fun c acc =>
      let '(ref, acc) := mutateRef fn (CustomStrategy_From c) acc in
      ({| CustomStrategy_From := ref |}, acc)) (Strategy_CustomStrategy strategy) acc in
  let '(docker, acc) :=
    mutateOption (fun d acc =>
      let '(ref, acc) := mutateOption (mutateRef fn) (DockerStrategy_From d) acc in
      ({| DockerStrategy_From := ref |}, acc)) (Strategy_DockerStrategy strategy) acc in
  let '(source, acc) :=
    mutateOption (fun c acc =>
      let '(ref, acc) := mutateRef fn (SourceStrategy_From c) acc in
      ({| SourceStrategy_From := ref |}, acc)) (Strategy_SourceStrategy strategy) acc in
  let '(to, acc) := mutateOption (mutateRef fn) (Output_To (Spec_Output spec)) acc in
  ({| Build_Namespace := Build_Namespace build;
      Build_Name := Build_Name build;
      Build_Annotations := Build_Annotations build;
      Build_Spec :=
        {| Spec_Source_Images := images;
           Spec_Strategy :=
             {| Strategy_DockerStrategy := docker;
                Strategy_SourceStrategy := source;
                Strategy_CustomStrategy := custom;
                Strategy_JenkinsPipelineStrategy :=
                  Strategy_JenkinsPipelineStrategy strategy |};
           Spec_Output := {| Output_To := to;
                             Output_PushSecret := Output_PushSecret (Spec_Output spec) |} |};
      Build_Status := Build_Status build |},
   fst acc, snd acc).

Definition DockerImage (name : string) : ObjectReference :=
  {| ObjectReference_Kind := "DockerImage";
     ObjectReference_Namespace := "";
     ObjectReference_Name := name |}.

Definition namespaceOr (ref : ObjectReference) (defaultNamespace : string) : string :=
  if (String.length (ObjectReference_Namespace ref) =? 0)%nat then defaultNamespace
  else ObjectReference_Namespace ref.

(** ** The controller *)

Section Controller.

Context (E : Env).

(** [unresolvedImageStreamReferences] finds all image stream references in
    the provided mutator that need to be resolved prior to the resource being
    accepted and returns them as an array of "namespace/name" strings. If any
    references are invalid, an error is returned. *)
Definition unresolvedImageStreamReferences (build : Build) (defaultNamespace : string)
  : result (list string) :=
  let fn : ImageReferenceMutateFunc (list string) := fun ref streams =>
    if bool_decide (ObjectReference_Kind ref = "ImageStreamImage") then
      let namespace := namespaceOr ref defaultNamespace in
      let '(name, _, ok) := SplitImageStreamImage E (ObjectReference_Name ref) in
      if negb ok then (ref, Some errInvalidImageReferences, streams)
      else (ref, None, streams ++ [resourceName namespace name])
    else if bool_decide (ObjectReference_Kind ref = "ImageStreamTag") then
      let namespace := namespaceOr ref defaultNamespace in
      let '(name, _, ok) := SplitImageStreamTag E (ObjectReference_Name ref) in
      if negb ok then (ref, Some errInvalidImageReferences, streams)
      else (ref, None, streams ++ [resourceName namespace name])
    else (ref, None, streams) in
  let '(_, errs, streams) := Mutate fn build [] in
  if (0 <? length errs)%nat then Err errInvalidImageReferences
  else Ok streams.

(** [resolveImageStreamLocation] transforms the provided reference into a
    string pointing to the integrated registry, or returns an error. *)
Definition resolveImageStreamLocation (ref : ObjectReference) (defaultNamespace : string)
  : result string :=
  let namespace := namespaceOr ref defaultNamespace in
  let parsed : result (string * string) :=
    if bool_decide (ObjectReference_Kind ref = "ImageStreamImage") then
      let '(name, _, ok) := SplitImageStreamImage E (ObjectReference_Name ref) in
      if negb ok then Err errInvalidImageReferences
      else Ok (name, DefaultImageTag)
    else if bool_decide (ObjectReference_Kind ref = "ImageStreamTag") then
      let '(name, tag, ok) := SplitImageStreamTag E (ObjectReference_Name ref) in
      if negb ok then Err errInvalidImageReferences
      else Ok (name, tag)
    else if bool_decide (ObjectReference_Kind ref = "ImageStream") then
      Ok (ObjectReference_Name ref, "")
    else Ok ("", "") in
  match parsed with
  | Err e => Err e
  | Ok (name, tag) =>
      match imageStreamStore E namespace name with
      | Err err =>
          if IsNotFound err then Err err
          else Err (Errorf "the referenced output image stream %s/%s could not be found: %v")
      | Ok stream =>
          if (String.length (ImageStream_DockerImageRepository stream) =? 0)%nat
          then Err errNoIntegratedRegistry
          else
            match ParseDockerImageReference E (ImageStream_DockerImageRepository stream) with
            | Err _ =>
                Err (Errorf
                  "the referenced output image stream does not represent a valid reference name: %v")
            | Ok repo =>
                Ok (Exact E {| Ref_Registry := Ref_Registry repo;
                               Ref_Namespace := Ref_Namespace repo;
                               Ref_Name := Ref_Name repo;
                               Ref_Tag := tag;
                               Ref_ID := "" |})
            end
      end
  end.

Definition resolveImageStreamImage (ref : ObjectReference) (defaultNamespace : string)
  : result ObjectReference :=
  let namespace := namespaceOr ref defaultNamespace in
  let '(name, imageID, ok) := SplitImageStreamImage E (ObjectReference_Name ref) in
  if negb ok then Err errInvalidImageReferences
  else
    match imageStreamStore E namespace name with
    | Err err =>
        if IsNotFound err then Err err
        else Err (Errorf "the referenced image stream %s/%s could not be found: %v")
    | Ok stream =>
        match ResolveImageID E stream imageID with
        | Err err => Err err
        | Ok event =>
            if (String.length (TagEvent_DockerImageReference event) =? 0)%nat
            then Err (Errorf
                   "the referenced image stream image %s/%s does not have a pull spec")
            else Ok (DockerImage (TagEvent_DockerImageReference event))
        end
    end.

Definition resolveImageStreamTag (ref : ObjectReference) (defaultNamespace : string)
  : result ObjectReference :=
  let namespace := namespaceOr ref defaultNamespace in
  let '(name, tag, ok) := SplitImageStreamTag E (ObjectReference_Name ref) in
  if negb ok then Err errInvalidImageReferences
  else
    match imageStreamStore E namespace name with
    | Err err =>
        if IsNotFound err then Err err
        else Err (Errorf "the referenced image stream %s/%s could not be found: %v")
    | Ok stream =>
        let '(newRef, ok) := ResolveLatestTaggedImage E stream tag in
        if ok then Ok (DockerImage newRef)
        else Err (Errorf "the referenced image stream tag %s/%s does not exist")
    end.

(** [resolveOutputDockerImageReference] updates the output spec to a docker
    image reference. The build is changed in place: the changed build is
    returned with the error. *)
Definition resolveOutputDockerImageReference (build : Build) : Build * option error :=
  match Output_To (Spec_Output (Build_Spec build)) with
  | None => (build, None)
  | Some ref =>
      if bool_decide (ObjectReference_Name ref = "") then (build, None)
      else if bool_decide (ObjectReference_Kind ref = "ImageStream") ||
              bool_decide (ObjectReference_Kind ref = "ImageStreamTag") then
        match resolveImageStreamLocation ref (Build_Namespace build) with
        | Err err => (build, Some err)
        | Ok newRef =>
            (withOutput build
               {| Output_To := Some (DockerImage newRef);
                  Output_PushSecret := Output_PushSecret (Spec_Output (Build_Spec build)) |},
             None)
        end
      else (build, None)
  end.

(** [bc.recorder.Eventf], by the build, the type and the reason of the event. *)
Definition Eventf (build : Build) (eventtype reason : string) : M unit :=
  modify (fun w =>
    with_recorder (recorder w ++
      [{| Event_Object := resourceName (Build_Namespace build) (Build_Name build);
          Event_Type := eventtype;
          Event_Reason := reason |}]) w).

(** [resolveImageReferences] resolves references to Docker images computed
    from the build.Spec. It will update the output spec as well if it has not
    already been updated. The build and the update are changed in place: both
    are returned with the error. *)
Definition resolveImageReferences (build : Build) (update : buildUpdate)
  : M (Build * buildUpdate * option error) :=
  match unresolvedImageStreamReferences build (Build_Namespace build) with
  | Err err => mret (build, update, Some err)
  | Ok streams =>
      if (length streams =? 0)%nat then mret (build, update, None)
      else
        let buildKey := resourceName (Build_Namespace build) (Build_Name build) in
        modify (fun w =>
          with_imageStreamQueue
            (resourceTriggerQueue.Add buildKey streams (imageStreamQueue w)) w);;
        let '(build, err) := resolveOutputDockerImageReference build in
        match err with
        | Some err =>
            let update := setReason StatusReasonInvalidOutputReference update in
            let update := setMessage (StatusMessageInvalidOutputRef E) update in
            (if isNoIntegratedRegistry err
             then Eventf build EventTypeWarning "InvalidOutput"
             else mret tt);;
            mret (build, update, Some err)
        | None =>
            let fn : ImageReferenceMutateFunc unit := fun ref s =>
              if bool_decide (ObjectReference_Kind ref = "ImageStreamImage") then
                match resolveImageStreamImage ref (Build_Namespace build) with
                | Err err => (ref, Some err, s)
                | Ok newRef => (newRef, None, s)
                end
              else if bool_decide (ObjectReference_Kind ref = "ImageStreamTag") then
                match resolveImageStreamTag ref (Build_Namespace build) with
                | Err err => (ref, Some err, s)
                | Ok newRef => (newRef, None, s)
                end
              else (ref, None, s) in
            let '(build, errs, _) := Mutate fn build tt in
            if (0 <? length errs)%nat then
              let update := setReason StatusReasonInvalidImageReference update in
              let update := setMessage (StatusMessageInvalidImageRef E) update in
              mret (build, update, Some (Aggregate errs))
            else
              modify (fun w =>
                with_imageStreamQueue
                  (resourceTriggerQueue.Remove buildKey streams (imageStreamQueue w)) w);;
              mret (build, update, None)
        end
  end.

(** [createBuildPod] creates a new pod to run a build. *)
Definition createBuildPod (build : Build) : M (option buildUpdate * option error) :=
  let update := emptyUpdate in
  '(build, update, err) ← resolveImageReferences build update;
  match err with
  | Some e =>
      if hasError err [IsNotFound; NewErrorTypeMatcher ErrorTypeNotFound]
      then mret (Some update, None)
      else mret (Some update, Some e)
  | None => createBuildPodResolved E build update
  end.

(** The pods client. The pods on the API server are keyed by
    "namespace/name"; [Get] and [Delete] of an absent pod fail with NotFound. *)
Definition Pods_Get (namespace name : string) : M (result Pod) :=
  gets (fun w =>
    match podClient w !! resourceName namespace name with
    | Some pod => Ok pod
    | None => Err (StatusError APIReasonNotFound)
    end).

Definition Pods_Delete (namespace name : string) : M (option error) :=
  fun w =>
    match podClient w !! resourceName namespace name with
    | Some _ => (None, with_podClient (delete (resourceName namespace name) (podClient w)) w)
    | None => (Some (StatusError APIReasonNotFound), w)
    end.

(** [metav1.Now()]. *)
Definition Now : M Time := gets clock.

(** [common.HandleBuildPruning], by the build config it is asked to prune;
    its error is only logged. *)
Definition HandleBuildPruning (bcName namespace : string) : M unit :=
  modify (fun w => with_pruning (pruning w ++ [resourceName namespace bcName]) w).

(** [shouldIgnore] returns true if a build should be ignored by the
    controller. These include pipeline builds as well as builds that are in a
    terminal state. However if the build is either complete or failed and its
    completion timestamp has not been set, then it returns false so that the
    build's completion timestamp gets updated. *)
Definition shouldIgnore (build : Build) : bool :=
  let status := Build_Status build in
  if negb (isNil (Strategy_JenkinsPipelineStrategy (Spec_Strategy (Build_Spec build))))
  then true
  else if IsBuildComplete build then
    match Status_Phase status with
    | BuildPhaseComplete =>
        if isNil (Status_CompletionTimestamp status) then false else true
    | BuildPhaseFailed =>
        if isNil (Status_CompletionTimestamp status) ||
           (String.length (Status_LogSnippet status) =? 0)%nat
        then false else true
    | _ => true
    end
  else false.

(** [shouldCancel] returns true if a build is active and its cancellation
    flag is set. *)
Definition shouldCancel (build : Build) : bool :=
  negb (IsBuildComplete build) && Status_Cancelled (Build_Status build).

(** [cancelBuild] deletes a build pod and returns an update to mark the build
    as cancelled. *)
Definition cancelBuild (build : Build) : M (option buildUpdate * option error) :=
  let podName := GetBuildPodName E build in
  err ← Pods_Delete (Build_Namespace build) podName;
  match err with
  | Some e =>
      if negb (IsNotFound e)
      then mret (None, Some (Errorf "could not delete build pod %s/%s to cancel build %s: %v"))
      else mret (Some (transitionToPhase BuildPhaseCancelled StatusReasonCancelledBuild
                         (StatusMessageCancelledBuild E)), None)
  | None =>
      mret (Some (transitionToPhase BuildPhaseCancelled StatusReasonCancelledBuild
                    (StatusMessageCancelledBuild E)), None)
  end.

(** [findMissingPod] uses the REST client directly to determine if a pod
    exists or not. It is called when a corresponding pod for a build is not
    found in the cache. *)
Definition findMissingPod (build : Build) : M (option Pod) :=
  r ← Pods_Get (Build_Namespace build) (GetBuildPodName E build);
  match r with
  | Ok pod => mret (Some pod)
  | Err _ => mret None
  end.

Definition gitCloneRunning (initContainer : ContainerStatus) : bool :=
  bool_decide (ContainerStatus_Name initContainer = GitCloneContainer) &&
  negb (isNil (State_Running (ContainerStatus_State initContainer))).

Definition exitedNonZero (info : ContainerStatus) : bool :=
  match State_Terminated (ContainerStatus_State info) with
  | Some terminated => negb (Terminated_ExitCode terminated =? 0)
  | None => false
  end.

(** [handleActiveBuild] handles a build in either pending or running state. *)
Definition handleActiveBuild (build : Build) (pod : option Pod)
  : M (option buildUpdate * option error) :=
  pod ← match pod with
        | Some pod => mret (Some pod)
        | None => findMissingPod build
        end;
  match pod with
  | None =>
      mret (Some (transitionToPhase BuildPhaseError StatusReasonBuildPodDeleted
                    (StatusMessageBuildPodDeleted E)), None)
  | Some pod =>
      let status := Build_Status build in
      let podPhase := PodStatus_Phase (Pod_Status pod) in
      let update : option buildUpdate := None in
      let podPhase :=
        if bool_decide (Status_Phase status = BuildPhasePending) ||
           bool_decide (Status_Phase status = BuildPhaseNew)
        then foldl (fun podPhase initContainer =>
                      if gitCloneRunning initContainer then PodRunning else podPhase)
                   podPhase (PodStatus_InitContainerStatuses (Pod_Status pod))
        else podPhase in
      let update :=
        match podPhase with
        | PodPending =>
            let update :=
              if negb (bool_decide (Status_Phase status = BuildPhasePending))
              then Some (transitionToPhase BuildPhasePending "" "")
              else update in
            match Output_PushSecret (Spec_Output (Build_Spec build)) with
            | Some secret =>
                if negb (bool_decide (Status_Reason status = StatusReasonMissingPushSecret))
                then match secretStore E (Build_Namespace build)
                             (LocalObjectReference_Name secret) with
                     | Some err =>
                         if IsNotFound err
                         then Some (transitionToPhase BuildPhasePending
                                      StatusReasonMissingPushSecret
                                      (StatusMessageMissingPushSecret E))
                         else update
                     | None => update
                     end
                else update
            | None => update
            end
        | PodRunning =>
            if negb (bool_decide (Status_Phase status = BuildPhaseRunning)) then
              let update := transitionToPhase BuildPhaseRunning "" "" in
              match PodStatus_StartTime (Pod_Status pod) with
              | Some startTime => Some (setStartTime startTime update)
              | None => Some update
              end
            else update
        | PodSucceeded =>
            let update :=
              if negb (bool_decide (Status_Phase status = BuildPhaseComplete))
              then Some (transitionToPhase BuildPhaseComplete "" "")
              else update in
            if (length (PodStatus_ContainerStatuses (Pod_Status pod)) =? 0)%nat
            then Some (transitionToPhase BuildPhaseError StatusReasonNoBuildContainerStatus
                         (StatusMessageNoBuildContainerStatus E))
            else if existsb exitedNonZero (PodStatus_ContainerStatuses (Pod_Status pod))
            then Some (transitionToPhase BuildPhaseError StatusReasonFailedContainer
                         (StatusMessageFailedContainer E))
            else update
        | PodFailed =>
            if isOOMKilled (Some pod)
            then Some (transitionToPhase BuildPhaseFailed StatusReasonOutOfMemoryKilled
                         (StatusMessageOutOfMemoryKilled E))
            else if negb (bool_decide (Status_Phase status = BuildPhaseFailed)) then
              if negb (isNil (Pod_DeletionTimestamp pod))
              then Some (transitionToPhase BuildPhaseError StatusReasonBuildPodDeleted
                           (StatusMessageBuildPodDeleted E))
              else Some (transitionToPhase BuildPhaseFailed StatusReasonGenericBuildFailed
                           (StatusMessageGenericBuildFailed E))
            else update
        | PodUnknown => update
        end in
      mret (update, None)
  end.

(** [handleNewBuild] will check whether policy allows running the new build
    and if so, creates a pod for the build and returns an update to move it to
    the Pending phase. *)
Definition handleNewBuild (build : Build) (pod : option Pod)
  : M (option buildUpdate * option error) :=
  match pod with
  | Some pod =>
      if HasOwnerReference E pod build then handleActiveBuild build (Some pod)
      else mret (Some (transitionToPhase BuildPhaseError StatusReasonBuildPodExists
                         (StatusMessageBuildPodExists E)), None)
  | None =>
      match ForBuild E build with
      | None => mret (None, Some (Errorf "unable to determine build policy for %s"))
      | Some runPolicy =>
          '(run, err) ← runPolicy build;
          if negb (isNil err) || negb run then mret (None, err)
          else createBuildPod build
      end
  end.

(** [handleCompletedBuild] will only be called on builds that are already in
    a terminal phase. It is used to setup the completion timestamp and failure
    logsnippet as needed. *)
Definition handleCompletedBuild (build : Build) (pod : option Pod)
  : M (option buildUpdate * option error) :=
  let update := emptyUpdate in
  let update :=
    if isOOMKilled pod
    then transitionToPhase BuildPhaseFailed StatusReasonOutOfMemoryKilled
           (StatusMessageOutOfMemoryKilled E)
    else update in
  now ← Now;
  mret (Some (setBuildCompletionData now build pod update), None).

Definition enqueueBuildConfig (ns name : string) : M unit :=
  let key := resourceName ns name in
  modify (fun w => with_buildConfigQueue (workqueue.Add key (buildConfigQueue w)) w).

Definition handleBuildCompletion (build : Build) : M unit :=
  let bcName := ConfigNameForBuild E build in
  enqueueBuildConfig (Build_Namespace build) bcName;;
  HandleBuildPruning bcName (Build_Namespace build).

(** [createBuildPatch], by the two builds the patch is computed from. *)
Definition createBuildPatch (older newer : Build) : BuildPatch :=
  {| Patch_Older := older; Patch_Newer := newer |}.

(** [patchBuild] generates a patch for the given build and buildUpdate and
    applies that patch using the REST client. *)
Definition patchBuild (build : Build) (update : buildUpdate) : M (result Build) :=
  let updatedBuild := apply update build in
  let patch := createBuildPatch build updatedBuild in
  modify (fun w => with_buildPatcher (buildPatcher w ++ [patch]) w);;
  mret (Patch E (Build_Namespace build) (Build_Name build) patch).

(** [updateBuild] is the single place where any update to a build is done in
    the build controller. It will check that the update is valid, peform any
    necessary processing such as calling HandleBuildCompletion, and apply the
    buildUpdate object as a patch. Where the source reads [*update.phase], the
    phase is set; the read defaults to the build's phase. *)
Definition updateBuild (build : Build) (update : buildUpdate) (pod : option Pod)
  : M (option error) :=
  let status := Build_Status build in
  let '(stateTransition, update) :=
    if match phase update with
       | Some p => negb (bool_decide (p = Status_Phase status))
       | None => false
       end
    then (true, update)
    else if bool_decide (Status_Phase status = BuildPhaseFailed) &&
            negb (isNil (completionTime update))
    then (true, setPhase BuildPhaseFailed update)
    else (false, update) in
  let to := default (Status_Phase status) (phase update) in
  if stateTransition && negb (isValidTransition (Status_Phase status) to)
  then mret (Some (Errorf "invalid phase transition %s -> %s"))
  else
    update ← (if stateTransition && IsTerminalPhase to
              then now ← Now; mret (setBuildCompletionData now build pod update)
              else mret update);
    let update :=
      match pod with
      | Some pod =>
          if isNil (podNameAnnotation update) && negb (HasBuildPodNameAnnotation build)
          then setPodNameAnnotation (Pod_Name pod) update
          else update
      | None => update
      end in
    patched ← patchBuild build update;
    match patched with
    | Err err => mret (Some err)
    | Ok patchedBuild =>
        (if stateTransition then
           match to with
           | BuildPhaseRunning => Eventf patchedBuild EventTypeNormal "BuildStarted"
           | BuildPhaseCancelled => Eventf patchedBuild EventTypeNormal "BuildCancelled"
           | BuildPhaseComplete => Eventf patchedBuild EventTypeNormal "BuildCompleted"
           | BuildPhaseError | BuildPhaseFailed =>
               Eventf patchedBuild EventTypeNormal "BuildFailed"
           | _ => mret tt
           end;;
           if IsTerminalPhase to then handleBuildCompletion patchedBuild else mret tt
         else mret tt);;
        mret None
    end.

(** The switch of [handleBuild]: the handler for the build's state, or no
    update and no error when no case applies. *)
Definition handleBuild_switch (build : Build) (pod : option Pod)
  : M (option buildUpdate * option error) :=
  let phase := Status_Phase (Build_Status build) in
  if shouldCancel build then cancelBuild build
  else if bool_decide (phase = BuildPhaseNew) then handleNewBuild build pod
  else if bool_decide (phase = BuildPhasePending) ||
          bool_decide (phase = BuildPhaseRunning) then handleActiveBuild build pod
  else if IsBuildComplete build then handleCompletedBuild build pod
  else mret (None, None).

(** [handleBuild] retrieves the build's corresponding pod and calls the
    appropriate handle function based on the build's current state. Each
    handler returns a buildUpdate object that includes any updates that need
    to be made on the build. *)
Definition handleBuild (build : Build) : M (option error) :=
  (if negb (isNil (Strategy_JenkinsPipelineStrategy (Spec_Strategy (Build_Spec build))))
      && IsBuildComplete build
   then HandleBuildPruning (ConfigNameForBuild E build) (Build_Namespace build)
   else mret tt);;
  if shouldIgnore build then mret None
  else
    let '(pod, podErr) :=
      match podStore E (Build_Namespace build) (GetBuildPodName E build) with
      | Ok pod => (Some pod, None)
      | Err err => (None, Some err)
      end in
    if match podErr with
       | Some err => negb (IsNotFound err)
       | None => false
       end
    then mret podErr
    else
      '(update, err) ← handleBuild_switch build pod;
      updateErr ← match update with
                  | Some update =>
                      if negb (isEmpty update) then updateBuild build update pod
                      else mret None
                  | None => mret None
                  end;
      match err with
      | Some err => mret (Some err)
      | None =>
          match updateErr with
          | Some updateErr => mret (Some updateErr)
          | None => mret None
          end
      end.

(** [bc.buildQueue.Add] and [bc.imageStreamQueue.Pop]. *)
Definition buildQueue_Add (key : string) : M unit :=
  modify (fun w => with_buildQueue (workqueue.Add key (buildQueue w)) w).

Definition imageStreamQueue_Pop (key : string) : M (list string) :=
  fun w =>
    let '(resources, queue) := resourceTriggerQueue.Pop key (imageStreamQueue w) in
    (resources, with_imageStreamQueue queue w).

(** [enqueueBuild] adds the given build to the buildQueue. *)
Definition enqueueBuild (build : Build) : M unit :=
  let key := resourceName (Build_Namespace build) (Build_Name build) in
  buildQueue_Add key.

(** [imageStreamAdded] queues any builds that have registered themselves for
    this image stream. Because builds are level driven when resolving images,
    we are not concerned with duplicate build events. *)
Definition imageStreamAdded (stream : ImageStream) : M unit :=
  buildKeys ← imageStreamQueue_Pop
                (resourceName (ImageStream_Namespace stream) (ImageStream_Name stream));
  forEach buildKeys buildQueue_Add.

(** [imageStreamUpdated] queues any builds that have registered themselves for
    the image stream. *)
Definition imageStreamUpdated (old cur : ImageStream) : M unit :=
  imageStreamAdded cur.

End Controller.

(** ** Specification-level definitions *)

(** The start time the completion data is measured from: the build's start
    timestamp, else the pod's start time, else the current time. *)
Definition completionStart (now : Time) (build : Build) (pod : option Pod) : Time :=
  match Status_StartTimestamp (Build_Status build) with
  | Some startTime => startTime
  | None => default now (pod ≫= fun pod => PodStatus_StartTime (Pod_Status pod))
  end.

(** The last [n] elements of a list, all of it when it is shorter. *)
Definition lastN {A : Type} (n : nat) (l : list A) : list A :=
  reverse (take n (reverse l)).

(** The log snippet as the specification words it: a line longer than 120
    characters becomes its first 58 characters, "...", and its last 59
    characters; the snippet of a message is the message with its trailing
    newlines trimmed, cut down to its last 5 lines, each line elided. *)
Definition specElide (line : list ascii) : list ascii :=
  if (120 <? length line)%nat
  then take 58 line ++ list_ascii_of_string "..." ++ lastN 59 line
  else line.

Definition specLogSnippet (msg : string) : string :=
  let lines := Split (TrimRight (list_ascii_of_string msg) newline) newline in
  string_of_list_ascii (Join (specElide <$> lastN 5 lines) newline).

(** The position of a phase in the life of a build: New, then Pending, then
    Running, then any of the terminal phases. *)
Definition phaseRank (phase : BuildPhase) : nat :=
  match phase with
  | BuildPhaseNew => 0
  | BuildPhasePending => 1
  | BuildPhaseRunning => 2
  | _ => 3
  end.

(** The errors an error stands for: itself, or for an aggregate those of its
    members, aggregates within aggregates included. *)
Fixpoint errorLeaves (err : error) : list error :=
  match err with
  | Aggregate errs => flat_map errorLeaves errs
  | _ => [err]
  end.

(** ** Keys, retries and watch handlers *)

(** [strings.SplitN(s, sep, n)] for a one-byte separator and [n >= 0]: at
    most [n] substrings, the last one the unsplit remainder; none for
    [n = 0]. *)
Fixpoint cutAt (s : list ascii) (sep : ascii) : option (list ascii * list ascii) :=
  match s with
  | [] => None
  | c :: s' =>
      if decide (c = sep) then Some ([], s')
      else match cutAt s' sep with
           | Some (before, after) => Some (c :: before, after)
           | None => None
           end
  end.

Fixpoint SplitN (s : list ascii) (sep : ascii) (n : nat) : list (list ascii) :=
  match n with
  | O => []
  | S n' =>
      match n' with
      | O => [s]
      | S _ =>
          match cutAt s sep with
          | Some (before, after) => before :: SplitN after sep n'
          | None => [s]
          end
      end
  end.

Definition slash : ascii := "/"%char.

Definition parseBuildConfigKey (key : string) : result (string * string) :=
  let parts := SplitN (list_ascii_of_string key) slash 2 in
  match parts with
  | [namespace; name] => Ok (string_of_list_ascii namespace, string_of_list_ascii name)
  | _ => Err (Errorf "invalid build config key: %s")
  end.


Definition maxRetries : nat := 15.

(** A rate-limited work queue of the cluster client library: the keys
    waiting and, per key, the number of failures its rate limiter has
    counted. [AddRateLimited] counts one more failure and adds the key (once
    its back-off has passed), [Forget] clears the count, [NumRequeues] reads
    it. *)
Module RateLimitingQueue.

Record t : Type := {
  waiting : list string;
  failures : gmap string nat
}.

Definition NumRequeues (key : string) (q : t) : nat := default 0%nat (failures q !! key).

Definition Forget (key : string) (q : t) : t :=
  {| waiting := waiting q; failures := delete key (failures q) |}.

Definition AddRateLimited (key : string) (q : t) : t :=
  {| waiting := workqueue.Add key (waiting q);
     failures := <[key := S (NumRequeues key q)]> (failures q) |}.

End RateLimitingQueue.


(** [handleBuildConfigError] is called by the buildConfig work loop to check
    the return of calling handleBuildConfig. If an error occurred, then the
    key is re-added to the buildConfigQueue unless it has been retried too
    many times. *)
Definition handleBuildConfigError (err : option error) (key : string)
    (buildConfigQueue : RateLimitingQueue.t) : RateLimitingQueue.t :=
  match err with
  | None => RateLimitingQueue.Forget key buildConfigQueue
  | Some err =>
      if (RateLimitingQueue.NumRequeues key buildConfigQueue <? maxRetries)%nat
      then RateLimitingQueue.AddRateLimited key buildConfigQueue
      else RateLimitingQueue.Forget key buildConfigQueue
  end.


Section BuildConfigs.

(** [policy.GetNextConfigBuild] over the build lister: the builds to run
    next for a build config, whether it has running builds, and an error. *)
Context (GetNextConfigBuild : string -> string -> list Build * bool * option error).

Definition handleBuildConfig (bcNamespace bcName : string) : M (option error) :=
  let '(nextBuilds, hasRunningBuilds, err) := GetNextConfigBuild bcNamespace bcName in
  match err with
  | Some err => mret (Some err)
  | None =>
      if hasRunningBuilds
      then mret (Some (Errorf
             "build config %s/%s has running builds and cannot run more builds"))
      else if (length nextBuilds =? 0)%nat
      then mret (Some (Errorf "build config %s/%s has no builds to run next"))
      else forEach nextBuilds enqueueBuild;; mret None
  end.

End BuildConfigs.

(** The objects a watch hands to a delete handler: the object itself, a
    [cache.DeletedFinalStateUnknown] tombstone around the last known object,
    or something else. *)
Inductive WatchObject (T : Type) : Type :=
| Object (obj : T)
| Tombstone (obj : WatchObject T)
| Unexpected.
Arguments Object {T} obj.
Arguments Tombstone {T} obj.
Arguments Unexpected {T}.

(** The type assertion of the object to a [T], and the one on a tombstone's
    [Obj]. *)
Definition asObject {T : Type} (obj : WatchObject T) : option T :=
  match obj with
  | Object o => Some o
  | Tombstone (Object o) => Some o
  | _ => None
  end.

Section Watches.

Context (E : Env).

(** [buildAdded] is called by the build informer event handler whenever a
    build is created. *)
Definition buildAdded (build : Build) : M unit := enqueueBuild build.

(** [buildUpdated] is called by the build informer event handler whenever a
    build is updated or there is a relist of builds. *)
Definition buildUpdated (old cur : Build) : M unit := enqueueBuild cur.

(** [buildDeleted] is called by the build informer event handler whenever a
    build is deleted. An object that is no build, directly or in a tombstone,
    is only reported. *)
Definition buildDeleted (obj : WatchObject Build) : M unit :=
  match asObject obj with
  | None => mret tt
  | Some build =>
      if negb (IsBuildComplete build)
      then enqueueBuildConfig (Build_Namespace build) (ConfigNameForBuild E build)
      else mret tt
  end.

End Watches.

(** ** Pod events and the CA config map *)

(** A pod as the watch handlers and the CA config map code read it: the pod
    together with its resource version, its annotations and its UID. *)
Record PodObject : Type := {
  PodObject_Pod : Pod;
  PodObject_ResourceVersion : string;
  PodObject_Annotations : gmap string string;
  PodObject_UID : string
}.

(** [buildutil.BuildAnnotation], the annotation of a build pod that names its
    build. *)
Definition BuildAnnotation : string := "build.openshift.io/build.name".

(** [getBuildName] returns name of the build pod. *)
Definition getBuildName (pod : option PodObject) : string :=
  match pod with
  | None => ""
  | Some pod => default "" (PodObject_Annotations pod !! BuildAnnotation)
  end.

(** [isBuildPod] returns true if the given pod is a build pod. *)
Definition isBuildPod (pod : PodObject) : bool :=
  (0 <? String.length (getBuildName (Some pod)))%nat.

(** [enqueueBuildForPod] adds the build corresponding to the given pod to the
    controller buildQueue. *)
Definition enqueueBuildForPod (pod : PodObject) : M unit :=
  buildQueue_Add (resourceName (Pod_Namespace (PodObject_Pod pod)) (getBuildName (Some pod))).

(** [podUpdated] gets called by the pod informer event handler whenever a pod
    is updated or there is a relist of pods. *)
Definition podUpdated (old cur : PodObject) : M unit :=
  if bool_decide (PodObject_ResourceVersion cur = PodObject_ResourceVersion old)
  then mret tt
  else if isBuildPod cur then enqueueBuildForPod cur
  else mret tt.

(** [podDeleted] gets called by the pod informer event handler whenever a pod
    is deleted. *)
Definition podDeleted (obj : WatchObject PodObject) : M unit :=
  match asObject obj with
  | None => mret tt
  | Some pod => if isBuildPod pod then enqueueBuildForPod pod else mret tt
  end.

(** [metav1.OwnerReference]. *)
Record OwnerReference : Type := {
  OwnerReference_APIVersion : string;
  OwnerReference_Kind : string;
  OwnerReference_Name : string;
  OwnerReference_UID : string;
  OwnerReference_Controller : option bool;
  OwnerReference_BlockOwnerDeletion : option bool
}.

#[global] Instance OwnerReference_eq_dec : EqDecision OwnerReference.
Proof. solve_decision. Defined.

(** [corev1.ConfigMap]. *)
Record ConfigMap : Type := {
  ConfigMap_Name : string;
  ConfigMap_Annotations : gmap string string;
  ConfigMap_OwnerReferences : list OwnerReference;
  ConfigMap_Data : gmap string string
}.

Definition makeBuildCAOwnerRef (buildPod : PodObject) : OwnerReference :=
  {| OwnerReference_APIVersion := "v1";
     OwnerReference_Kind := "Pod";
     OwnerReference_Name := Pod_Name (PodObject_Pod buildPod);
     OwnerReference_UID := PodObject_UID buildPod;
     OwnerReference_Controller := None;
     OwnerReference_BlockOwnerDeletion := None |}.

(** [hasBuildCAOwnerRef]: some owner reference of the map is deeply equal to
    the one made for the pod. *)
Definition hasBuildCAOwnerRef (buildPod : PodObject) (caMap : ConfigMap) : bool :=
  let ref := makeBuildCAOwnerRef buildPod in
  existsb (fun owner => bool_decide (ref = owner)) (ConfigMap_OwnerReferences caMap).

Section CAConfigMap.

(** The name of a build's CA config map ([buildapihelpers]), the key of the
    additional CA data and the status message ([buildutil]), and the
    additional trusted CA data the controller read at start-up. *)
Context (GetBuildCAConfigMapName : Build -> string).
Context (AdditionalTrustedCAKey StatusMessageCannotCreateCAConfigMap : string).
Context (additionalTrustedCAData : string).

(** [createBuildCAConfigMapSpec] creates a ConfigMap template to hold
    certificate authorities used by the build pod. The returned ConfigMap has
    an owner reference to the provided pod, ensuring proper garbage
    collection. *)
Definition createBuildCAConfigMapSpec (build : Build) (buildPod : PodObject) : ConfigMap :=
  {| ConfigMap_Name := GetBuildCAConfigMapName build;
     ConfigMap_Annotations := {[ "service.alpha.openshift.io/inject-cabundle" := "true" ]};
     ConfigMap_OwnerReferences := [makeBuildCAOwnerRef buildPod];
     ConfigMap_Data :=
       if (0 <? String.length additionalTrustedCAData)%nat
       then {[ AdditionalTrustedCAKey := additionalTrustedCAData ]}
       else ∅ |}.

(** The config maps client. The config maps on the API server are keyed by
    "namespace/name"; [Get] of an absent map fails with NotFound, [Create] of
    a present one with AlreadyExists. *)
Definition ConfigMaps_Get (namespace name : string) (configMaps : gmap string ConfigMap)
  : result ConfigMap :=
  match configMaps !! resourceName namespace name with
  | Some cm => Ok cm
  | None => Err (StatusError APIReasonNotFound)
  end.

Definition ConfigMaps_Create (namespace : string) (cm : ConfigMap)
    (configMaps : gmap string ConfigMap) : result ConfigMap * gmap string ConfigMap :=
  match configMaps !! resourceName namespace (ConfigMap_Name cm) with
  | Some _ => (Err (StatusError APIReasonAlreadyExists), configMaps)
  | None => (Ok cm, <[resourceName namespace (ConfigMap_Name cm) := cm]> configMaps)
  end.

(** [findBuildCAConfigMap] finds the ConfigMap containing the certificate
    authorities for the build. The ConfigMap must exist and contain an owner
    reference to the build pod to be valid. *)
Definition findBuildCAConfigMap (build : Build) (buildPod : PodObject)
    (configMaps : gmap string ConfigMap) : bool * option error :=
  let name := GetBuildCAConfigMapName build in
  match ConfigMaps_Get (Build_Namespace build) name configMaps with
  | Err err => if IsNotFound err then (false, None) else (false, Some err)
  | Ok cm =>
      if negb (hasBuildCAOwnerRef buildPod cm)
      then (true, Some (Errorf "build CA configMap %s is not owned by build pod %s"))
      else (true, None)
  end.

(** [createBuildCAConfigMap] creates a ConfigMap containing certificate
    authorities used by the build pod. *)
Definition createBuildCAConfigMap (build : Build) (buildPod : PodObject)
    (update : buildUpdate) (configMaps : gmap string ConfigMap)
  : M (buildUpdate * option error * gmap string ConfigMap) :=
  let configMapSpec := createBuildCAConfigMapSpec build buildPod in
  let '(created, configMaps) :=
    ConfigMaps_Create (Pod_Namespace (PodObject_Pod buildPod)) configMapSpec configMaps in
  match created with
  | Err err =>
      Eventf build EventTypeWarning "FailedCreate";;
      let update := setReason "CannotCreateCAConfigMap" update in
      let update := setMessage StatusMessageCannotCreateCAConfigMap update in
      mret (update,
            Some (Errorf "failed to create build certificate authority configMap: %v"),
            configMaps)
  | Ok configMap => mret (update, None, configMaps)
  end.

End CAConfigMap.

(** ** Faults *)

(** The collaborators [E] with a build patcher that refuses every patch. *)
Definition withFailingPatcher (err : error) (E : Env) : Env :=
  {| podStore := podStore E;
     secretStore := secretStore E;
     imageStreamStore := imageStreamStore E;
     GetBuildPodName := GetBuildPodName E;
     ConfigNameForBuild := ConfigNameForBuild E;
     HasOwnerReference := HasOwnerReference E;
     SplitImageStreamImage := SplitImageStreamImage E;
     SplitImageStreamTag := SplitImageStreamTag E;
     ParseDockerImageReference := ParseDockerImageReference E;
     Exact := Exact E;
     ResolveImageID := ResolveImageID E;
     ResolveLatestTaggedImage := ResolveLatestTaggedImage E;
     StatusMessageCancelledBuild := StatusMessageCancelledBuild E;
     StatusMessageBuildPodExists := StatusMessageBuildPodExists E;
     StatusMessageBuildPodDeleted := StatusMessageBuildPodDeleted E;
     StatusMessageMissingPushSecret := StatusMessageMissingPushSecret E;
     StatusMessageInvalidOutputRef := StatusMessageInvalidOutputRef E;
     StatusMessageInvalidImageRef := StatusMessageInvalidImageRef E;
     StatusMessageNoBuildContainerStatus := StatusMessageNoBuildContainerStatus E;
     StatusMessageFailedContainer := StatusMessageFailedContainer E;
     StatusMessageOutOfMemoryKilled := StatusMessageOutOfMemoryKilled E;
     StatusMessageGenericBuildFailed := StatusMessageGenericBuildFailed E;
     ForBuild := ForBuild E;
     createBuildPodResolved := createBuildPodResolved E;
     Patch := fun _ _ _ => Err err |}.

(** The collaborators [E] with another image stream lister and another
    parser of docker image references. *)
Definition withImageStreams (store : string -> string -> result ImageStream)
    (parse : string -> result DockerImageReference) (E : Env) : Env :=
  {| podStore := podStore E;
     secretStore := secretStore E;
     imageStreamStore := store;
     GetBuildPodName := GetBuildPodName E;
     ConfigNameForBuild := ConfigNameForBuild E;
     HasOwnerReference := HasOwnerReference E;
     SplitImageStreamImage := SplitImageStreamImage E;
     SplitImageStreamTag := SplitImageStreamTag E;
     ParseDockerImageReference := parse;
     Exact := Exact E;
     ResolveImageID := ResolveImageID E;
     ResolveLatestTaggedImage := ResolveLatestTaggedImage E;
     StatusMessageCancelledBuild := StatusMessageCancelledBuild E;
     StatusMessageBuildPodExists := StatusMessageBuildPodExists E;
     StatusMessageBuildPodDeleted := StatusMessageBuildPodDeleted E;
     StatusMessageMissingPushSecret := StatusMessageMissingPushSecret E;
     StatusMessageInvalidOutputRef := StatusMessageInvalidOutputRef E;
     StatusMessageInvalidImageRef := StatusMessageInvalidImageRef E;
     StatusMessageNoBuildContainerStatus := StatusMessageNoBuildContainerStatus E;
     StatusMessageFailedContainer := StatusMessageFailedContainer E;
     StatusMessageOutOfMemoryKilled := StatusMessageOutOfMemoryKilled E;
     StatusMessageGenericBuildFailed := StatusMessageGenericBuildFailed E;
     ForBuild := ForBuild E;
     createBuildPodResolved := createBuildPodResolved E;
     Patch := Patch E |}.

(** The collaborators [E] with another pod lister and another test of pod
    ownership. *)
Definition withPods (store : string -> string -> result Pod)
    (owned : Pod -> Build -> bool) (E : Env) : Env :=
  {| podStore := store;
     secretStore := secretStore E;
     imageStreamStore := imageStreamStore E;
     GetBuildPodName := GetBuildPodName E;
     ConfigNameForBuild := ConfigNameForBuild E;
     HasOwnerReference := owned;
     SplitImageStreamImage := SplitImageStreamImage E;
     SplitImageStreamTag := SplitImageStreamTag E;
     ParseDockerImageReference := ParseDockerImageReference E;
     Exact := Exact E;
     ResolveImageID := ResolveImageID E;
     ResolveLatestTaggedImage := ResolveLatestTaggedImage E;
     StatusMessageCancelledBuild := StatusMessageCancelledBuild E;
     StatusMessageBuildPodExists := StatusMessageBuildPodExists E;
     StatusMessageBuildPodDeleted := StatusMessageBuildPodDeleted E;
     StatusMessageMissingPushSecret := StatusMessageMissingPushSecret E;
     StatusMessageInvalidOutputRef := StatusMessageInvalidOutputRef E;
     StatusMessageInvalidImageRef := StatusMessageInvalidImageRef E;
     StatusMessageNoBuildContainerStatus := StatusMessageNoBuildContainerStatus E;
     StatusMessageFailedContainer := StatusMessageFailedContainer E;
     StatusMessageOutOfMemoryKilled := StatusMessageOutOfMemoryKilled E;
     StatusMessageGenericBuildFailed := StatusMessageGenericBuildFailed E;
     ForBuild := ForBuild E;
     createBuildPodResolved := createBuildPodResolved E;
     Patch := Patch E |}.

(** ** Scenarios *)

(** A concrete cluster for the closed examples below: namespace [ns1] with
    the image stream [is], whose integrated registry is not configured, no
    pod in the cache, a policy that lets every build run, and a patcher that
    accepts every patch. *)
Module Scenario.

Definition newPod (build : Build) : Pod :=
  {| Pod_Namespace := Build_Namespace build;
     Pod_Name := Build_Name build +:+ "-build";
     Pod_DeletionTimestamp := None;
     Pod_Status := {| PodStatus_Phase := PodPending;
                      PodStatus_Reason := "";
                      PodStatus_StartTime := None;
                      PodStatus_InitContainerStatuses := [];
                      PodStatus_ContainerStatuses := [] |} |}.

Definition env : Env :=
  {| podStore := fun _ _ => Err (StatusError APIReasonNotFound);
     secretStore := fun _ _ => Some (StatusError APIReasonNotFound);
     imageStreamStore := fun namespace name =>
       if bool_decide (namespace = "ns1") && bool_decide (name = "is")
       then Ok {| ImageStream_Namespace := "ns1";
                  ImageStream_Name := "is";
                  ImageStream_DockerImageRepository := "" |}
       else Err (StatusError APIReasonNotFound);
     GetBuildPodName := fun build => Build_Name build +:+ "-build";
     ConfigNameForBuild := fun _ => "bc";
     HasOwnerReference := fun _ _ => true;
     SplitImageStreamImage := fun name => (name, "", false);
     SplitImageStreamTag := fun name =>
       if bool_decide (name = "is:latest") then ("is", "latest", true)
       else (name, "latest", false);
     ParseDockerImageReference := fun _ => Err (Errorf "invalid reference");
     Exact := Ref_Name;
     ResolveImageID := fun _ _ => Err (StatusError APIReasonNotFound);
     ResolveLatestTaggedImage := fun _ _ => ("", false);
     StatusMessageCancelledBuild := "cancelled";
     StatusMessageBuildPodExists := "pod exists";
     StatusMessageBuildPodDeleted := "pod deleted";
     StatusMessageMissingPushSecret := "missing push secret";
     StatusMessageInvalidOutputRef := "invalid output";
     StatusMessageInvalidImageRef := "invalid image";
     StatusMessageNoBuildContainerStatus := "no container status";
     StatusMessageFailedContainer := "failed container";
     StatusMessageOutOfMemoryKilled := "out of memory";
     StatusMessageGenericBuildFailed := "failed";
     ForBuild := fun _ => Some (fun _ => mret (true, None));
     createBuildPodResolved := fun build update w =>
       ((Some (setPodNameAnnotation (Build_Name build +:+ "-build")
                 (transitionToPhase BuildPhasePending "" "")), None),
        with_podClient
          (<[resourceName (Build_Namespace build) (Build_Name build +:+ "-build")
             := newPod build]> (podClient w)) w);
     Patch := fun _ _ patch => Ok (Patch_Newer patch) |}.

Definition start : world :=
  {| imageStreamQueue := ∅;
     buildQueue := [];
     buildConfigQueue := [];
     recorder := [];
     podClient := ∅;
     buildPatcher := [];
     pruning := [];
     clock := 50 * Second |}.

Definition status (phase : BuildPhase) : BuildStatus :=
  {| Status_Phase := phase;
     Status_Cancelled := false;
     Status_Reason := "";
     Status_Message := "";
     Status_StartTimestamp := None;
     Status_CompletionTimestamp := None;
     Status_Duration := 0;
     Status_OutputDockerImageReference := "";
     Status_LogSnippet := "" |}.

(** Build [ns1/b1]: Docker strategy, output to the image stream tag
    [is:latest]. *)
Definition build (phase : BuildPhase) : Build :=
  {| Build_Namespace := "ns1";
     Build_Name := "b1";
     Build_Annotations := ∅;
     Build_Spec :=
       {| Spec_Source_Images := [];
          Spec_Strategy :=
            {| Strategy_DockerStrategy := Some {| DockerStrategy_From := None |};
               Strategy_SourceStrategy := None;
               Strategy_CustomStrategy := None;
               Strategy_JenkinsPipelineStrategy := None |};
          Spec_Output :=
            {| Output_To := Some {| ObjectReference_Kind := "ImageStreamTag";
                                    ObjectReference_Namespace := "";
                                    ObjectReference_Name := "is:latest" |};
               Output_PushSecret := None |} |};
     Build_Status := status phase |}.

Definition terminated (reason message : string) : ContainerStatus :=
  {| ContainerStatus_Name := "docker-build";
     ContainerStatus_State :=
       {| State_Running := None;
          State_Terminated := Some {| Terminated_ExitCode := 137;
                                      Terminated_Reason := reason;
                                      Terminated_Message := message |} |} |}.

(** A pod in phase [Failed] that is being deleted and whose build container
    was killed for running out of memory. *)
Definition oomDeletedPod : Pod :=
  {| Pod_Namespace := "ns1";
     Pod_Name := "b1-build";
     Pod_DeletionTimestamp := Some (40 * Second);
     Pod_Status := {| PodStatus_Phase := PodFailed;
                      PodStatus_Reason := "";
                      PodStatus_StartTime := Some (10 * Second);
                      PodStatus_InitContainerStatuses := [];
                      PodStatus_ContainerStatuses := [terminated "OOMKilled" ""] |} |}.

(** The same pod, failed for another reason. *)
Definition deletedPod : Pod :=
  {| Pod_Namespace := "ns1";
     Pod_Name := "b1-build";
     Pod_DeletionTimestamp := Some (40 * Second);
     Pod_Status := {| PodStatus_Phase := PodFailed;
                      PodStatus_Reason := "";
                      PodStatus_StartTime := Some (10 * Second);
                      PodStatus_InitContainerStatuses := [];
                      PodStatus_ContainerStatuses := [terminated "Error" ""] |} |}.

(** A pending pod whose [git-clone] init container is running. *)
Definition cloningPod : Pod :=
  {| Pod_Namespace := "ns1";
     Pod_Name := "b1-build";
     Pod_DeletionTimestamp := None;
     Pod_Status :=
       {| PodStatus_Phase := PodPending;
          PodStatus_Reason := "";
          PodStatus_StartTime := Some (10 * Second);
          PodStatus_InitContainerStatuses :=
            [{| ContainerStatus_Name := "git-clone";
                ContainerStatus_State :=
                  {| State_Running := Some {| Running_StartedAt := 11 * Second |};
                     State_Terminated := None |} |}];
          PodStatus_ContainerStatuses := [] |} |}.

(** Build [ns1/b1] running, with a start timestamp ahead of the
    controller's clock. *)
Definition lateBuild : Build :=
  withStatus (build BuildPhaseRunning)
    {| Status_Phase := BuildPhaseRunning;
       Status_Cancelled := false;
       Status_Reason := "";
       Status_Message := "";
       Status_StartTimestamp := Some (100 * Second);
       Status_CompletionTimestamp := None;
       Status_Duration := 0;
       Status_OutputDockerImageReference := "";
       Status_LogSnippet := "" |}.

Definition longLine : list ascii := replicate 200 "x"%char.

(** A termination message of six lines, the third of 200 characters. *)
Definition sixLines : string :=
  string_of_list_ascii
    (Join [list_ascii_of_string "one"; list_ascii_of_string "two"; longLine;
           list_ascii_of_string "four"; list_ascii_of_string "five";
           list_ascii_of_string "six"] newline ++ [newline]).

(** A failed pod whose build container left that message. *)
Definition failedPod : Pod :=
  {| Pod_Namespace := "ns1";
     Pod_Name := "b1-build";
     Pod_DeletionTimestamp := None;
     Pod_Status := {| PodStatus_Phase := PodFailed;
                      PodStatus_Reason := "";
                      PodStatus_StartTime := Some (10 * Second);
                      PodStatus_InitContainerStatuses := [];
                      PodStatus_ContainerStatuses := [terminated "Error" sixLines] |} |}.

(** The controller's state with build [ns1/b1] waiting on [ns1/is], twice
    over, and build [ns1/b2] already in the build queue. *)
Definition waiting : world :=
  with_buildQueue ["ns1/b2"]
    (with_imageStreamQueue
       (resourceTriggerQueue.Add "ns1/b1" ["ns1/is"]
          (resourceTriggerQueue.Add "ns1/b2" ["ns1/is"]
             (resourceTriggerQueue.Add "ns1/b1" ["ns1/is"] ∅))) start).

Definition stream : ImageStream :=
  {| ImageStream_Namespace := "ns1";
     ImageStream_Name := "is";
     ImageStream_DockerImageRepository := "registry/ns1/is" |}.

End Scenario.

(** ** Further scenarios *)

Module Examples.

(** Build [ns1/b1] with the given status. *)
Definition buildWith (phase : BuildPhase) (cancelled : bool)
    (completion : option Time) : Build :=
  withStatus (Scenario.build phase)
    {| Status_Phase := phase;
       Status_Cancelled := cancelled;
       Status_Reason := "";
       Status_Message := "";
       Status_StartTimestamp := Some (10 * Second);
       Status_CompletionTimestamp := completion;
       Status_Duration := 0;
       Status_OutputDockerImageReference := "";
       Status_LogSnippet := "" |}.

(** The cluster of [Scenario] once the registry is configured: the image
    stream [ns1/is] points to [registry/ns1/is]. *)
Definition registryEnv : Env :=
  withImageStreams
    (fun namespace name =>
       if bool_decide (namespace = "ns1") && bool_decide (name = "is")
       then Ok Scenario.stream
       else Err (StatusError APIReasonNotFound))
    (fun repository =>
       Ok {| Ref_Registry := ""; Ref_Namespace := ""; Ref_Name := repository;
             Ref_Tag := ""; Ref_ID := "" |})
    Scenario.env.

(** The cluster of [Scenario] without any image stream. *)
Definition emptyEnv : Env :=
  withImageStreams (fun _ _ => Err (StatusError APIReasonNotFound))
    (ParseDockerImageReference Scenario.env) Scenario.env.

(** The cluster of [Scenario] with a pod [b1-build] in the cache that some
    other controller owns. *)
Definition foreignPodEnv : Env :=
  withPods (fun _ _ => Ok (Scenario.newPod (Scenario.build BuildPhaseNew)))
    (fun _ _ => false) Scenario.env.

(** The controller's state with the pod of [ns1/b1] on the API server. *)
Definition running : world :=
  with_podClient {[ "ns1/b1-build" := Scenario.cloningPod ]} Scenario.start.

Definition buildPod : PodObject :=
  {| PodObject_Pod := Scenario.cloningPod;
     PodObject_ResourceVersion := "2";
     PodObject_Annotations := {[ BuildAnnotation := "b1" ]};
     PodObject_UID := "uid-1" |}.

Definition otherPod : PodObject :=
  {| PodObject_Pod := Scenario.cloningPod;
     PodObject_ResourceVersion := "7";
     PodObject_Annotations := ∅;
     PodObject_UID := "uid-2" |}.

Definition caName (build : Build) : string := Build_Name build +:+ "-ca".

End Examples.

(** ** Theorems *)

(** C1: for every pair of phases, [isValidTransition from to] holds exactly
    when [from = to], or [from] is none of the terminal phases Complete,
    Failed, Error, Cancelled, the pair is not Pending -> New, and it is not
    Running -> New or Running -> Pending. *)
Theorem isValidTransition_spec (from to : BuildPhase) :
  isValidTransition from to = true <->
  from = to \/
  ((from ∉ [BuildPhaseComplete; BuildPhaseFailed; BuildPhaseError; BuildPhaseCancelled]) /\
   ~ (from = BuildPhasePending /\ to = BuildPhaseNew) /\
   ~ (from = BuildPhaseRunning /\ (to = BuildPhaseNew \/ to = BuildPhasePending))).
Proof.
  assert (Hterm : forall p : BuildPhase,
             p ∈ [BuildPhaseComplete; BuildPhaseFailed; BuildPhaseError; BuildPhaseCancelled]
             <-> IsTerminalPhase p = true).
  { intros p. rewrite !elem_of_cons, elem_of_nil.
    destruct p; simpl; intuition discriminate. }
  rewrite Hterm. unfold isValidTransition.
  destruct (decide (from = to)) as [-> | Hne].
  - rewrite bool_decide_eq_true_2 by reflexivity. intuition.
  - rewrite bool_decide_eq_false_2 by assumption.
    destruct from, to; simpl; intuition (congruence || discriminate).
Qed.

(** Unfolds the state monad in a goal about a run of the controller. *)
Ltac run_M := cbv [mbind mret M_bind M_ret gets modify].

(** *** Active builds *)

Section ActiveBuild.

Context (E : Env).

Lemma gitClone_override (inits : list ContainerStatus) (podPhase : PodPhase) :
  foldl (fun podPhase initContainer =>
           if gitCloneRunning initContainer then PodRunning else podPhase)
        podPhase inits
  = if existsb gitCloneRunning inits then PodRunning else podPhase.
Proof.
  revert podPhase. induction inits as [|c inits IH]; intros podPhase; simpl.
  - reflexivity.
  - rewrite IH. destruct (gitCloneRunning c); simpl.
    + destruct (existsb gitCloneRunning inits); reflexivity.
    + reflexivity.
Qed.

Lemma gitCloneRunning_exists (inits : list ContainerStatus) :
  (exists c, c ∈ inits /\ ContainerStatus_Name c = GitCloneContainer /\
             State_Running (ContainerStatus_State c) <> None)
  -> existsb gitCloneRunning inits = true.
Proof.
  intros (c & Hin & Hname & Hrun). apply existsb_exists. exists c. split.
  - apply list_elem_of_In, Hin.
  - unfold gitCloneRunning. rewrite bool_decide_eq_true_2 by exact Hname.
    destruct (State_Running (ContainerStatus_State c)); [reflexivity | congruence].
Qed.

(** C8: a build in phase Pending or New whose pod reports phase Pending but
    has an init container named git-clone in state Running is handled as if
    the pod were Running: the update is the transition to Running, with the
    pod's start time copied when it has one. *)
Theorem handleActiveBuild_gitClone_running (build : Build) (pod : Pod) (w : world) :
  Status_Phase (Build_Status build) = BuildPhasePending \/
  Status_Phase (Build_Status build) = BuildPhaseNew ->
  PodStatus_Phase (Pod_Status pod) = PodPending ->
  (exists c, c ∈ PodStatus_InitContainerStatuses (Pod_Status pod) /\
             ContainerStatus_Name c = GitCloneContainer /\
             State_Running (ContainerStatus_State c) <> None) ->
  handleActiveBuild E build (Some pod) w =
  ((Some match PodStatus_StartTime (Pod_Status pod) with
         | Some startTime => setStartTime startTime (transitionToPhase BuildPhaseRunning "" "")
         | None => transitionToPhase BuildPhaseRunning "" ""
         end, None), w).
Proof.
  intros Hphase Hpod Hinit.
  apply gitCloneRunning_exists in Hinit.
  unfold handleActiveBuild. run_M.
  rewrite gitClone_override, Hinit.
  destruct Hphase as [-> | ->]; simpl;
    destruct (PodStatus_StartTime (Pod_Status pod)); reflexivity.
Qed.


(** An out-of-memory kill takes precedence over the deletion timestamp. *)
Lemma handleActiveBuild_failed_pod_oom (build : Build) (pod : Pod) (w : world) :
  Status_Phase (Build_Status build) = BuildPhaseRunning ->
  PodStatus_Phase (Pod_Status pod) = PodFailed ->
  isOOMKilled (Some pod) = true ->
  handleActiveBuild E build (Some pod) w =
  ((Some (transitionToPhase BuildPhaseFailed StatusReasonOutOfMemoryKilled
            (StatusMessageOutOfMemoryKilled E)), None), w).
Proof.
  intros Hphase Hpod Hoom.
  unfold handleActiveBuild. run_M.
  rewrite Hphase, Hpod, Hoom. reflexivity.
Qed.

End ActiveBuild.

Lemma handleActiveBuild_gitClone_running_witness :
  PodStatus_Phase (Pod_Status Scenario.cloningPod) = PodPending /\
  fst (fst (handleActiveBuild Scenario.env (Scenario.build BuildPhasePending)
              (Some Scenario.cloningPod) Scenario.start))
  = Some (setStartTime (10 * Second) (transitionToPhase BuildPhaseRunning "" "")).
Proof.
  split; [reflexivity|].
  rewrite (handleActiveBuild_gitClone_running Scenario.env
             (Scenario.build BuildPhasePending) Scenario.cloningPod Scenario.start).
  - reflexivity.
  - left. reflexivity.
  - reflexivity.
  - eexists. split; [apply list_elem_of_here|]. split; [reflexivity | discriminate].
Defined.



(** *** Completion data *)

(** [setBuildCompletionData] leaves the phase, the reason, the message, the
    pod name annotation, the output reference and the push secret of the
    update alone. *)
Lemma setBuildCompletionData_frame (now : Time) (build : Build) (pod : option Pod)
    (update : buildUpdate) :
  let update' := setBuildCompletionData now build pod update in
  phase update' = phase update /\ reason update' = reason update /\
  message update' = message update /\
  podNameAnnotation update' = podNameAnnotation update /\
  outputRef update' = outputRef update /\ pushSecret update' = pushSecret update.
Proof.
  unfold setBuildCompletionData.
  repeat case_match; simplify_eq; simpl; repeat split; reflexivity.
Qed.

Lemma setBuildCompletionData_logSnippet_cases (now : Time) (build : Build)
    (pod : option Pod) (update : buildUpdate) :
  let update' := setBuildCompletionData now build pod update in
  logSnippet update' = logSnippet update \/
  Status_Phase (Build_Status build) = BuildPhaseFailed \/
  phase update = Some BuildPhaseFailed.
Proof.
  unfold setBuildCompletionData.
  destruct (bool_decide (Status_Phase (Build_Status build) = BuildPhaseFailed)) eqn:Hb.
  { right. left. apply bool_decide_eq_true_1 in Hb. exact Hb. }
  repeat case_match; simplify_eq; simpl in *;
    try (left; reflexivity);
    right; right;
    match goal with
    | H : (bool_decide _ && _) = true |- _ =>
        apply andb_prop in H; destruct H as [H _];
        apply bool_decide_eq_true_1 in H; exact H
    end.
Qed.

Section CompletedBuild.

Context (E : Env).

(** C4 (amended): the update [handleCompletedBuild] returns never sets the
    pod name annotation, the output reference or the push secret, and it sets
    a phase, a reason and a message exactly when the pod was killed for
    running out of memory, in which case they are Failed and
    OutOfMemoryKilled whatever the build's phase is; otherwise it carries only
    timestamps, a duration and, for a Failed build, a log snippet. *)
Theorem handleCompletedBuild_update (build : Build) (pod : option Pod) (w : world) :
  exists update,
    handleCompletedBuild E build pod w = ((Some update, None), w) /\
    phase update = (if isOOMKilled pod then Some BuildPhaseFailed else None) /\
    reason update = (if isOOMKilled pod then Some StatusReasonOutOfMemoryKilled else None) /\
    message update = (if isOOMKilled pod then Some (StatusMessageOutOfMemoryKilled E)
                      else None) /\
    podNameAnnotation update = None /\ outputRef update = None /\
    pushSecret update = None /\
    (logSnippet update = None \/
     Status_Phase (Build_Status build) = BuildPhaseFailed \/ isOOMKilled pod = true).
Proof.
  unfold handleCompletedBuild, Now. run_M.
  eexists. split; [reflexivity|].
  set (u := if isOOMKilled pod then _ else _).
  destruct (setBuildCompletionData_frame (clock w) build pod u)
    as (-> & -> & -> & -> & -> & ->).
  destruct (setBuildCompletionData_logSnippet_cases (clock w) build pod u)
    as [Hl | [Hp | Hu]].
  - rewrite Hl. subst u. destruct (isOOMKilled pod); simpl; auto 10.
  - subst u. destruct (isOOMKilled pod); simpl; auto 10.
  - subst u. destruct (isOOMKilled pod); simpl in *; [auto 10 | discriminate].
Qed.

End CompletedBuild.

(** C4 as stated fails: the build is Complete, its pod was OOM-killed, and the
    update returned asks for phase Failed. *)
Lemma handleCompletedBuild_counterexample :
  IsTerminalPhase (Status_Phase (Build_Status (Scenario.build BuildPhaseComplete))) = true /\
  (phase <$> fst (fst (handleCompletedBuild Scenario.env (Scenario.build BuildPhaseComplete)
                         (Some Scenario.oomDeletedPod) Scenario.start)))
  = Some (Some BuildPhaseFailed) /\
  BuildPhaseFailed <> Status_Phase (Build_Status (Scenario.build BuildPhaseComplete)).
Proof.
  repeat split; try reflexivity; discriminate.
Qed.

Lemma Time_Sub_exact (t u : Time) :
  minDuration <= t - u <= maxDuration -> Time_Sub t u = t - u.
Proof.
  intros [Hmin Hmax]. unfold Time_Sub.
  destruct (Z.ltb_spec (t - u) minDuration); [lia|].
  destruct (Z.ltb_spec maxDuration (t - u)); [lia|].
  reflexivity.
Qed.

(** C5 (amended): [setBuildCompletionData] sets the completion time only when
    the build has none; it is then the current time, and the duration is the
    completion time minus the start time, both truncated to whole seconds
    (the difference being within the range of a Duration). The start time is
    the build's start timestamp, else the pod's start time, else the current
    time, and it is written to the update when the build has none. Nothing
    orders the start time before the completion time. *)
Theorem setBuildCompletionData_completion (now : Time) (build : Build)
    (pod : option Pod) (update : buildUpdate) :
  minDuration <= Rfc3339Copy now - Rfc3339Copy (completionStart now build pod)
    <= maxDuration ->
  let update' := setBuildCompletionData now build pod update in
  match Status_CompletionTimestamp (Build_Status build) with
  | None =>
      completionTime update' = Some now /\
      duration update' =
        Some (Rfc3339Copy now - Rfc3339Copy (completionStart now build pod))
  | Some _ =>
      completionTime update' = completionTime update /\
      duration update' = duration update
  end /\
  startTime update' =
    match Status_StartTimestamp (Build_Status build) with
    | None => Some (completionStart now build pod)
    | Some _ => startTime update
    end.
Proof.
  intros Hrange. apply Time_Sub_exact in Hrange. revert Hrange.
  unfold setBuildCompletionData, completionStart.
  destruct (Status_StartTimestamp (Build_Status build)) as [st|];
    destruct (Status_CompletionTimestamp (Build_Status build)) as [ct|];
    destruct pod as [pod|]; simpl; intros Hrange;
    repeat case_match; simplify_eq; simpl; rewrite ?Hrange; auto.
Qed.

Lemma setBuildCompletionData_completion_witness :
  completionTime (setBuildCompletionData (50 * Second + 7)
                    (Scenario.build BuildPhaseRunning) (Some Scenario.deletedPod) emptyUpdate)
  = Some (50 * Second + 7) /\
  duration (setBuildCompletionData (50 * Second + 7)
              (Scenario.build BuildPhaseRunning) (Some Scenario.deletedPod) emptyUpdate)
  = Some (40 * Second).
Proof.
  assert (Hrange : minDuration <=
            Rfc3339Copy (50 * Second + 7) -
            Rfc3339Copy (completionStart (50 * Second + 7)
                           (Scenario.build BuildPhaseRunning) (Some Scenario.deletedPod))
            <= maxDuration) by (vm_compute; split; discriminate).
  pose proof (setBuildCompletionData_completion (50 * Second + 7)
                (Scenario.build BuildPhaseRunning) (Some Scenario.deletedPod) emptyUpdate
                Hrange) as [[Hc Hd] _].
  split; [exact Hc | exact Hd].
Defined.

(** C5 as stated fails: the build started, by its own timestamp, 100 s after
    the epoch, the controller's clock reads 50 s; the completion time set is
    earlier than the start time and the duration is negative. *)
Lemma setBuildCompletionData_completion_counterexample :
  Status_StartTimestamp (Build_Status Scenario.lateBuild) = Some (100 * Second) /\
  startTime (setBuildCompletionData (50 * Second) Scenario.lateBuild None emptyUpdate)
  = None /\
  completionTime (setBuildCompletionData (50 * Second) Scenario.lateBuild None emptyUpdate)
  = Some (50 * Second) /\
  duration (setBuildCompletionData (50 * Second) Scenario.lateBuild None emptyUpdate)
  = Some (- (50 * Second)) /\
  ~ (100 * Second <= 50 * Second).
Proof.
  repeat split; try reflexivity. vm_compute. intros H. apply H. reflexivity.
Qed.

(** *** Log snippet *)

Lemma lastN_drop {A : Type} (n : nat) (l : list A) :
  lastN n l = drop (length l - n) l.
Proof. unfold lastN. rewrite take_reverse, reverse_involutive. reflexivity. Qed.

Lemma length_lastN {A : Type} (n : nat) (l : list A) :
  length (lastN n l) = (n `min` length l)%nat.
Proof. rewrite lastN_drop, length_drop. lia. Qed.

Lemma specElide_long (line : list ascii) :
  (120 < length line)%nat ->
  specElide line = take 58 line ++ list_ascii_of_string "..." ++ lastN 59 line /\
  length (specElide line) = 120%nat.
Proof.
  intros Hlong. unfold specElide.
  destruct (Nat.ltb_spec 120 (length line)); [|lia].
  split; [reflexivity|].
  rewrite !length_app, length_take, length_lastN.
  change (length (list_ascii_of_string "...")) with 3%nat. lia.
Qed.

Lemma specElide_length (line : list ascii) : (length (specElide line) <= 120)%nat.
Proof.
  unfold specElide. destruct (Nat.ltb_spec 120 (length line)) as [Hlong | Hshort].
  - rewrite !length_app, length_take, length_lastN.
    change (length (list_ascii_of_string "...")) with 3%nat. lia.
  - exact Hshort.
Qed.

Lemma specElide_unfold (line : list ascii) :
  specElide line =
  if (120 <? length line)%nat
  then take 58 line ++ list_ascii_of_string "..." ++ drop (length line - 59) line
  else line.
Proof. unfold specElide. rewrite lastN_drop. reflexivity. Qed.

(** The loop elides, in place, every line it has not visited yet. *)
Lemma elideLongLines_app (done todo : list (list ascii)) :
  elideLongLines (length todo) (length done) (done ++ todo)
  = done ++ (specElide <$> todo).
Proof.
  revert done. induction todo as [|line todo IH]; intros done; simpl.
  - reflexivity.
  - rewrite list_lookup_middle by reflexivity.
    assert (Hnext : forall line', elideLongLines (length todo) (S (length done))
                                    (done ++ line' :: todo)
                                  = done ++ line' :: (specElide <$> todo)).
    { intros line'. specialize (IH (done ++ [line'])).
      rewrite length_app, <- !(assoc_L (++)) in IH. simpl in IH.
      replace (length done + 1)%nat with (S (length done)) in IH by lia.
      exact IH. }
    rewrite (specElide_unfold line). destruct (120 <? length line)%nat.
    + rewrite insert_app_r_alt by lia. rewrite Nat.sub_diag.
      exact (Hnext (take 58 line ++ list_ascii_of_string "..." ++
                    drop (length line - 59) line)).
    + apply Hnext.
Qed.

Lemma elideLongLines_all (excerpt : list (list ascii)) :
  elideLongLines (length excerpt) 0 excerpt = specElide <$> excerpt.
Proof. exact (elideLongLines_app [] excerpt). Qed.

Lemma excerpt_lastN {A : Type} (parts : list A) :
  drop (length parts -
        (if (length parts <? maxExcerptLength)%nat then length parts else maxExcerptLength))
       parts
  = lastN 5 parts.
Proof.
  rewrite lastN_drop. unfold maxExcerptLength.
  destruct (Nat.ltb_spec (length parts) 5); f_equal; lia.
Qed.

Lemma Split_nonempty (s : list ascii) (sep : ascii) : Split s sep <> [].
Proof.
  induction s as [|c s IH]; simpl; [discriminate|].
  destruct (decide (c = sep)); [discriminate|].
  destruct (Split s sep); discriminate.
Qed.

Lemma Split_no_sep (s : list ascii) (sep : ascii) :
  sep ∉ s -> Split s sep = [s].
Proof.
  induction s as [|c s IH]; intros Hnot; simpl; [reflexivity|].
  apply not_elem_of_cons in Hnot as [Hne Hnot].
  destruct (decide (c = sep)); [congruence|].
  rewrite IH by exact Hnot. reflexivity.
Qed.

Lemma Split_app_sep (s rest : list ascii) (sep : ascii) :
  sep ∉ s -> Split (s ++ sep :: rest) sep = s :: Split rest sep.
Proof.
  induction s as [|c s IH]; intros Hnot; simpl.
  - destruct (decide (sep = sep)); [reflexivity | congruence].
  - apply not_elem_of_cons in Hnot as [Hne Hnot].
    destruct (decide (c = sep)); [congruence|].
    rewrite IH by exact Hnot. reflexivity.
Qed.

Lemma Split_parts_no_sep (s : list ascii) (sep : ascii) :
  Forall (fun part => sep ∉ part) (Split s sep).
Proof.
  induction s as [|c s IH]; simpl.
  - constructor; [apply not_elem_of_nil | constructor].
  - destruct (decide (c = sep)) as [-> | Hne].
    + constructor; [apply not_elem_of_nil | exact IH].
    + destruct (Split s sep) as [|part parts]; simpl.
      * constructor; [|constructor].
        rewrite not_elem_of_cons. split; [congruence | apply not_elem_of_nil].
      * inversion IH as [|? ? Hpart Hparts]; subst. constructor; [|exact Hparts].
        rewrite not_elem_of_cons. split; [congruence | exact Hpart].
Qed.

Lemma Split_Join (lines : list (list ascii)) (sep : ascii) :
  lines <> [] -> Forall (fun line => sep ∉ line) lines ->
  Split (Join lines sep) sep = lines.
Proof.
  induction lines as [|line lines IH]; intros Hne Hall; [congruence|].
  inversion Hall as [|? ? Hline Hlines]; subst.
  destruct lines as [|line' lines].
  - simpl. apply Split_no_sep, Hline.
  - change (Join (line :: line' :: lines) sep)
      with (line ++ sep :: Join (line' :: lines) sep).
    rewrite Split_app_sep by exact Hline.
    rewrite IH by (congruence || exact Hlines). reflexivity.
Qed.

Lemma specElide_no_newline (line : list ascii) :
  newline ∉ line -> newline ∉ specElide line.
Proof.
  intros Hnot. unfold specElide. destruct (120 <? length line)%nat; [|exact Hnot].
  rewrite lastN_drop, !not_elem_of_app. repeat split.
  - intros Hin. apply Hnot. exact (subseteq_take _ _ _ Hin).
  - vm_compute. intros Hin.
    repeat (apply elem_of_cons in Hin as [Hin | Hin]; [discriminate Hin|]).
    apply elem_of_nil in Hin. exact Hin.
  - intros Hin. apply Hnot. exact (subseteq_drop _ _ _ Hin).
Qed.

(** The lines of the snippet are the elided last five lines of the trimmed
    message: at most five, of at most 120 characters each. *)
Lemma specLogSnippet_lines (msg : string) :
  let lines := Split (TrimRight (list_ascii_of_string msg) newline) newline in
  let snippet := Split (list_ascii_of_string (specLogSnippet msg)) newline in
  snippet = specElide <$> lastN 5 lines /\
  length snippet = (5 `min` length lines)%nat /\
  Forall (fun line => (length line <= 120)%nat) snippet.
Proof.
  intros lines snippet.
  assert (Hsnippet : snippet = specElide <$> lastN 5 lines).
  { subst snippet. unfold specLogSnippet. fold lines.
    rewrite list_ascii_of_string_of_list_ascii. apply Split_Join.
    - intros Hnil. apply (f_equal length) in Hnil.
      rewrite length_fmap, length_lastN in Hnil. simpl in Hnil.
      pose proof (Split_nonempty (TrimRight (list_ascii_of_string msg) newline) newline) as Hne.
      fold lines in Hne. destruct lines; [congruence | simpl in Hnil; lia].
    - apply Forall_fmap. rewrite lastN_drop. apply Forall_drop.
      eapply Forall_impl; [apply Split_parts_no_sep|].
      intros line Hline. apply specElide_no_newline, Hline. }
  rewrite Hsnippet. split; [reflexivity|]. split.
  - rewrite length_fmap, length_lastN. reflexivity.
  - apply Forall_fmap, Forall_forall. intros line _. apply specElide_length.
Qed.

(** C6: for a Failed build with an empty log snippet whose pod's first
    container has a non-empty termination message, the log snippet set is
    the message with its trailing newlines trimmed, cut down to its last five
    lines (fewer if it has fewer), each line longer than 120 characters
    replaced by its first 58 characters, "..." and its last 59 characters. The
    snippet of a message of six lines has five lines, and every line of a
    snippet has at most 120 characters, a line of 200 exactly 120. *)
Theorem setBuildCompletionData_logSnippet (now : Time) (build : Build) (pod : Pod)
    (first : ContainerStatus) (rest : list ContainerStatus)
    (terminated : ContainerStateTerminated) (update : buildUpdate) :
  Status_Phase (Build_Status build) = BuildPhaseFailed ->
  Status_LogSnippet (Build_Status build) = "" ->
  PodStatus_ContainerStatuses (Pod_Status pod) = first :: rest ->
  State_Terminated (ContainerStatus_State first) = Some terminated ->
  Terminated_Message terminated <> "" ->
  let msg := Terminated_Message terminated in
  let lines := Split (TrimRight (list_ascii_of_string msg) newline) newline in
  let snippet := Split (list_ascii_of_string (specLogSnippet msg)) newline in
  logSnippet (setBuildCompletionData now build (Some pod) update)
  = Some (specLogSnippet msg) /\
  snippet = specElide <$> lastN 5 lines /\
  length snippet = (5 `min` length lines)%nat /\
  Forall (fun line => (length line <= 120)%nat) snippet.
Proof.
  intros Hphase Hsnip Hcs Hterm Hmsg msg lines snippet.
  split; [|apply specLogSnippet_lines].
  unfold setBuildCompletionData. rewrite Hphase, Hsnip, Hcs, Hterm.
  assert (Hlen : (length (list_ascii_of_string msg) =? 0)%nat = false).
  { apply Nat.eqb_neq. subst msg.
    destruct (Terminated_Message terminated); [congruence | simpl; lia]. }
  destruct (Status_StartTimestamp (Build_Status build));
    destruct (isNil (Status_CompletionTimestamp (Build_Status build)));
    simpl; fold msg; rewrite Hlen; simpl;
    rewrite excerpt_lastN, elideLongLines_all; reflexivity.
Qed.

Lemma setBuildCompletionData_logSnippet_witness :
  logSnippet (setBuildCompletionData (50 * Second) (Scenario.build BuildPhaseFailed)
                (Some Scenario.failedPod) emptyUpdate)
  = Some (string_of_list_ascii
            (Join [list_ascii_of_string "two";
                   replicate 58 "x"%char ++ list_ascii_of_string "..." ++
                   replicate 59 "x"%char;
                   list_ascii_of_string "four"; list_ascii_of_string "five";
                   list_ascii_of_string "six"] newline)).
Proof.
  destruct (setBuildCompletionData_logSnippet (50 * Second)
              (Scenario.build BuildPhaseFailed) Scenario.failedPod
              (Scenario.terminated "Error" Scenario.sixLines) []
              {| Terminated_ExitCode := 137; Terminated_Reason := "Error";
                 Terminated_Message := Scenario.sixLines |} emptyUpdate)
    as [Hsnippet _].
  - reflexivity.
  - reflexivity.
  - reflexivity.
  - reflexivity.
  - vm_compute. discriminate.
  - rewrite Hsnippet. vm_compute. reflexivity.
Defined.

(** *** Trigger queue and build queue *)

Lemma workqueue_Add_elem_of (key x : string) (q : list string) :
  x ∈ workqueue.Add key q <-> x = key \/ x ∈ q.
Proof.
  unfold workqueue.Add. destruct (decide (key ∈ q)) as [Hin | Hnot].
  - split; [auto | intros [-> | H]; assumption].
  - rewrite elem_of_app, list_elem_of_singleton. tauto.
Qed.

Lemma workqueue_Add_NoDup (key : string) (q : list string) :
  NoDup q -> NoDup (workqueue.Add key q).
Proof.
  intros Hq. unfold workqueue.Add. destruct (decide (key ∈ q)) as [Hin | Hnot].
  - exact Hq.
  - apply NoDup_app. repeat split.
    + exact Hq.
    + intros x Hx Hx'. apply list_elem_of_singleton in Hx'. subst. contradiction.
    + apply NoDup_singleton.
Qed.

Lemma foldl_Add_elem_of (keys : list string) (q : list string) (x : string) :
  x ∈ foldl (fun queue buildKey => workqueue.Add buildKey queue) q keys
  <-> x ∈ q \/ x ∈ keys.
Proof.
  revert q. induction keys as [|key keys IH]; intros q; simpl.
  - rewrite elem_of_nil. tauto.
  - rewrite IH, workqueue_Add_elem_of, elem_of_cons. tauto.
Qed.

Lemma foldl_Add_NoDup (keys : list string) (q : list string) :
  NoDup q -> NoDup (foldl (fun queue buildKey => workqueue.Add buildKey queue) q keys).
Proof.
  revert q. induction keys as [|key keys IH]; intros q Hq; simpl.
  - exact Hq.
  - apply IH, workqueue_Add_NoDup, Hq.
Qed.




(** *** The update path *)


Section UpdateBuild.

Context (E : Env).



End UpdateBuild.

(** *** Reconciling a build *)

Section HandleBuild.

Context (E : Env).

Lemma shouldIgnore_pipeline (build : Build) :
  shouldIgnore build = false ->
  isNil (Strategy_JenkinsPipelineStrategy (Spec_Strategy (Build_Spec build))) = true.
Proof.
  unfold shouldIgnore.
  destruct (isNil (Strategy_JenkinsPipelineStrategy (Spec_Strategy (Build_Spec build))));
    [reflexivity | discriminate].
Qed.


(** The two ways [handleBuild] returns before any handler runs: an ignored
    build, for which at most pruning is asked, and a pod lookup that fails
    with something else than NotFound. Neither sends a patch. *)
Lemma handleBuild_ignored (build : Build) (w : world) :
  shouldIgnore build = true ->
  fst (handleBuild E build w) = None /\
  buildPatcher (snd (handleBuild E build w)) = buildPatcher w.
Proof.
  intros Hignore. unfold handleBuild, HandleBuildPruning. rewrite Hignore. run_M.
  destruct (negb _ && _); split; reflexivity.
Qed.

Lemma handleBuild_lookup_error (build : Build) (w : world) (err : error) :
  shouldIgnore build = false ->
  podStore E (Build_Namespace build) (GetBuildPodName E build) = Err err ->
  IsNotFound err = false ->
  handleBuild E build w = (Some err, w).
Proof.
  intros Hignore Hget Hnot. unfold handleBuild.
  rewrite Hignore, (shouldIgnore_pipeline build Hignore), Hget, Hnot.
  reflexivity.
Qed.

End HandleBuild.


(** *** Creating the build pod *)

Section CreateBuildPod.

Context (E : Env).

Lemma resolveOutputDockerImageReference_noRegistry (build : Build)
    (ref : ObjectReference) (name : string) (stream : ImageStream) :
  Output_To (Spec_Output (Build_Spec build)) = Some ref ->
  ObjectReference_Name ref <> "" ->
  (ObjectReference_Kind ref = "ImageStream" /\ name = ObjectReference_Name ref) \/
  (ObjectReference_Kind ref = "ImageStreamTag" /\
   exists tag, SplitImageStreamTag E (ObjectReference_Name ref) = (name, tag, true)) ->
  imageStreamStore E (namespaceOr ref (Build_Namespace build)) name = Ok stream ->
  ImageStream_DockerImageRepository stream = "" ->
  resolveOutputDockerImageReference E build = (build, Some errNoIntegratedRegistry).
Proof.
  intros Hto Hname Hkind Hstream Hrepo.
  unfold resolveOutputDockerImageReference. rewrite Hto.
  rewrite bool_decide_eq_false_2 by exact Hname.
  unfold resolveImageStreamLocation.
  destruct Hkind as [[Hkind ->] | [Hkind [tag Hsplit]]]; rewrite Hkind; simpl.
  - rewrite Hstream, Hrepo. reflexivity.
  - rewrite Hsplit. simpl. rewrite Hstream, Hrepo. reflexivity.
Qed.

(** C2 (amended): for a build with well-formed image stream references, at
    least one of them to wait on, whose output image stream exists but has
    an empty [dockerImageRepository], [createBuildPod] registers the build in
    the trigger queue, sets reason InvalidOutputReference on the update,
    records the warning event InvalidOutput, and returns the update together
    with the error [errNoIntegratedRegistry]: only NotFound errors are turned
    into a nil error. No pod is created and the update sets no phase. *)
Theorem createBuildPod_noIntegratedRegistry (build : Build) (ref : ObjectReference)
    (name : string) (stream : ImageStream) (streams : list string) (w : world) :
  unresolvedImageStreamReferences E build (Build_Namespace build) = Ok streams ->
  streams <> [] ->
  Output_To (Spec_Output (Build_Spec build)) = Some ref ->
  ObjectReference_Name ref <> "" ->
  (ObjectReference_Kind ref = "ImageStream" /\ name = ObjectReference_Name ref) \/
  (ObjectReference_Kind ref = "ImageStreamTag" /\
   exists tag, SplitImageStreamTag E (ObjectReference_Name ref) = (name, tag, true)) ->
  imageStreamStore E (namespaceOr ref (Build_Namespace build)) name = Ok stream ->
  ImageStream_DockerImageRepository stream = "" ->
  let buildKey := resourceName (Build_Namespace build) (Build_Name build) in
  let update := setMessage (StatusMessageInvalidOutputRef E)
                  (setReason StatusReasonInvalidOutputReference emptyUpdate) in
  let r := createBuildPod E build w in
  fst r = (Some update, Some errNoIntegratedRegistry) /\
  reason update = Some StatusReasonInvalidOutputReference /\
  phase update = None /\
  recorder (snd r) = recorder w ++ [{| Event_Object := buildKey;
                                       Event_Type := EventTypeWarning;
                                       Event_Reason := "InvalidOutput" |}] /\
  imageStreamQueue (snd r) = resourceTriggerQueue.Add buildKey streams (imageStreamQueue w) /\
  podClient (snd r) = podClient w /\
  buildPatcher (snd r) = buildPatcher w.
Proof.
  intros Hstreams Hne Hto Hname Hkind Hstream Hrepo buildKey update r.
  assert (Hr : r = ((Some update, Some errNoIntegratedRegistry),
                    with_recorder
                      (recorder w ++ [{| Event_Object := buildKey;
                                         Event_Type := EventTypeWarning;
                                         Event_Reason := "InvalidOutput" |}])
                      (with_imageStreamQueue
                         (resourceTriggerQueue.Add buildKey streams (imageStreamQueue w)) w))).
  { subst r. unfold createBuildPod, resolveImageReferences. rewrite Hstreams.
    destruct streams as [|s streams]; [congruence|].
    cbn [length Nat.eqb].
    rewrite (resolveOutputDockerImageReference_noRegistry build ref name stream
               Hto Hname Hkind Hstream Hrepo).
    reflexivity. }
  rewrite Hr. repeat split; reflexivity.
Qed.

End CreateBuildPod.

Lemma createBuildPod_noIntegratedRegistry_witness :
  imageStreamStore Scenario.env "ns1" "is"
  = Ok {| ImageStream_Namespace := "ns1"; ImageStream_Name := "is";
          ImageStream_DockerImageRepository := "" |} /\
  fst (createBuildPod Scenario.env (Scenario.build BuildPhaseNew) Scenario.start)
  = (Some (setMessage "invalid output"
             (setReason StatusReasonInvalidOutputReference emptyUpdate)),
     Some errNoIntegratedRegistry) /\
  podClient (snd (createBuildPod Scenario.env (Scenario.build BuildPhaseNew) Scenario.start))
  = ∅.
Proof.
  split; [reflexivity|].
  destruct (createBuildPod_noIntegratedRegistry Scenario.env (Scenario.build BuildPhaseNew)
              {| ObjectReference_Kind := "ImageStreamTag"; ObjectReference_Namespace := "";
                 ObjectReference_Name := "is:latest" |}
              "is"
              {| ImageStream_Namespace := "ns1"; ImageStream_Name := "is";
                 ImageStream_DockerImageRepository := "" |}
              ["ns1/is"] Scenario.start)
    as (Hr & _ & _ & _ & _ & Hpods & _).
  - reflexivity.
  - discriminate.
  - reflexivity.
  - discriminate.
  - right. split; [reflexivity|]. exists "latest". reflexivity.
  - reflexivity.
  - reflexivity.
  - split; [exact Hr | exact Hpods].
Defined.

(** C2 as stated fails: build [ns1/b1] is New, its output image stream
    [ns1/is] exists and has an empty [dockerImageRepository], and
    [createBuildPod] returns the update with a non-nil error. *)
Lemma createBuildPod_noIntegratedRegistry_counterexample :
  Status_Phase (Build_Status (Scenario.build BuildPhaseNew)) = BuildPhaseNew /\
  imageStreamStore Scenario.env "ns1" "is"
  = Ok {| ImageStream_Namespace := "ns1"; ImageStream_Name := "is";
          ImageStream_DockerImageRepository := "" |} /\
  fst (createBuildPod Scenario.env (Scenario.build BuildPhaseNew) Scenario.start)
  = (Some (setMessage "invalid output"
             (setReason StatusReasonInvalidOutputReference emptyUpdate)),
     Some errNoIntegratedRegistry) /\
  snd (fst (createBuildPod Scenario.env (Scenario.build BuildPhaseNew) Scenario.start))
  <> None.
Proof.
  repeat split; try reflexivity. discriminate.
Qed.

(** ** Further properties *)

(** *** The trigger queue *)

Lemma get_insert (q : resourceTriggerQueue.t) (k key : string) (l : list string) :
  resourceTriggerQueue.get (<[k := l]> q) key
  = if decide (k = key) then l else resourceTriggerQueue.get q key.
Proof.
  unfold resourceTriggerQueue.get. rewrite lookup_insert.
  destruct (decide (k = key)); reflexivity.
Qed.

Lemma Add_get (resource : string) (on : list string) (q : resourceTriggerQueue.t)
    (key : string) :
  resourceTriggerQueue.get (resourceTriggerQueue.Add resource on q) key
  = resourceTriggerQueue.get q key ++
    replicate (length (filter (fun k => k = key) on)) resource.
Proof.
  unfold resourceTriggerQueue.Add. revert q.
  induction on as [|k on IH]; intros q; simpl.
  - rewrite app_nil_r. reflexivity.
  - rewrite IH, get_insert, filter_cons.
    destruct (decide (k = key)) as [-> | Hne]; simpl.
    + rewrite <- (assoc_L (++)). reflexivity.
    + reflexivity.
Qed.

Lemma Add_lookup_other (resource : string) (on : list string)
    (q : resourceTriggerQueue.t) (key : string) :
  key ∉ on -> resourceTriggerQueue.Add resource on q !! key = q !! key.
Proof.
  unfold resourceTriggerQueue.Add. revert q.
  induction on as [|k on IH]; intros q Hnot; simpl; [reflexivity|].
  apply not_elem_of_cons in Hnot as [Hne Hnot].
  rewrite IH by exact Hnot. apply lookup_insert_ne. congruence.
Qed.

Lemma Remove_lookup (resource : string) (on : list string)
    (q : resourceTriggerQueue.t) (key : string) :
  resourceTriggerQueue.Remove resource on q !! key
  = if decide (key ∈ on)
    then Some (filter (fun existing => existing ≠ resource) (resourceTriggerQueue.get q key))
    else q !! key.
Proof.
  unfold resourceTriggerQueue.Remove. revert q.
  induction on as [|k on IH]; intros q; simpl.
  - destruct (decide (key ∈ [])) as [Hin | _]; [|reflexivity].
    apply elem_of_nil in Hin. contradiction.
  - rewrite IH, get_insert.
    destruct (decide (k = key)) as [-> | Hne].
    + rewrite (decide_True (P := key ∈ key :: on)) by apply list_elem_of_here.
      destruct (decide (key ∈ on)).
      * f_equal. apply list_filter_filter_l. tauto.
      * apply lookup_insert_eq.
    + rewrite lookup_insert_ne by exact Hne.
      destruct (decide (key ∈ on)) as [Hin | Hnot].
      * rewrite decide_True by (apply list_elem_of_further, Hin). reflexivity.
      * rewrite decide_False; [reflexivity|].
        rewrite elem_of_cons. intros [-> | Hin]; contradiction.
Qed.

Lemma filter_replicate_ne (n : nat) (resource : string) :
  filter (fun existing => existing ≠ resource) (replicate n resource) = [].
Proof.
  induction n as [|n IH]; simpl; [reflexivity|].
  rewrite filter_cons, decide_False by (intros Hne; apply Hne; reflexivity). exact IH.
Qed.

(** X1: after [Add], popping a key returns what its bucket held before
    followed by the resource, once for each time the key is listed in [on];
    the bucket of a key that is not listed is returned as it was. *)
Theorem Pop_Add (resource : string) (on : list string) (q : resourceTriggerQueue.t)
    (key : string) :
  fst (resourceTriggerQueue.Pop key (resourceTriggerQueue.Add resource on q))
  = resourceTriggerQueue.get q key ++
    replicate (length (filter (fun k => k = key) on)) resource.
Proof. apply Add_get. Qed.

(** X2: [Remove] takes every occurrence of the resource out of the buckets of
    the keys it is given, keeps the other resources of these buckets in
    order, and leaves the buckets of all other keys alone. *)
Theorem Remove_get (resource : string) (on : list string) (q : resourceTriggerQueue.t)
    (key : string) :
  resourceTriggerQueue.get (resourceTriggerQueue.Remove resource on q) key
  = if decide (key ∈ on)
    then filter (fun existing => existing ≠ resource) (resourceTriggerQueue.get q key)
    else resourceTriggerQueue.get q key.
Proof.
  unfold resourceTriggerQueue.get at 1. rewrite Remove_lookup.
  destruct (decide (key ∈ on)); reflexivity.
Qed.

(** [Remove] undoes [Add], bucket by bucket. *)
Lemma Remove_undoes_Add (resource : string) (on : list string)
    (q : resourceTriggerQueue.t) :
  resourceTriggerQueue.Remove resource on (resourceTriggerQueue.Add resource on q)
  = resourceTriggerQueue.Remove resource on q.
Proof.
  apply map_eq. intros key. rewrite !Remove_lookup.
  destruct (decide (key ∈ on)) as [Hin | Hnot].
  - f_equal. rewrite Add_get, filter_app, filter_replicate_ne. apply app_nil_r.
  - apply Add_lookup_other, Hnot.
Qed.

(** X3: registering a resource under some keys and then removing it from the
    same keys leaves the queue as removing alone does: the registration
    leaves no trace, and earlier registrations of the resource under these
    keys are gone too. *)
Theorem Remove_Add (resource : string) (on : list string) (q : resourceTriggerQueue.t) :
  resourceTriggerQueue.Remove resource on (resourceTriggerQueue.Add resource on q)
  = resourceTriggerQueue.Remove resource on q.
Proof. apply Remove_undoes_Add. Qed.

(** *** The order of the phases *)

(** X4: a valid transition between two different phases moves the build
    forward in the order New, Pending, Running, terminal: no sequence of valid
    transitions ever comes back to a phase it has left. *)
Theorem isValidTransition_forward (from to : BuildPhase) :
  isValidTransition from to = true -> from <> to ->
  (phaseRank from < phaseRank to)%nat.
Proof.
  destruct from, to; simpl; intros Hvalid Hne;
    try discriminate Hvalid; try congruence; lia.
Qed.

Lemma isValidTransition_forward_witness :
  isValidTransition BuildPhasePending BuildPhaseFailed = true /\
  (phaseRank BuildPhasePending < phaseRank BuildPhaseFailed)%nat.
Proof.
  split; [reflexivity|].
  apply isValidTransition_forward; [reflexivity | discriminate].
Defined.

(** X5: valid transitions compose: if a build may go from one phase to a
    second and from the second to a third, it may go from the first to the
    third directly. *)
Theorem isValidTransition_trans (a b c : BuildPhase) :
  isValidTransition a b = true -> isValidTransition b c = true ->
  isValidTransition a c = true.
Proof.
  destruct a, b, c; simpl; intros Hab Hbc;
    try reflexivity; try discriminate Hab; discriminate Hbc.
Qed.

Lemma isValidTransition_trans_witness :
  isValidTransition BuildPhaseNew BuildPhaseComplete = true.
Proof.
  apply (isValidTransition_trans BuildPhaseNew BuildPhaseRunning BuildPhaseComplete);
    reflexivity.
Defined.

(** *** Build config keys *)

Lemma list_ascii_of_string_app (s1 s2 : string) :
  list_ascii_of_string (s1 +:+ s2) = list_ascii_of_string s1 ++ list_ascii_of_string s2.
Proof. induction s1 as [|c s1 IH]; simpl; [reflexivity | rewrite IH; reflexivity]. Qed.

Lemma string_of_list_ascii_app (l1 l2 : list ascii) :
  string_of_list_ascii (l1 ++ l2) = string_of_list_ascii l1 +:+ string_of_list_ascii l2.
Proof. induction l1 as [|c l1 IH]; simpl; [reflexivity | rewrite IH; reflexivity]. Qed.

Lemma cutAt_app (before after : list ascii) (sep : ascii) :
  sep ∉ before -> cutAt (before ++ sep :: after) sep = Some (before, after).
Proof.
  induction before as [|c before IH]; intros Hnot; simpl.
  - rewrite decide_True by reflexivity. reflexivity.
  - apply not_elem_of_cons in Hnot as [Hne Hnot].
    rewrite decide_False by congruence. rewrite IH by exact Hnot. reflexivity.
Qed.

Lemma cutAt_Some (s before after : list ascii) (sep : ascii) :
  cutAt s sep = Some (before, after) -> s = before ++ sep :: after /\ sep ∉ before.
Proof.
  revert before. induction s as [|c s IH]; intros before; simpl; [discriminate|].
  destruct (decide (c = sep)) as [-> | Hne].
  - intros [= <- <-]. split; [reflexivity | apply not_elem_of_nil].
  - destruct (cutAt s sep) as [[before' after']|]; [|discriminate].
    intros [= <- <-]. destruct (IH before' eq_refl) as [-> Hnot].
    split; [reflexivity|]. rewrite not_elem_of_cons. split; [congruence | exact Hnot].
Qed.

Lemma cutAt_None (s : list ascii) (sep : ascii) : cutAt s sep = None -> sep ∉ s.
Proof.
  induction s as [|c s IH]; simpl; intros Hcut; [apply not_elem_of_nil|].
  destruct (decide (c = sep)); [discriminate|].
  destruct (cutAt s sep) as [[? ?]|]; [discriminate|].
  rewrite not_elem_of_cons. split; [congruence | apply IH; reflexivity].
Qed.

(** X6: a key made by [resourceName] from a namespace without a slash parses
    back into that namespace and name, whatever the name holds. *)
Theorem parseBuildConfigKey_resourceName (namespace name : string) :
  slash ∉ list_ascii_of_string namespace ->
  parseBuildConfigKey (resourceName namespace name) = Ok (namespace, name).
Proof.
  intros Hnot. unfold parseBuildConfigKey, resourceName.
  rewrite !list_ascii_of_string_app. simpl.
  rewrite (cutAt_app _ _ slash Hnot).
  rewrite !string_of_list_ascii_of_string. reflexivity.
Qed.

Lemma parseBuildConfigKey_resourceName_witness :
  parseBuildConfigKey (resourceName "ns1" "team/bc") = Ok ("ns1", "team/bc").
Proof.
  apply parseBuildConfigKey_resourceName. vm_compute.
  intros Hin. repeat (apply elem_of_cons in Hin as [Hin | Hin]; [discriminate Hin|]).
  apply elem_of_nil in Hin. exact Hin.
Defined.

(** X7: [parseBuildConfigKey] fails exactly on the keys without a slash; a
    key it accepts is split at its first slash, so that [resourceName] of the
    two parts is the key again. *)
Theorem parseBuildConfigKey_inverse (key : string) :
  match parseBuildConfigKey key with
  | Ok (namespace, name) =>
      key = resourceName namespace name /\ slash ∉ list_ascii_of_string namespace
  | Err _ => slash ∉ list_ascii_of_string key
  end.
Proof.
  unfold parseBuildConfigKey. simpl.
  destruct (cutAt (list_ascii_of_string key) slash) as [[before after]|] eqn:Hcut.
  - apply cutAt_Some in Hcut as [Hkey Hnot].
    rewrite list_ascii_of_string_of_list_ascii. split; [|exact Hnot].
    unfold resourceName.
    rewrite <- (string_of_list_ascii_of_string key), Hkey, string_of_list_ascii_app.
    reflexivity.
  - apply cutAt_None, Hcut.
Qed.

(** *** Matching errors *)

Lemma hasError__leaves (fns : list (error -> bool)) :
  forall err, hasError_ fns err
              = existsb (fun leaf => existsb (fun fn => fn leaf) fns) (errorLeaves err).
Proof.
  fix IH 1. intros [| |r|t cause|r|f|errs];
    try (simpl; rewrite orb_false_r; reflexivity).
  simpl. induction errs as [|err errs IHerrs]; simpl; [reflexivity|].
  rewrite existsb_app, <- (IH err), IHerrs. reflexivity.
Qed.

(** X8: [hasError] holds exactly when one of the errors the given error
    stands for (itself, or the members of an aggregate, nested aggregates
    included) is matched by one of the functions; nil, an empty aggregate and
    an empty list of functions never match. *)
Theorem hasError_leaves (err : option error) (fns : list (error -> bool)) :
  hasError err fns
  = match err with
    | None => false
    | Some err => existsb (fun leaf => existsb (fun fn => fn leaf) fns) (errorLeaves err)
    end.
Proof. destruct err as [err|]; [apply hasError__leaves | reflexivity]. Qed.

(** *** Active builds, further *)

Lemma isValidTransition_refl (p : BuildPhase) : isValidTransition p p = true.
Proof. unfold isValidTransition. rewrite bool_decide_eq_true_2; reflexivity. Qed.

Lemma isValidTransition_to_terminal (from to : BuildPhase) :
  IsTerminalPhase from = false -> IsTerminalPhase to = true ->
  isValidTransition from to = true.
Proof. destruct from, to; simpl; intros Hfrom Hto; congruence || reflexivity. Qed.

Section ActiveBuildFurther.

Context (E : Env).

Lemma handleActiveBuild_reads (build : Build) (pod : option Pod) (w : world) :
  snd (handleActiveBuild E build pod w) = w.
Proof.
  unfold handleActiveBuild, findMissingPod, Pods_Get. run_M.
  destruct pod as [pod|]; [reflexivity|].
  destruct (podClient w !! _); reflexivity.
Qed.

(** X9: [handleActiveBuild] only reads: it never returns an error and leaves
    the controller's state, the pods on the API server included, as it
    was. *)
Theorem handleActiveBuild_pure (build : Build) (pod : option Pod) (w : world) :
  snd (fst (handleActiveBuild E build pod w)) = None /\
  snd (handleActiveBuild E build pod w) = w.
Proof.
  split; [|apply handleActiveBuild_reads].
  unfold handleActiveBuild, findMissingPod, Pods_Get. run_M.
  destruct pod as [pod|]; [reflexivity|].
  destruct (podClient w !! _); reflexivity.
Qed.


(** The phase an update of [handleActiveBuild] asks for. *)
Lemma handleActiveBuild_phase (build : Build) (pod : Pod) (w : world)
    (update : buildUpdate) :
  IsTerminalPhase (Status_Phase (Build_Status build)) = false ->
  fst (fst (handleActiveBuild E build (Some pod) w)) = Some update ->
  exists to, phase update = Some to /\
    (isValidTransition (Status_Phase (Build_Status build)) to = true \/
     (Status_Phase (Build_Status build) = BuildPhaseRunning /\
      PodStatus_Phase (Pod_Status pod) = PodPending /\ to = BuildPhasePending)).
Proof.
  intros Hactive. unfold handleActiveBuild. run_M. rewrite gitClone_override.
  destruct (Status_Phase (Build_Status build)) eqn:Hphase; try discriminate Hactive;
    simpl;
    destruct (existsb gitCloneRunning (PodStatus_InitContainerStatuses (Pod_Status pod)));
    destruct (PodStatus_Phase (Pod_Status pod)) eqn:Hpod; simpl;
    repeat case_match; intros Hupdate; simplify_eq; simpl;
    eexists; (split; [reflexivity|]); auto.
Qed.

(** X11: whatever the pod, what [handleActiveBuild] proposes for a build in
    phase New, Pending or Running is a transition to a named phase that
    [isValidTransition] accepts, with one exception: for a Running build
    whose pod reports Pending it proposes Pending. *)
Theorem handleActiveBuild_proposes_valid (build : Build) (pod : option Pod) (w : world)
    (update : buildUpdate) :
  IsTerminalPhase (Status_Phase (Build_Status build)) = false ->
  fst (fst (handleActiveBuild E build pod w)) = Some update ->
  exists to, phase update = Some to /\
    (isValidTransition (Status_Phase (Build_Status build)) to = true \/
     (Status_Phase (Build_Status build) = BuildPhaseRunning /\ to = BuildPhasePending)).
Proof.
  intros Hactive Hupdate.
  assert (Hsome : forall p, fst (fst (handleActiveBuild E build (Some p) w)) = Some update ->
            exists to, phase update = Some to /\
              (isValidTransition (Status_Phase (Build_Status build)) to = true \/
               (Status_Phase (Build_Status build) = BuildPhaseRunning /\
                to = BuildPhasePending))).
  { intros p Hp.
    destruct (handleActiveBuild_phase build p w update Hactive Hp) as (to & Hto & Hcases).
    exists to. split; [exact Hto|]. destruct Hcases as [Hv | (Hr & _ & Hp')]; auto. }
  destruct pod as [p|]; [apply (Hsome p), Hupdate|].
  revert Hupdate. unfold handleActiveBuild at 1, findMissingPod, Pods_Get. run_M.
  destruct (podClient w !! _) as [p|] eqn:Hlookup.
  - intros Hupdate. apply (Hsome p). unfold handleActiveBuild. run_M. exact Hupdate.
  - simpl. intros [= <-]. exists BuildPhaseError. split; [reflexivity|]. left.
    apply isValidTransition_to_terminal; [exact Hactive | reflexivity].
Qed.

(** X12: for a Running build whose pod reports phase Pending (as it does
    while its init containers run), [handleActiveBuild] proposes the phase
    Pending, and [updateBuild] rejects the proposal as an invalid transition:
    it returns the error and sends no patch, records no event and touches no
    queue. *)
Theorem handleActiveBuild_running_build_pending_pod (build : Build) (pod : Pod)
    (w : world) :
  Status_Phase (Build_Status build) = BuildPhaseRunning ->
  PodStatus_Phase (Pod_Status pod) = PodPending ->
  exists update,
    handleActiveBuild E build (Some pod) w = ((Some update, None), w) /\
    phase update = Some BuildPhasePending /\
    updateBuild E build update (Some pod) w
    = (Some (Errorf "invalid phase transition %s -> %s"), w).
Proof.
  intros Hphase Hpod.
  assert (Hreject : forall update, phase update = Some BuildPhasePending ->
            updateBuild E build update (Some pod) w
            = (Some (Errorf "invalid phase transition %s -> %s"), w)).
  { intros update Hupdate. unfold updateBuild. rewrite Hupdate, Hphase.
    change (bool_decide (BuildPhasePending = BuildPhaseRunning)) with false.
    cbn [negb]. cbv beta iota. rewrite Hupdate. reflexivity. }
  unfold handleActiveBuild. run_M. rewrite Hphase, Hpod. simpl.
  repeat case_match; eexists; (split; [reflexivity|]);
    (split; [reflexivity | apply Hreject; reflexivity]).
Qed.

End ActiveBuildFurther.

Lemma handleActiveBuild_proposes_valid_witness :
  fst (fst (handleActiveBuild Scenario.env (Scenario.build BuildPhasePending)
              (Some Scenario.failedPod) Scenario.start))
  = Some (transitionToPhase BuildPhaseFailed StatusReasonGenericBuildFailed "failed") /\
  exists to,
    phase (transitionToPhase BuildPhaseFailed StatusReasonGenericBuildFailed "failed")
    = Some to /\
    (isValidTransition BuildPhasePending to = true \/
     (BuildPhasePending = BuildPhaseRunning /\ to = BuildPhasePending)).
Proof.
  split; [reflexivity|].
  apply (handleActiveBuild_proposes_valid Scenario.env (Scenario.build BuildPhasePending)
           (Some Scenario.failedPod) Scenario.start); reflexivity.
Defined.

Lemma handleActiveBuild_running_build_pending_pod_witness :
  PodStatus_Phase (Pod_Status Scenario.cloningPod) = PodPending /\
  exists update,
    handleActiveBuild Scenario.env (Scenario.build BuildPhaseRunning)
      (Some Scenario.cloningPod) Scenario.start = ((Some update, None), Scenario.start) /\
    phase update = Some BuildPhasePending /\
    updateBuild Scenario.env (Scenario.build BuildPhaseRunning) update
      (Some Scenario.cloningPod) Scenario.start
    = (Some (Errorf "invalid phase transition %s -> %s"), Scenario.start).
Proof.
  split; [reflexivity|].
  apply (handleActiveBuild_running_build_pending_pod Scenario.env
           (Scenario.build BuildPhaseRunning) Scenario.cloningPod Scenario.start);
    reflexivity.
Defined.

(** *** The update path, further *)

Lemma apply_phase (update : buildUpdate) (build : Build) :
  Status_Phase (Build_Status (apply update build))
  = default (Status_Phase (Build_Status build)) (phase update).
Proof.
  unfold apply. destruct (pushSecret update), (podNameAnnotation update); reflexivity.
Qed.

(** The update [updateBuild] ends up applying: whether the update counts as
    a state transition, and the update with the phase, the completion data
    and the pod name annotation filled in. *)
Lemma updateBuild_cases (E : Env) (build : Build) (update : buildUpdate)
    (pod : option Pod) (w : world) :
  let phase0 := Status_Phase (Build_Status build) in
  let r := updateBuild E build update pod w in
  r = (Some (Errorf "invalid phase transition %s -> %s"), w) \/
  exists (stateTransition : bool) (update' : buildUpdate),
    let patch := createBuildPatch build (apply update' build) in
    let w1 := with_buildPatcher (buildPatcher w ++ [patch]) w in
    isValidTransition phase0 (default phase0 (phase update')) = true /\
    (stateTransition = false -> update' =
       match pod with
       | Some pod =>
           if isNil (podNameAnnotation update) && negb (HasBuildPodNameAnnotation build)
           then setPodNameAnnotation (Pod_Name pod) update
           else update
       | None => update
       end) /\
    match Patch E (Build_Namespace build) (Build_Name build) patch with
    | Err err => r = (Some err, w1)
    | Ok patchedBuild =>
        fst r = None /\
        buildPatcher (snd r) = buildPatcher w1 /\
        podClient (snd r) = podClient w /\
        imageStreamQueue (snd r) = imageStreamQueue w /\
        buildQueue (snd r) = buildQueue w /\
        (stateTransition = false -> snd r = w1)
    end.
Proof.
  intros phase0 r. subst r.
  unfold updateBuild, patchBuild, Eventf, handleBuildCompletion, enqueueBuildConfig,
    HandleBuildPruning, Now.
  run_M. fold phase0.
  set (transition := if match phase update with
                        | Some p => negb (bool_decide (p = phase0))
                        | None => false
                        end
                     then (true, update)
                     else if bool_decide (phase0 = BuildPhaseFailed) &&
                             negb (isNil (completionTime update))
                     then (true, setPhase BuildPhaseFailed update)
                     else (false, update)).
  assert (Hquiet : fst transition = false ->
            snd transition = update /\
            isValidTransition phase0 (default phase0 (phase update)) = true).
  { subst transition. destruct (phase update) as [p|]; simpl.
    - destruct (bool_decide (p = phase0)) eqn:Hp; simpl; [|discriminate].
      apply bool_decide_eq_true_1 in Hp. subst p.
      case_match; simpl; [discriminate|].
      intros _. split; [reflexivity | apply isValidTransition_refl].
    - case_match; simpl; [discriminate|].
      intros _. split; [reflexivity | apply isValidTransition_refl]. }
  destruct transition as [stateTransition update1]. simpl in Hquiet.
  destruct (stateTransition &&
            negb (isValidTransition phase0 (default phase0 (phase update1)))) eqn:Hcheck;
    [left; reflexivity | right].
  assert (Hvalid : isValidTransition phase0 (default phase0 (phase update1)) = true).
  { destruct stateTransition.
    - simpl in Hcheck. apply negb_false_iff in Hcheck. exact Hcheck.
    - destruct (Hquiet eq_refl) as [-> Hv]. exact Hv. }
  set (update2 := if stateTransition && IsTerminalPhase (default phase0 (phase update1))
                  then setBuildCompletionData (clock w) build pod update1
                  else update1).
  assert (Hphase2 : phase update2 = phase update1).
  { subst update2. case_match; [|reflexivity].
    destruct (setBuildCompletionData_frame (clock w) build pod update1) as (-> & _).
    reflexivity. }
  exists stateTransition.
  exists (match pod with
          | Some pod =>
              if isNil (podNameAnnotation update2) && negb (HasBuildPodNameAnnotation build)
              then setPodNameAnnotation (Pod_Name pod) update2
              else update2
          | None => update2
          end).
  cbv zeta. split; [|split].
  - replace (phase match pod with
                   | Some pod0 =>
                       if isNil (podNameAnnotation update2) &&
                          negb (HasBuildPodNameAnnotation build)
                       then setPodNameAnnotation (Pod_Name pod0) update2
                       else update2
                   | None => update2
                   end) with (phase update1); [exact Hvalid|].
    rewrite <- Hphase2. destruct pod; [case_match|]; reflexivity.
  - intros ->. destruct (Hquiet eq_refl) as [-> _]. reflexivity.
  - subst update2.
    destruct (stateTransition && IsTerminalPhase (default phase0 (phase update1)));
      destruct (Patch E _ _ _); try reflexivity;
      destruct stateTransition; simpl; try (repeat split; reflexivity || discriminate);
      destruct (default phase0 (phase update1));
      simpl; repeat split; reflexivity || discriminate.
Qed.

Lemma setBuildCompletionData_times (now : Time) (build : Build) (pod : option Pod)
    (update : buildUpdate) :
  let update' := setBuildCompletionData now build pod update in
  completionTime update' =
    match Status_CompletionTimestamp (Build_Status build) with
    | None => Some now
    | Some _ => completionTime update
    end /\
  startTime update' =
    match Status_StartTimestamp (Build_Status build) with
    | None => Some (completionStart now build pod)
    | Some _ => startTime update
    end.
Proof.
  unfold setBuildCompletionData, completionStart.
  destruct (Status_StartTimestamp (Build_Status build)) as [st|];
    destruct (Status_CompletionTimestamp (Build_Status build)) as [ct|];
    destruct pod as [pod|]; simpl;
    repeat case_match; simplify_eq; simpl; auto.
Qed.

Lemma apply_status (update : buildUpdate) (build : Build) :
  let status := Build_Status (apply update build) in
  Status_CompletionTimestamp status
  = from_option Some (Status_CompletionTimestamp (Build_Status build)) (completionTime update) /\
  Status_StartTimestamp status
  = from_option Some (Status_StartTimestamp (Build_Status build)) (startTime update) /\
  Status_Reason status = default (Status_Reason (Build_Status build)) (reason update) /\
  Status_LogSnippet status
  = default (Status_LogSnippet (Build_Status build)) (logSnippet update).
Proof.
  unfold apply. destruct (pushSecret update), (podNameAnnotation update);
    repeat split; reflexivity.
Qed.

Lemma apply_identity (update : buildUpdate) (build : Build) :
  Build_Namespace (apply update build) = Build_Namespace build /\
  Build_Name (apply update build) = Build_Name build /\
  Spec_Strategy (Build_Spec (apply update build)) = Spec_Strategy (Build_Spec build).
Proof.
  unfold apply. destruct (pushSecret update), (podNameAnnotation update);
    repeat split; reflexivity.
Qed.

(** The update with the pod name annotation that [updateBuild] ensures. *)
Lemma annotated_fields (build : Build) (pod : option Pod) (update : buildUpdate) :
  let update' := match pod with
                 | Some pod =>
                     if isNil (podNameAnnotation update) &&
                        negb (HasBuildPodNameAnnotation build)
                     then setPodNameAnnotation (Pod_Name pod) update
                     else update
                 | None => update
                 end in
  phase update' = phase update /\ completionTime update' = completionTime update /\
  startTime update' = startTime update /\ reason update' = reason update.
Proof. destruct pod; [simpl; case_match|]; repeat split; reflexivity. Qed.

Section UpdateBuildFurther.

Context (E : Env).

(** The patches [updateBuild] sends. *)
Lemma updateBuild_sent (build : Build) (update : buildUpdate)
    (pod : option Pod) (w : world) :
  let r := updateBuild E build update pod w in
  exists sent,
    buildPatcher (snd r) = buildPatcher w ++ sent /\ (length sent <= 1)%nat /\
    Forall (fun patch =>
              Patch_Older patch = build /\
              isValidTransition (Status_Phase (Build_Status build))
                (Status_Phase (Build_Status (Patch_Newer patch))) = true) sent.
Proof.
  intros r. destruct (updateBuild_cases E build update pod w)
    as [Herr | (st & update' & Hvalid & _ & Hrun)]; fold r in Herr || fold r in Hrun.
  - exists []. rewrite Herr, app_nil_r. simpl. repeat split; [lia | constructor].
  - exists [createBuildPatch build (apply update' build)].
    split; [|split; [simpl; lia|]].
    + cbv zeta in Hrun. destruct (Patch E _ _ _).
      * destruct Hrun as (_ & -> & _). reflexivity.
      * rewrite Hrun. reflexivity.
    + constructor; [|constructor]. split; [reflexivity|].
      simpl. rewrite apply_phase. exact Hvalid.
Qed.

(** X13: [updateBuild] sends at most one patch, always computed from the
    build it was given, and the phase the patch asks for is a valid
    transition from the build's phase: no patch ever moves a build out of a
    terminal phase or back to an earlier one. *)
Theorem updateBuild_valid_patches (build : Build) (update : buildUpdate)
    (pod : option Pod) (w : world) :
  let r := updateBuild E build update pod w in
  exists sent,
    buildPatcher (snd r) = buildPatcher w ++ sent /\ (length sent <= 1)%nat /\
    Forall (fun patch =>
              Patch_Older patch = build /\
              isValidTransition (Status_Phase (Build_Status build))
                (Status_Phase (Build_Status (Patch_Newer patch))) = true) sent.
Proof. apply updateBuild_sent. Qed.

(** X14: when the build patcher refuses the patch, [updateBuild] returns the
    patcher's error and nothing follows the attempt: no event is recorded, no
    build config is queued, no pruning is asked for. *)
Theorem updateBuild_patch_refused (build : Build) (update : buildUpdate)
    (pod : option Pod) (w : world) (err : error) :
  (forall patch, Patch E (Build_Namespace build) (Build_Name build) patch = Err err) ->
  let r := updateBuild E build update pod w in
  r = (Some (Errorf "invalid phase transition %s -> %s"), w) \/
  exists patch,
    r = (Some err, with_buildPatcher (buildPatcher w ++ [patch]) w).
Proof.
  intros Hpatch r. destruct (updateBuild_cases E build update pod w)
    as [Herr | (st & update' & _ & _ & Hrun)]; [left; exact Herr | right].
  cbv zeta in Hrun. rewrite Hpatch in Hrun. eexists. exact Hrun.
Qed.

(** What a transition into a terminal phase leaves behind. *)
Lemma updateBuild_terminal_run (build : Build) (update : buildUpdate)
    (pod : option Pod) (w : world) (to : BuildPhase) :
  phase update = Some to ->
  IsTerminalPhase (Status_Phase (Build_Status build)) = false ->
  IsTerminalPhase to = true ->
  (forall patch, Patch E (Build_Namespace build) (Build_Name build) patch
                 = Ok (Patch_Newer patch)) ->
  let r := updateBuild E build update pod w in
  exists newer,
    let key := resourceName (Build_Namespace build) (ConfigNameForBuild E newer) in
    fst r = None /\
    buildPatcher (snd r) = buildPatcher w ++ [createBuildPatch build newer] /\
    Status_Phase (Build_Status newer) = to /\
    Status_CompletionTimestamp (Build_Status newer)
    = Some match Status_CompletionTimestamp (Build_Status build) with
           | None => clock w
           | Some t => default t (completionTime update)
           end /\
    is_Some (Status_StartTimestamp (Build_Status newer)) /\
    Status_Reason (Build_Status newer)
    = default (Status_Reason (Build_Status build)) (reason update) /\
    recorder (snd r)
    = recorder w ++
      [{| Event_Object := resourceName (Build_Namespace build) (Build_Name build);
          Event_Type := EventTypeNormal;
          Event_Reason := match to with
                          | BuildPhaseCancelled => "BuildCancelled"
                          | BuildPhaseComplete => "BuildCompleted"
                          | _ => "BuildFailed"
                          end |}] /\
    buildConfigQueue (snd r) = workqueue.Add key (buildConfigQueue w) /\
    pruning (snd r) = pruning w ++ [key].
Proof.
  intros Hto Hfrom Hterm Hpatch r. subst r.
  pose proof (isValidTransition_to_terminal _ _ Hfrom Hterm) as Hvalid.
  assert (Hne : bool_decide (to = Status_Phase (Build_Status build)) = false).
  { apply bool_decide_eq_false_2. intros Heq. subst to. congruence. }
  unfold updateBuild, patchBuild, Eventf, handleBuildCompletion, enqueueBuildConfig,
    HandleBuildPruning, Now.
  run_M. rewrite Hto, Hne. cbn [negb]. cbv beta iota.
  rewrite !Hto. cbn [from_option id]. rewrite Hvalid, Hterm. cbn [negb andb].
  set (update2 := setBuildCompletionData (clock w) build pod update).
  set (update3 := match pod with
                  | Some pod0 =>
                      if isNil (podNameAnnotation update2) &&
                         negb (HasBuildPodNameAnnotation build)
                      then setPodNameAnnotation (Pod_Name pod0) update2
                      else update2
                  | None => update2
                  end).
  rewrite Hpatch. cbn [Patch_Newer createBuildPatch].
  destruct (annotated_fields build pod update2) as (Hp3 & Hc3 & Hs3 & Hr3).
  fold update3 in Hp3, Hc3, Hs3, Hr3.
  destruct (setBuildCompletionData_frame (clock w) build pod update) as (Hp2 & Hr2 & _).
  destruct (setBuildCompletionData_times (clock w) build pod update) as (Hc2 & Hs2).
  fold update2 in Hp2, Hr2, Hc2, Hs2.
  destruct (apply_status update3 build) as (Hcompletion & Hstart & Hreason & _).
  destruct (apply_identity update3 build) as (Hns & Hname & _).
  exists (apply update3 build). cbv zeta.
  assert (Hnewer : Status_Phase (Build_Status (apply update3 build)) = to).
  { rewrite apply_phase, Hp3, Hp2, Hto. reflexivity. }
  assert (Hdone : Status_CompletionTimestamp (Build_Status (apply update3 build))
                  = Some match Status_CompletionTimestamp (Build_Status build) with
                         | None => clock w
                         | Some t => default t (completionTime update)
                         end).
  { rewrite Hcompletion, Hc3, Hc2.
    destruct (Status_CompletionTimestamp (Build_Status build)); [|reflexivity].
    destruct (completionTime update); reflexivity. }
  assert (Hstarted : is_Some (Status_StartTimestamp (Build_Status (apply update3 build)))).
  { rewrite Hstart, Hs3, Hs2.
    destruct (Status_StartTimestamp (Build_Status build)); [|eauto].
    destruct (startTime update); simpl; eauto. }
  assert (Hwhy : Status_Reason (Build_Status (apply update3 build))
                 = default (Status_Reason (Build_Status build)) (reason update)).
  { rewrite Hreason, Hr3, Hr2. reflexivity. }
  destruct to; try discriminate Hterm; simpl; rewrite ?Hns, ?Hname;
    repeat split; assumption || reflexivity.
Qed.

(** X15: a transition from a non-terminal phase into a terminal one, once
    patched, leaves nothing undone: the patch carries the new phase, the
    update's reason, a completion time (the current time when the build had
    none) and a start time, the matching event is recorded, and the build's
    config is queued and handed to pruning. *)
Theorem updateBuild_terminal_transition (build : Build) (update : buildUpdate)
    (pod : option Pod) (w : world) (to : BuildPhase) :
  phase update = Some to ->
  IsTerminalPhase (Status_Phase (Build_Status build)) = false ->
  IsTerminalPhase to = true ->
  (forall patch, Patch E (Build_Namespace build) (Build_Name build) patch
                 = Ok (Patch_Newer patch)) ->
  let r := updateBuild E build update pod w in
  exists newer,
    let key := resourceName (Build_Namespace build) (ConfigNameForBuild E newer) in
    fst r = None /\
    buildPatcher (snd r) = buildPatcher w ++ [createBuildPatch build newer] /\
    Status_Phase (Build_Status newer) = to /\
    Status_CompletionTimestamp (Build_Status newer)
    = Some match Status_CompletionTimestamp (Build_Status build) with
           | None => clock w
           | Some t => default t (completionTime update)
           end /\
    is_Some (Status_StartTimestamp (Build_Status newer)) /\
    Status_Reason (Build_Status newer)
    = default (Status_Reason (Build_Status build)) (reason update) /\
    recorder (snd r)
    = recorder w ++
      [{| Event_Object := resourceName (Build_Namespace build) (Build_Name build);
          Event_Type := EventTypeNormal;
          Event_Reason := match to with
                          | BuildPhaseCancelled => "BuildCancelled"
                          | BuildPhaseComplete => "BuildCompleted"
                          | _ => "BuildFailed"
                          end |}] /\
    buildConfigQueue (snd r) = workqueue.Add key (buildConfigQueue w) /\
    pruning (snd r) = pruning w ++ [key].
Proof. apply updateBuild_terminal_run. Qed.

(** X16: an update that only adds the completion time to a build that is
    already Failed is treated as the transition to Failed: the failure event
    is recorded and the build's config is queued, which has not happened yet
    when the pod itself set the phase. *)
Theorem updateBuild_failed_completion (build : Build) (update : buildUpdate)
    (pod : option Pod) (w : world) (completion : Time) :
  Status_Phase (Build_Status build) = BuildPhaseFailed ->
  phase update = None ->
  completionTime update = Some completion ->
  (forall patch, Patch E (Build_Namespace build) (Build_Name build) patch
                 = Ok (Patch_Newer patch)) ->
  let r := updateBuild E build update pod w in
  exists newer,
    let key := resourceName (Build_Namespace build) (ConfigNameForBuild E newer) in
    fst r = None /\
    buildPatcher (snd r) = buildPatcher w ++ [createBuildPatch build newer] /\
    Status_Phase (Build_Status newer) = BuildPhaseFailed /\
    recorder (snd r)
    = recorder w ++
      [{| Event_Object := resourceName (Build_Namespace build) (Build_Name build);
          Event_Type := EventTypeNormal;
          Event_Reason := "BuildFailed" |}] /\
    buildConfigQueue (snd r) = workqueue.Add key (buildConfigQueue w).
Proof.
  intros Hfailed Hphase Hcompletion Hpatch r. subst r.
  unfold updateBuild, patchBuild, Eventf, handleBuildCompletion, enqueueBuildConfig,
    HandleBuildPruning, Now.
  run_M. rewrite Hphase, Hfailed, Hcompletion.
  cbn [bool_decide decide_rel BuildPhase_eq_dec isNil negb andb]. simpl.
  set (update2 := setBuildCompletionData (clock w) build pod
                    (setPhase BuildPhaseFailed update)).
  set (update3 := match pod with
                  | Some pod0 =>
                      if isNil (podNameAnnotation update2) &&
                         negb (HasBuildPodNameAnnotation build)
                      then setPodNameAnnotation (Pod_Name pod0) update2
                      else update2
                  | None => update2
                  end).
  rewrite Hpatch. cbn [Patch_Newer createBuildPatch].
  destruct (annotated_fields build pod update2) as (Hp3 & _).
  fold update3 in Hp3.
  destruct (setBuildCompletionData_frame (clock w) build pod
              (setPhase BuildPhaseFailed update)) as (Hp2 & _).
  fold update2 in Hp2.
  destruct (apply_identity update3 build) as (Hns & Hname & _).
  exists (apply update3 build). cbv zeta. simpl. rewrite Hns, Hname.
  repeat split; try reflexivity.
  rewrite apply_phase, Hp3, Hp2. reflexivity.
Qed.

(** X17: an update that changes no phase (it names none, or the build's own)
    and does not complete a Failed build is patched quietly: one patch, the
    patcher's verdict as the result, no event, no queue touched. *)
Theorem updateBuild_quiet (build : Build) (update : buildUpdate)
    (pod : option Pod) (w : world) :
  phase update = None \/ phase update = Some (Status_Phase (Build_Status build)) ->
  Status_Phase (Build_Status build) <> BuildPhaseFailed \/ completionTime update = None ->
  let update' := match pod with
                 | Some pod =>
                     if isNil (podNameAnnotation update) &&
                        negb (HasBuildPodNameAnnotation build)
                     then setPodNameAnnotation (Pod_Name pod) update
                     else update
                 | None => update
                 end in
  let patch := createBuildPatch build (apply update' build) in
  updateBuild E build update pod w
  = (match Patch E (Build_Namespace build) (Build_Name build) patch with
     | Err err => Some err
     | Ok _ => None
     end, with_buildPatcher (buildPatcher w ++ [patch]) w).
Proof.
  intros Hphase Hfailed update' patch. subst update' patch.
  unfold updateBuild, patchBuild. run_M.
  assert (Hquiet : (if match phase update with
                       | Some p => negb (bool_decide (p = Status_Phase (Build_Status build)))
                       | None => false
                       end
                    then (true, update)
                    else if bool_decide (Status_Phase (Build_Status build) = BuildPhaseFailed)
                            && negb (isNil (completionTime update))
                    then (true, setPhase BuildPhaseFailed update)
                    else (false, update)) = (false, update)).
  { assert (Hsecond : bool_decide (Status_Phase (Build_Status build) = BuildPhaseFailed)
                      && negb (isNil (completionTime update)) = false).
    { destruct Hfailed as [Hne | ->].
      - rewrite bool_decide_eq_false_2 by exact Hne. reflexivity.
      - apply andb_false_r. }
    destruct Hphase as [-> | ->].
    - rewrite Hsecond. reflexivity.
    - rewrite bool_decide_eq_true_2 by reflexivity. simpl. rewrite Hsecond. reflexivity. }
  rewrite Hquiet. simpl.
  destruct (Patch E _ _ _); reflexivity.
Qed.

End UpdateBuildFurther.

Lemma updateBuild_patch_refused_witness :
  updateBuild (withFailingPatcher (StatusError APIReasonOther) Scenario.env)
    (Scenario.build BuildPhasePending)
    (transitionToPhase BuildPhaseError StatusReasonBuildPodDeleted "pod deleted")
    None Scenario.start
  = (Some (Errorf "invalid phase transition %s -> %s"), Scenario.start) \/
  exists patch,
    updateBuild (withFailingPatcher (StatusError APIReasonOther) Scenario.env)
      (Scenario.build BuildPhasePending)
      (transitionToPhase BuildPhaseError StatusReasonBuildPodDeleted "pod deleted")
      None Scenario.start
    = (Some (StatusError APIReasonOther),
       with_buildPatcher (buildPatcher Scenario.start ++ [patch]) Scenario.start).
Proof.
  apply (updateBuild_patch_refused
           (withFailingPatcher (StatusError APIReasonOther) Scenario.env)).
  intros patch. reflexivity.
Defined.

Lemma updateBuild_terminal_transition_witness :
  exists newer,
    fst (updateBuild Scenario.env (Scenario.build BuildPhaseRunning)
           (transitionToPhase BuildPhaseComplete "" "") (Some Scenario.deletedPod)
           Scenario.start) = None /\
    Status_Phase (Build_Status newer) = BuildPhaseComplete /\
    Status_CompletionTimestamp (Build_Status newer) = Some (50 * Second) /\
    buildConfigQueue
      (snd (updateBuild Scenario.env (Scenario.build BuildPhaseRunning)
              (transitionToPhase BuildPhaseComplete "" "") (Some Scenario.deletedPod)
              Scenario.start)) = ["ns1/bc"].
Proof.
  destruct (updateBuild_terminal_transition Scenario.env (Scenario.build BuildPhaseRunning)
              (transitionToPhase BuildPhaseComplete "" "") (Some Scenario.deletedPod)
              Scenario.start BuildPhaseComplete)
    as (newer & Hres & _ & Hphase & Hdone & _ & _ & _ & Hqueue & _).
  - reflexivity.
  - reflexivity.
  - reflexivity.
  - intros patch. reflexivity.
  - exists newer. split; [exact Hres|]. split; [exact Hphase|].
    split; [exact Hdone | exact Hqueue].
Defined.

Lemma updateBuild_failed_completion_witness :
  exists newer,
    recorder (snd (updateBuild Scenario.env (Scenario.build BuildPhaseFailed)
                     (setCompletionTime (50 * Second) emptyUpdate) None Scenario.start))
    = [{| Event_Object := "ns1/b1"; Event_Type := EventTypeNormal;
          Event_Reason := "BuildFailed" |}] /\
    Status_Phase (Build_Status newer) = BuildPhaseFailed.
Proof.
  destruct (updateBuild_failed_completion Scenario.env (Scenario.build BuildPhaseFailed)
              (setCompletionTime (50 * Second) emptyUpdate) None Scenario.start
              (50 * Second))
    as (newer & _ & _ & Hphase & Hevent & _).
  - reflexivity.
  - reflexivity.
  - reflexivity.
  - intros patch. reflexivity.
  - exists newer. split; [exact Hevent | exact Hphase].
Defined.

Lemma updateBuild_quiet_witness :
  recorder (snd (updateBuild Scenario.env (Scenario.build BuildPhaseNew)
                   (setReason StatusReasonInvalidOutputReference emptyUpdate) None
                   Scenario.start)) = [] /\
  length (buildPatcher
            (snd (updateBuild Scenario.env (Scenario.build BuildPhaseNew)
                    (setReason StatusReasonInvalidOutputReference emptyUpdate) None
                    Scenario.start))) = 1%nat.
Proof.
  rewrite (updateBuild_quiet Scenario.env (Scenario.build BuildPhaseNew)
             (setReason StatusReasonInvalidOutputReference emptyUpdate) None Scenario.start).
  - split; reflexivity.
  - left. reflexivity.
  - left. discriminate.
Defined.

(** *** Reconciling a build, further *)

Section HandleBuildFurther.

Context (E : Env).

(** [handleBuild], step by step. *)
Lemma handleBuild_run (build : Build) (w : world) :
  let pipeline :=
    negb (isNil (Strategy_JenkinsPipelineStrategy (Spec_Strategy (Build_Spec build)))) in
  let w0 := if pipeline && IsBuildComplete build
            then with_pruning
                   (pruning w ++ [resourceName (Build_Namespace build)
                                    (ConfigNameForBuild E build)]) w
            else w in
  handleBuild E build w =
  if shouldIgnore build then (None, w0)
  else
    match podStore E (Build_Namespace build) (GetBuildPodName E build) with
    | Ok pod =>
        let handled := handleBuild_switch E build (Some pod) w0 in
        match fst (fst handled) with
        | Some update =>
            if isEmpty update then (snd (fst handled), snd handled)
            else
              let updated := updateBuild E build update (Some pod) (snd handled) in
              (match snd (fst handled) with
               | Some err => Some err
               | None => fst updated
               end, snd updated)
        | None => (snd (fst handled), snd handled)
        end
    | Err err =>
        if IsNotFound err then
          let handled := handleBuild_switch E build None w0 in
          match fst (fst handled) with
          | Some update =>
              if isEmpty update then (snd (fst handled), snd handled)
              else
                let updated := updateBuild E build update None (snd handled) in
                (match snd (fst handled) with
                 | Some err => Some err
                 | None => fst updated
                 end, snd updated)
          | None => (snd (fst handled), snd handled)
          end
        else (Some err, w0)
    end.
Proof.
  intros pipeline w0. unfold handleBuild, HandleBuildPruning. run_M. fold pipeline.
  subst w0.
  destruct (pipeline && IsBuildComplete build); cbv beta iota;
    (destruct (shouldIgnore build); [reflexivity|]);
    (destruct (podStore E (Build_Namespace build) (GetBuildPodName E build)) as [p|e];
     [|destruct (IsNotFound e); [|reflexivity]]); cbn [negb]; cbv zeta;
    match goal with
    | |- context [handleBuild_switch E build ?pod ?w0] =>
        destruct (handleBuild_switch E build pod w0) as [[[u|] e'] w1]
    end; cbn [fst snd];
    try (destruct e'; reflexivity);
    destruct (isEmpty u); cbn [negb];
    try (destruct e'; reflexivity);
    match goal with
    | |- context [updateBuild E build ?update ?pod ?w'] =>
        destruct (updateBuild E build update pod w') as [[ue|] w2]
    end; destruct e'; reflexivity.
Qed.

(** X18: a build the controller ignores (a pipeline build, or a terminal
    build whose completion data is in place) is left alone: [handleBuild]
    returns no error and changes nothing, except that a terminal pipeline
    build has its build config handed to pruning. *)
Theorem handleBuild_ignored_frame (build : Build) (w : world) :
  shouldIgnore build = true ->
  handleBuild E build w
  = (None,
     if negb (isNil (Strategy_JenkinsPipelineStrategy (Spec_Strategy (Build_Spec build))))
        && IsBuildComplete build
     then with_pruning
            (pruning w ++ [resourceName (Build_Namespace build)
                             (ConfigNameForBuild E build)]) w
     else w).
Proof. intros Hignore. rewrite handleBuild_run, Hignore. reflexivity. Qed.

(** The handlers of builds that are not New send no patch themselves. *)
Lemma handleBuild_switch_patches (build : Build) (pod : option Pod) (w : world) :
  Status_Phase (Build_Status build) <> BuildPhaseNew ->
  buildPatcher (snd (handleBuild_switch E build pod w)) = buildPatcher w.
Proof.
  intros Hnew. unfold handleBuild_switch.
  destruct (shouldCancel build).
  - unfold cancelBuild, Pods_Delete. run_M.
    destruct (podClient w !! _); reflexivity.
  - rewrite bool_decide_eq_false_2 by exact Hnew.
    destruct (_ || _).
    + rewrite handleActiveBuild_reads. reflexivity.
    + destruct (IsBuildComplete build); reflexivity.
Qed.

End HandleBuildFurther.

Lemma handleBuild_ignored_frame_witness :
  handleBuild Scenario.env
    (Examples.buildWith BuildPhaseComplete false (Some (45 * Second))) Scenario.start
  = (None, Scenario.start).
Proof.
  rewrite (handleBuild_ignored_frame Scenario.env
             (Examples.buildWith BuildPhaseComplete false (Some (45 * Second)))
             Scenario.start).
  - reflexivity.
  - reflexivity.
Defined.

Section Reconciliation.

Context (E : Env).

(** X19: whatever [handleBuild] does for a build that is not New, it sends at
    most one patch, and that patch asks for a valid transition from the
    build's phase: the controller never moves such a build backwards nor out
    of a terminal phase. *)
Theorem handleBuild_valid_patches (build : Build) (w : world) :
  Status_Phase (Build_Status build) <> BuildPhaseNew ->
  exists sent,
    buildPatcher (snd (handleBuild E build w)) = buildPatcher w ++ sent /\
    (length sent <= 1)%nat /\
    Forall (fun patch =>
              Patch_Older patch = build /\
              isValidTransition (Status_Phase (Build_Status build))
                (Status_Phase (Build_Status (Patch_Newer patch))) = true) sent.
Proof.
  intros Hnew. rewrite handleBuild_run. cbv zeta.
  set (w0 := if _ && _ then _ else w).
  assert (Hw0 : buildPatcher w0 = buildPatcher w).
  { subst w0. case_match; reflexivity. }
  assert (Hnone : exists sent : list BuildPatch,
            buildPatcher w = buildPatcher w ++ sent /\ (length sent <= 1)%nat /\
            Forall (fun patch =>
                      Patch_Older patch = build /\
                      isValidTransition (Status_Phase (Build_Status build))
                        (Status_Phase (Build_Status (Patch_Newer patch))) = true) sent).
  { exists []. rewrite app_nil_r. simpl. repeat split; [lia | constructor]. }
  assert (Hhandled : forall pod,
            exists sent,
              buildPatcher
                (snd match fst (fst (handleBuild_switch E build pod w0)) with
                     | Some update =>
                         if isEmpty update
                         then (snd (fst (handleBuild_switch E build pod w0)),
                               snd (handleBuild_switch E build pod w0))
                         else
                           (match snd (fst (handleBuild_switch E build pod w0)) with
                            | Some err => Some err
                            | None =>
                                fst (updateBuild E build update pod
                                       (snd (handleBuild_switch E build pod w0)))
                            end,
                            snd (updateBuild E build update pod
                                   (snd (handleBuild_switch E build pod w0))))
                     | None => (snd (fst (handleBuild_switch E build pod w0)),
                                snd (handleBuild_switch E build pod w0))
                     end) = buildPatcher w ++ sent /\
              (length sent <= 1)%nat /\
              Forall (fun patch =>
                        Patch_Older patch = build /\
                        isValidTransition (Status_Phase (Build_Status build))
                          (Status_Phase (Build_Status (Patch_Newer patch))) = true) sent).
  { intros pod.
    pose proof (handleBuild_switch_patches E build pod w0 Hnew) as Hswitch.
    rewrite Hw0 in Hswitch.
    destruct (handleBuild_switch E build pod w0) as [[[u|] e'] w1]; simpl in *.
    - destruct (isEmpty u); simpl.
      + rewrite Hswitch. exact Hnone.
      + rewrite <- Hswitch. apply updateBuild_sent.
    - rewrite Hswitch. exact Hnone. }
  destruct (shouldIgnore build); [simpl; rewrite Hw0; exact Hnone|].
  destruct (podStore E _ _) as [p|e]; [apply (Hhandled (Some p))|].
  destruct (IsNotFound e); [apply (Hhandled None)|].
  simpl. rewrite Hw0. exact Hnone.
Qed.


(** X21: repairing a Complete build settles it: unless its pod was
    OOM-killed, the build with the update of [handleCompletedBuild] applied is
    one the controller ignores from then on. *)
Theorem handleCompletedBuild_settles (build : Build) (pod : option Pod) (w : world) :
  Status_Phase (Build_Status build) = BuildPhaseComplete ->
  isOOMKilled pod = false ->
  exists update,
    handleCompletedBuild E build pod w = ((Some update, None), w) /\
    shouldIgnore (apply update build) = true.
Proof.
  intros Hphase Hoom. unfold handleCompletedBuild, Now. run_M. rewrite Hoom.
  eexists. split; [reflexivity|].
  set (update := setBuildCompletionData (clock w) build pod emptyUpdate).
  destruct (setBuildCompletionData_frame (clock w) build pod emptyUpdate) as (Hp & _).
  destruct (setBuildCompletionData_times (clock w) build pod emptyUpdate) as (Hc & _).
  fold update in Hp, Hc.
  destruct (apply_status update build) as (Hcompletion & _).
  destruct (apply_identity update build) as (_ & _ & Hstrategy).
  unfold shouldIgnore, IsBuildComplete.
  rewrite Hstrategy, apply_phase, Hp, Hphase, Hcompletion, Hc. simpl.
  destruct (isNil (Strategy_JenkinsPipelineStrategy _)); [|reflexivity]. simpl.
  destruct (Status_CompletionTimestamp (Build_Status build)); reflexivity.
Qed.

End Reconciliation.

Lemma handleBuild_valid_patches_witness :
  exists sent,
    buildPatcher (snd (handleBuild Scenario.env (Scenario.build BuildPhaseRunning)
                         Scenario.start)) = sent /\
    Forall (fun patch =>
              isValidTransition BuildPhaseRunning
                (Status_Phase (Build_Status (Patch_Newer patch))) = true) sent.
Proof.
  destruct (handleBuild_valid_patches Scenario.env (Scenario.build BuildPhaseRunning)
              Scenario.start) as (sent & Hsent & _ & Hvalid).
  - discriminate.
  - exists sent. split; [exact Hsent|].
    apply (Forall_impl _ _ _ Hvalid). intros patch [_ Hpatch]. exact Hpatch.
Defined.


Lemma handleCompletedBuild_settles_witness :
  exists update,
    handleCompletedBuild Scenario.env (Scenario.build BuildPhaseComplete) None
      Scenario.start = ((Some update, None), Scenario.start) /\
    shouldIgnore (apply update (Scenario.build BuildPhaseComplete)) = true.
Proof.
  apply (handleCompletedBuild_settles Scenario.env (Scenario.build BuildPhaseComplete)
           None Scenario.start).
  - reflexivity.
  - reflexivity.
Defined.

(** *** Image references, further *)

Section ImageReferencesFurther.

Context (E : Env).

(** X22: the output reference is resolved at most once: after a successful
    [resolveOutputDockerImageReference] a second call changes nothing more
    and cannot fail, and a call that fails leaves the build as it was. *)
Theorem resolveOutputDockerImageReference_idempotent (build : Build) :
  match snd (resolveOutputDockerImageReference E build) with
  | Some _ => fst (resolveOutputDockerImageReference E build) = build
  | None =>
      resolveOutputDockerImageReference E (fst (resolveOutputDockerImageReference E build))
      = (fst (resolveOutputDockerImageReference E build), None)
  end.
Proof.
  assert (Hcases :
            (exists err, resolveOutputDockerImageReference E build = (build, Some err)) \/
            resolveOutputDockerImageReference E build = (build, None) \/
            (exists newRef,
               resolveOutputDockerImageReference E build
               = (withOutput build
                    {| Output_To := Some (DockerImage newRef);
                       Output_PushSecret :=
                         Output_PushSecret (Spec_Output (Build_Spec build)) |}, None))).
  { unfold resolveOutputDockerImageReference.
    destruct (Output_To (Spec_Output (Build_Spec build))) as [ref|]; [|auto].
    destruct (bool_decide (ObjectReference_Name ref = "")); [auto|].
    destruct (_ || _); [|auto].
    destruct (resolveImageStreamLocation E ref (Build_Namespace build)); eauto. }
  destruct Hcases as [[err ->] | [Hsame | [newRef ->]]]; simpl.
  - reflexivity.
  - rewrite Hsame. simpl. exact Hsame.
  - unfold resolveOutputDockerImageReference. simpl.
    destruct (bool_decide (newRef = "")); reflexivity.
Qed.

(** X23: when [resolveImageReferences] succeeds, the build is registered
    under none of its image streams any more, however often it had been
    registered before; the buckets of other streams, the update and the
    events are untouched. *)
Theorem resolveImageReferences_resolved (build build' : Build)
    (update update' : buildUpdate) (streams : list string) (w w' : world) :
  unresolvedImageStreamReferences E build (Build_Namespace build) = Ok streams ->
  resolveImageReferences E build update w = ((build', update', None), w') ->
  update' = update /\ recorder w' = recorder w /\
  imageStreamQueue w'
  = resourceTriggerQueue.Remove (resourceName (Build_Namespace build) (Build_Name build))
      streams (imageStreamQueue w) /\
  Forall (fun stream =>
            resourceName (Build_Namespace build) (Build_Name build)
            ∉ resourceTriggerQueue.get (imageStreamQueue w') stream) streams.
Proof.
  intros Hstreams. unfold resolveImageReferences. rewrite Hstreams.
  assert (Hgone : forall q,
            Forall (fun stream =>
                      resourceName (Build_Namespace build) (Build_Name build)
                      ∉ resourceTriggerQueue.get
                          (resourceTriggerQueue.Remove
                             (resourceName (Build_Namespace build) (Build_Name build))
                             streams q) stream) streams).
  { intros q. apply Forall_forall. intros stream Hin.
    unfold resourceTriggerQueue.get. rewrite Remove_lookup, decide_True by exact Hin.
    simpl. rewrite list_elem_of_filter. intros [Hne _]. apply Hne. reflexivity. }
  destruct (length streams =? 0)%nat eqn:Hlen.
  - intros [= <- <- <-]. apply Nat.eqb_eq in Hlen.
    destruct streams; [|discriminate Hlen]. repeat split; constructor.
  - unfold Eventf. run_M.
    destruct (resolveOutputDockerImageReference E build) as [b1 [e|]].
    + destruct (isNoIntegratedRegistry e); intros [=].
    + destruct (Mutate _ b1 tt) as [[b2 errs] u].
      destruct (0 <? length errs)%nat; [intros [=]|].
      intros [= <- <- <-]. cbn [imageStreamQueue recorder with_imageStreamQueue].
      rewrite Remove_undoes_Add. repeat split. apply Hgone.
Qed.

Lemma resolveOutputDockerImageReference_notFound (build : Build)
    (ref : ObjectReference) (name : string) (err : error) :
  Output_To (Spec_Output (Build_Spec build)) = Some ref ->
  ObjectReference_Name ref <> "" ->
  (ObjectReference_Kind ref = "ImageStream" /\ name = ObjectReference_Name ref) \/
  (ObjectReference_Kind ref = "ImageStreamTag" /\
   exists tag, SplitImageStreamTag E (ObjectReference_Name ref) = (name, tag, true)) ->
  imageStreamStore E (namespaceOr ref (Build_Namespace build)) name = Err err ->
  IsNotFound err = true ->
  resolveOutputDockerImageReference E build = (build, Some err).
Proof.
  intros Hto Hname Hkind Hstream Hnot.
  unfold resolveOutputDockerImageReference. rewrite Hto.
  rewrite bool_decide_eq_false_2 by exact Hname.
  unfold resolveImageStreamLocation.
  destruct Hkind as [[Hkind ->] | [Hkind [tag Hsplit]]]; rewrite Hkind; simpl.
  - rewrite Hstream, Hnot. reflexivity.
  - rewrite Hsplit. simpl. rewrite Hstream, Hnot. reflexivity.
Qed.

(** X24: when the output image stream of a build does not exist (yet),
    [createBuildPod] parks the build: it registers the build under its image
    streams, returns an update with reason InvalidOutputReference and no
    phase, and returns no error, so that nothing is retried before the image
    stream's event; no event is recorded and no pod is created. *)
Theorem createBuildPod_output_not_found (build : Build) (ref : ObjectReference)
    (name : string) (err : error) (streams : list string) (w : world) :
  unresolvedImageStreamReferences E build (Build_Namespace build) = Ok streams ->
  streams <> [] ->
  Output_To (Spec_Output (Build_Spec build)) = Some ref ->
  ObjectReference_Name ref <> "" ->
  (ObjectReference_Kind ref = "ImageStream" /\ name = ObjectReference_Name ref) \/
  (ObjectReference_Kind ref = "ImageStreamTag" /\
   exists tag, SplitImageStreamTag E (ObjectReference_Name ref) = (name, tag, true)) ->
  imageStreamStore E (namespaceOr ref (Build_Namespace build)) name = Err err ->
  IsNotFound err = true ->
  createBuildPod E build w
  = ((Some (setMessage (StatusMessageInvalidOutputRef E)
              (setReason StatusReasonInvalidOutputReference emptyUpdate)), None),
     with_imageStreamQueue
       (resourceTriggerQueue.Add (resourceName (Build_Namespace build) (Build_Name build))
          streams (imageStreamQueue w)) w).
Proof.
  intros Hstreams Hne Hto Hname Hkind Hstream Hnot.
  unfold createBuildPod, resolveImageReferences. rewrite Hstreams.
  destruct streams as [|s streams]; [congruence|].
  cbn [length Nat.eqb].
  rewrite (resolveOutputDockerImageReference_notFound build ref name err
             Hto Hname Hkind Hstream Hnot).
  run_M.
  assert (Hmarker : isNoIntegratedRegistry err = false).
  { destruct err; try reflexivity. discriminate Hnot. }
  rewrite Hmarker. cbv beta iota.
  assert (Hmatch : hasError (Some err) [IsNotFound; NewErrorTypeMatcher ErrorTypeNotFound]
                   = true).
  { destruct err as [| |[]| | | |]; try discriminate Hnot. reflexivity. }
  rewrite Hmatch. reflexivity.
Qed.

End ImageReferencesFurther.

Lemma resolveImageReferences_resolved_witness :
  "ns1/b1" ∉ resourceTriggerQueue.get
                (imageStreamQueue
                   (snd (resolveImageReferences Examples.registryEnv
                           (Scenario.build BuildPhaseNew) emptyUpdate Scenario.waiting)))
                "ns1/is".
Proof.
  destruct (resolveImageReferences_resolved Examples.registryEnv
              (Scenario.build BuildPhaseNew)
              (fst (fst (fst (resolveImageReferences Examples.registryEnv
                                (Scenario.build BuildPhaseNew) emptyUpdate
                                Scenario.waiting))))
              emptyUpdate emptyUpdate ["ns1/is"] Scenario.waiting
              (snd (resolveImageReferences Examples.registryEnv
                      (Scenario.build BuildPhaseNew) emptyUpdate Scenario.waiting)))
    as (_ & _ & _ & Hgone).
  - reflexivity.
  - reflexivity.
  - exact (Forall_inv Hgone).
Defined.

Lemma createBuildPod_output_not_found_witness :
  createBuildPod Examples.emptyEnv (Scenario.build BuildPhaseNew) Scenario.start
  = ((Some (setMessage "invalid output"
              (setReason StatusReasonInvalidOutputReference emptyUpdate)), None),
     with_imageStreamQueue
       (resourceTriggerQueue.Add "ns1/b1" ["ns1/is"] ∅) Scenario.start).
Proof.
  apply (createBuildPod_output_not_found Examples.emptyEnv (Scenario.build BuildPhaseNew)
           {| ObjectReference_Kind := "ImageStreamTag";
              ObjectReference_Namespace := "";
              ObjectReference_Name := "is:latest" |}
           "is" (StatusError APIReasonNotFound) ["ns1/is"] Scenario.start).
  - reflexivity.
  - discriminate.
  - reflexivity.
  - discriminate.
  - right. split; [reflexivity|]. exists "latest". reflexivity.
  - reflexivity.
  - reflexivity.
Defined.

(** *** Build configs and retries *)

Lemma forEach_enqueueBuild (builds : list Build) (w : world) :
  forEach builds enqueueBuild w
  = (tt, with_buildQueue
           (foldl (fun queue buildKey => workqueue.Add buildKey queue) (buildQueue w)
              ((fun build => resourceName (Build_Namespace build) (Build_Name build))
                 <$> builds)) w).
Proof.
  revert w. induction builds as [|build builds IH]; intros w.
  - destruct w. reflexivity.
  - simpl. run_M.
    change (enqueueBuild build w)
      with (tt, with_buildQueue
                  (workqueue.Add (resourceName (Build_Namespace build) (Build_Name build))
                     (buildQueue w)) w).
    cbv beta iota. rewrite IH. destruct w. reflexivity.
Qed.

(** X25: [handleBuildConfig] succeeds exactly when the policy reports no
    error, no running build and at least one next build; an error of the
    policy is passed on. On failure nothing is queued; on success the build
    queue holds what it held plus the keys of the next builds, without
    duplicates, and nothing but the build queue changes. *)
Theorem handleBuildConfig_enqueues
    (GetNextConfigBuild : string -> string -> list Build * bool * option error)
    (bcNamespace bcName : string) (w : world) :
  let next := GetNextConfigBuild bcNamespace bcName in
  let r := handleBuildConfig GetNextConfigBuild bcNamespace bcName w in
  (fst r = None <-> snd next = None /\ snd (fst next) = false /\ fst (fst next) <> []) /\
  (forall err, snd next = Some err -> fst r = Some err) /\
  (fst r <> None -> snd r = w) /\
  (fst r = None ->
   forall key, key ∈ buildQueue (snd r) <->
               key ∈ buildQueue w \/
               exists build, build ∈ fst (fst next) /\
                             key = resourceName (Build_Namespace build) (Build_Name build)) /\
  (NoDup (buildQueue w) -> NoDup (buildQueue (snd r))) /\
  with_buildQueue (buildQueue w) (snd r) = w.
Proof.
  intros next r. subst next r. unfold handleBuildConfig.
  assert (Hfailed : forall (err : error) (builds : list Build) (running : bool)
                           (policy : option error),
            policy = Some err \/ policy = None /\ (running = true \/ builds = []) ->
            ((Some err : option error) = None <->
             policy = None /\ running = false /\ builds <> []) /\
            (forall err', policy = Some err' -> Some err = Some err') /\
            ((Some err : option error) <> None -> w = w) /\
            ((Some err : option error) = None ->
             forall key, key ∈ buildQueue w <->
                         key ∈ buildQueue w \/
                         exists build, build ∈ builds /\
                                       key = resourceName (Build_Namespace build)
                                               (Build_Name build)) /\
            (NoDup (buildQueue w) -> NoDup (buildQueue w)) /\
            with_buildQueue (buildQueue w) w = w).
  { intros err builds running policy Hwhy.
    split; [split; [discriminate|]|].
    { intros (H1 & H2 & H3). destruct Hwhy as [-> | [_ [-> | ->]]]; congruence. }
    split.
    { intros err' Hpolicy. destruct Hwhy as [-> | [-> _]]; congruence. }
    split; [reflexivity|]. split; [discriminate|]. split; [auto|].
    destruct w; reflexivity. }
  destruct (GetNextConfigBuild bcNamespace bcName) as [[nextBuilds running] [err|]];
    cbn [fst snd].
  { apply Hfailed. left. reflexivity. }
  destruct running.
  { apply Hfailed. right. auto. }
  destruct nextBuilds as [|build nextBuilds].
  { apply Hfailed. right. auto. }
  cbn [length Nat.eqb]. run_M. rewrite forEach_enqueueBuild. cbn [fst snd].
  split; [split; [intros _; repeat split; discriminate | reflexivity]|].
  split; [discriminate|]. split; [congruence|].
  split; [|split].
  - intros _ key. destruct w; simpl.
    rewrite (foldl_Add_elem_of _ _ key), workqueue_Add_elem_of, list_elem_of_fmap.
    split.
    + intros [[-> | Hin] | (b & -> & Hb)].
      * right. exists build. split; [left | reflexivity].
      * left. exact Hin.
      * right. exists b. split; [right; exact Hb | reflexivity].
    + intros [Hin | (b & Hb & ->)]; [left; right; exact Hin|].
      apply elem_of_cons in Hb. destruct Hb as [-> | Hb]; [left; left; reflexivity|].
      right. exists b. split; [reflexivity | exact Hb].
  - intros Hq. destruct w; simpl in *.
    apply foldl_Add_NoDup, workqueue_Add_NoDup, Hq.
  - destruct w; reflexivity.
Qed.




(** *** The CA config map *)

Section CAConfigMapFurther.

Context (GetBuildCAConfigMapName : Build -> string).
Context (AdditionalTrustedCAKey StatusMessageCannotCreateCAConfigMap : string).
Context (additionalTrustedCAData : string).

(** What a successful [createBuildCAConfigMap] leaves behind. *)
Lemma createBuildCAConfigMap_fresh (build : Build) (buildPod : PodObject)
    (update : buildUpdate) (configMaps : gmap string ConfigMap) (w : world) :
  configMaps !! resourceName (Pod_Namespace (PodObject_Pod buildPod))
                  (GetBuildCAConfigMapName build) = None ->
  createBuildCAConfigMap GetBuildCAConfigMapName AdditionalTrustedCAKey
    StatusMessageCannotCreateCAConfigMap additionalTrustedCAData
    build buildPod update configMaps w
  = ((update, None,
      <[resourceName (Pod_Namespace (PodObject_Pod buildPod))
          (GetBuildCAConfigMapName build)
        := createBuildCAConfigMapSpec GetBuildCAConfigMapName AdditionalTrustedCAKey
             additionalTrustedCAData build buildPod]> configMaps), w).
Proof.
  intros Hfree. unfold createBuildCAConfigMap, ConfigMaps_Create.
  cbn [createBuildCAConfigMapSpec ConfigMap_Name]. rewrite Hfree. reflexivity.
Qed.

(** X27: the CA config map that [createBuildCAConfigMap] creates for a
    build pod is found again by [findBuildCAConfigMap], and it is accepted
    for exactly the pods with the name and the UID of the pod it was created
    for: for any other pod the map is reported as present together with an
    error. The creation itself returns the update unchanged and no error. *)
Theorem findBuildCAConfigMap_after_create (build : Build) (buildPod other : PodObject)
    (update : buildUpdate) (configMaps : gmap string ConfigMap) (w : world) :
  Pod_Namespace (PodObject_Pod buildPod) = Build_Namespace build ->
  configMaps !! resourceName (Build_Namespace build) (GetBuildCAConfigMapName build)
  = None ->
  let r := createBuildCAConfigMap GetBuildCAConfigMapName AdditionalTrustedCAKey
             StatusMessageCannotCreateCAConfigMap additionalTrustedCAData
             build buildPod update configMaps w in
  fst (fst (fst r)) = update /\ snd (fst (fst r)) = None /\ snd r = w /\
  findBuildCAConfigMap GetBuildCAConfigMapName build other (snd (fst r))
  = (true,
     if bool_decide (Pod_Name (PodObject_Pod other) = Pod_Name (PodObject_Pod buildPod) /\
                     PodObject_UID other = PodObject_UID buildPod)
     then None
     else Some (Errorf "build CA configMap %s is not owned by build pod %s")).
Proof.
  intros Hns Hfree r. subst r.
  rewrite createBuildCAConfigMap_fresh by (rewrite Hns; exact Hfree).
  cbn [fst snd]. repeat split; try reflexivity.
  unfold findBuildCAConfigMap, ConfigMaps_Get. rewrite Hns, lookup_insert_eq.
  unfold hasBuildCAOwnerRef. cbn [createBuildCAConfigMapSpec ConfigMap_OwnerReferences existsb].
  rewrite orb_false_r.
  destruct (decide (Pod_Name (PodObject_Pod other) = Pod_Name (PodObject_Pod buildPod) /\
                    PodObject_UID other = PodObject_UID buildPod)) as [[Hname Huid] | Hne].
  - rewrite (bool_decide_eq_true_2 (_ /\ _)) by (split; assumption).
    rewrite (bool_decide_eq_true_2 (makeBuildCAOwnerRef other = _)); [reflexivity|].
    unfold makeBuildCAOwnerRef. rewrite Hname, Huid. reflexivity.
  - rewrite (bool_decide_eq_false_2 (_ /\ _)) by exact Hne.
    rewrite (bool_decide_eq_false_2 (makeBuildCAOwnerRef other = _)); [reflexivity|].
    intros Heq. apply Hne. unfold makeBuildCAOwnerRef in Heq.
    injection Heq as Hname Huid. split; assumption.
Qed.

(** X28: the CA config map of a build is created at most once: after a
    successful [createBuildCAConfigMap], a second one for the same build, for
    whichever pod of that namespace, returns an error and an update with
    reason CannotCreateCAConfigMap, records the event FailedCreate and leaves
    the config maps as the first call made them. *)
Theorem createBuildCAConfigMap_twice (build : Build) (buildPod other : PodObject)
    (update update' : buildUpdate) (configMaps : gmap string ConfigMap) (w w' : world) :
  Pod_Namespace (PodObject_Pod other) = Pod_Namespace (PodObject_Pod buildPod) ->
  configMaps !! resourceName (Pod_Namespace (PodObject_Pod buildPod))
                  (GetBuildCAConfigMapName build) = None ->
  let first := createBuildCAConfigMap GetBuildCAConfigMapName AdditionalTrustedCAKey
                 StatusMessageCannotCreateCAConfigMap additionalTrustedCAData
                 build buildPod update configMaps w in
  let second := createBuildCAConfigMap GetBuildCAConfigMapName AdditionalTrustedCAKey
                  StatusMessageCannotCreateCAConfigMap additionalTrustedCAData
                  build other update' (snd (fst first)) w' in
  snd (fst (fst first)) = None /\
  fst second
  = (setMessage StatusMessageCannotCreateCAConfigMap
       (setReason "CannotCreateCAConfigMap" update'),
     Some (Errorf "failed to create build certificate authority configMap: %v"),
     snd (fst first)) /\
  snd second
  = with_recorder
      (recorder w' ++
       [{| Event_Object := resourceName (Build_Namespace build) (Build_Name build);
           Event_Type := EventTypeWarning;
           Event_Reason := "FailedCreate" |}]) w'.
Proof.
  intros Hns Hfree first second. subst first second.
  rewrite createBuildCAConfigMap_fresh by exact Hfree.
  cbn [fst snd]. split; [reflexivity|].
  unfold createBuildCAConfigMap, ConfigMaps_Create.
  cbn [createBuildCAConfigMapSpec ConfigMap_Name].
  rewrite Hns, lookup_insert_eq. unfold Eventf. run_M. split; reflexivity.
Qed.

End CAConfigMapFurther.

Lemma findBuildCAConfigMap_after_create_witness :
  findBuildCAConfigMap Examples.caName (Scenario.build BuildPhasePending) Examples.otherPod
    (snd (fst (createBuildCAConfigMap Examples.caName "additional-ca.crt"
                 "cannot create CA config map" "" (Scenario.build BuildPhasePending)
                 Examples.buildPod emptyUpdate ∅ Scenario.start)))
  = (true, Some (Errorf "build CA configMap %s is not owned by build pod %s")).
Proof.
  destruct (findBuildCAConfigMap_after_create Examples.caName "additional-ca.crt"
              "cannot create CA config map" "" (Scenario.build BuildPhasePending)
              Examples.buildPod Examples.otherPod emptyUpdate ∅ Scenario.start)
    as (_ & _ & _ & Hfound).
  - reflexivity.
  - reflexivity.
  - exact Hfound.
Defined.

Lemma createBuildCAConfigMap_twice_witness :
  recorder
    (snd (createBuildCAConfigMap Examples.caName "additional-ca.crt"
            "cannot create CA config map" "" (Scenario.build BuildPhasePending)
            Examples.otherPod emptyUpdate
            (snd (fst (createBuildCAConfigMap Examples.caName "additional-ca.crt"
                         "cannot create CA config map" ""
                         (Scenario.build BuildPhasePending) Examples.buildPod
                         emptyUpdate ∅ Scenario.start)))
            Scenario.start))
  = [{| Event_Object := "ns1/b1"; Event_Type := EventTypeWarning;
        Event_Reason := "FailedCreate" |}].
Proof.
  destruct (createBuildCAConfigMap_twice Examples.caName "additional-ca.crt"
              "cannot create CA config map" "" (Scenario.build BuildPhasePending)
              Examples.buildPod Examples.otherPod emptyUpdate emptyUpdate ∅
              Scenario.start Scenario.start)
    as (_ & _ & Hworld).
  - reflexivity.
  - reflexivity.
  - rewrite Hworld. reflexivity.
Defined.

(** *** Pod events *)

Lemma enqueueBuild_again (key : string) (w : world) :
  key ∈ buildQueue w -> buildQueue_Add key w = (tt, w).
Proof.
  intros Hin. unfold buildQueue_Add. run_M. unfold workqueue.Add.
  rewrite decide_True by exact Hin. destruct w; reflexivity.
Qed.

(** X29: an event for the pod of a build wakes that build: an update of the
    pod with a new resource version, and its deletion, seen directly or
    through a tombstone, enqueue the very key that an event for the build
    enqueues; and a pod update while that key is still waiting changes
    nothing. *)
Theorem podUpdated_enqueues_build (build : Build) (old cur : PodObject) (w : world) :
  PodObject_Annotations cur !! BuildAnnotation = Some (Build_Name build) ->
  Pod_Namespace (PodObject_Pod cur) = Build_Namespace build ->
  Build_Name build <> "" ->
  PodObject_ResourceVersion cur <> PodObject_ResourceVersion old ->
  podUpdated old cur w = enqueueBuild build w /\
  podDeleted (Object cur) w = enqueueBuild build w /\
  podDeleted (Tombstone (Object cur)) w = enqueueBuild build w /\
  podUpdated old cur (snd (enqueueBuild build w)) = (tt, snd (enqueueBuild build w)).
Proof.
  intros Hannotation Hns Hname Hversion.
  assert (Hbuild : isBuildPod cur = true).
  { unfold isBuildPod, getBuildName. rewrite Hannotation. simpl.
    destruct (Build_Name build); [congruence | reflexivity]. }
  assert (Henqueue : enqueueBuildForPod cur = enqueueBuild build).
  { unfold enqueueBuildForPod, enqueueBuild, getBuildName.
    rewrite Hannotation, Hns. reflexivity. }
  assert (Hupdated : podUpdated old cur = enqueueBuild build).
  { unfold podUpdated. rewrite bool_decide_eq_false_2 by exact Hversion.
    rewrite Hbuild. exact Henqueue. }
  split; [rewrite Hupdated; reflexivity|].
  split; [unfold podDeleted; cbn [asObject]; rewrite Hbuild, Henqueue; reflexivity|].
  split; [unfold podDeleted; cbn [asObject]; rewrite Hbuild, Henqueue; reflexivity|].
  rewrite Hupdated. unfold enqueueBuild. apply enqueueBuild_again.
  unfold buildQueue_Add. run_M. cbn [snd]. destruct w; simpl.
  apply workqueue_Add_elem_of. left. reflexivity.
Qed.

Lemma podUpdated_enqueues_build_witness :
  buildQueue (snd (podUpdated Examples.otherPod Examples.buildPod Scenario.start))
  = ["ns1/b1"].
Proof.
  destruct (podUpdated_enqueues_build (Scenario.build BuildPhasePending)
              Examples.otherPod Examples.buildPod Scenario.start) as (Hupdated & _).
  - reflexivity.
  - reflexivity.
  - discriminate.
  - discriminate.
  - rewrite Hupdated. reflexivity.
Defined.

(** *** A new build whose pod name is taken *)

Section ForeignPod.

Context (E : Env).

(** X30: a New build that is not cancelled and whose pod name is taken by a
    pod the build does not own is failed in one reconciliation: no pod is
    created or deleted and the build is registered under no image stream, the
    one patch sent moves the build to Error with reason BuildPodExists and a
    completion time, the event BuildFailed is recorded and the build's config
    is queued. *)
Theorem handleBuild_foreign_pod (build : Build) (pod : Pod) (w : world) :
  Status_Phase (Build_Status build) = BuildPhaseNew ->
  Status_Cancelled (Build_Status build) = false ->
  Strategy_JenkinsPipelineStrategy (Spec_Strategy (Build_Spec build)) = None ->
  podStore E (Build_Namespace build) (GetBuildPodName E build) = Ok pod ->
  HasOwnerReference E pod build = false ->
  (forall patch, Patch E (Build_Namespace build) (Build_Name build) patch
                 = Ok (Patch_Newer patch)) ->
  let r := handleBuild E build w in
  exists newer,
    fst r = None /\
    podClient (snd r) = podClient w /\
    imageStreamQueue (snd r) = imageStreamQueue w /\
    buildPatcher (snd r) = buildPatcher w ++ [createBuildPatch build newer] /\
    Status_Phase (Build_Status newer) = BuildPhaseError /\
    Status_Reason (Build_Status newer) = StatusReasonBuildPodExists /\
    Status_CompletionTimestamp (Build_Status newer)
    = Some (default (clock w) (Status_CompletionTimestamp (Build_Status build))) /\
    recorder (snd r)
    = recorder w ++
      [{| Event_Object := resourceName (Build_Namespace build) (Build_Name build);
          Event_Type := EventTypeNormal;
          Event_Reason := "BuildFailed" |}] /\
    buildConfigQueue (snd r)
    = workqueue.Add (resourceName (Build_Namespace build) (ConfigNameForBuild E newer))
        (buildConfigQueue w).
Proof.
  intros Hphase Hcancelled Hpipeline Hpod Hforeign Hpatch r. subst r.
  assert (Hactive : IsTerminalPhase (Status_Phase (Build_Status build)) = false).
  { rewrite Hphase. reflexivity. }
  assert (Hignore : shouldIgnore build = false).
  { unfold shouldIgnore, IsBuildComplete. rewrite Hpipeline, Hactive. reflexivity. }
  assert (Hcancel : shouldCancel build = false).
  { unfold shouldCancel. rewrite Hcancelled. apply andb_false_r. }
  set (update := transitionToPhase BuildPhaseError StatusReasonBuildPodExists
                   (StatusMessageBuildPodExists E)).
  assert (Hswitch : handleBuild_switch E build (Some pod) w = ((Some update, None), w)).
  { unfold handleBuild_switch. rewrite Hcancel, Hphase.
    rewrite bool_decide_eq_true_2 by reflexivity.
    unfold handleNewBuild. rewrite Hforeign. reflexivity. }
  rewrite handleBuild_run, Hignore, Hpipeline, Hpod. cbn [isNil negb andb]. cbv zeta.
  rewrite Hswitch. cbn [fst snd isEmpty].
  destruct (updateBuild_terminal_run E build update (Some pod) w BuildPhaseError
              eq_refl Hactive eq_refl Hpatch)
    as (newer & Hres & Hsent & Hto & Hdone & _ & Hreason & Hevent & Hbc & _).
  destruct (updateBuild_cases E build update (Some pod) w)
    as [Herr | (st & update' & _ & _ & Hrun)].
  { rewrite Herr in Hres. discriminate Hres. }
  cbv zeta in Hrun. rewrite Hpatch in Hrun.
  destruct Hrun as (_ & _ & Hpods & Hstreams & _).
  exists newer. change (isEmpty update) with false. cbn [fst snd].
  rewrite Hres, Hsent, Hto, Hreason, Hdone, Hevent, Hbc, Hpods, Hstreams.
  repeat split; try reflexivity;
    try (destruct (Status_CompletionTimestamp (Build_Status build)); reflexivity).
Qed.

End ForeignPod.

Lemma handleBuild_foreign_pod_witness :
  exists newer,
    fst (handleBuild Examples.foreignPodEnv (Scenario.build BuildPhaseNew) Scenario.start)
    = None /\
    podClient (snd (handleBuild Examples.foreignPodEnv (Scenario.build BuildPhaseNew)
                      Scenario.start)) = ∅ /\
    Status_Phase (Build_Status newer) = BuildPhaseError /\
    Status_Reason (Build_Status newer) = StatusReasonBuildPodExists.
Proof.
  destruct (handleBuild_foreign_pod Examples.foreignPodEnv (Scenario.build BuildPhaseNew)
              (Scenario.newPod (Scenario.build BuildPhaseNew)) Scenario.start)
    as (newer & Hres & Hpods & _ & _ & Hphase & Hreason & _).
  - reflexivity.
  - reflexivity.
  - reflexivity.
  - reflexivity.
  - reflexivity.
  - intros patch. reflexivity.
  - exists newer. split; [exact Hres|]. split; [exact Hpods|].
    split; [exact Hphase | exact Hreason].
Defined.
